(** * chat-tui: streaming client and conversation controller

    A shallow embedding of the Go packages [internal/llm] (openai.go,
    client.go), [internal/commands] (slash.go), [internal/ui/components]
    (input.go, stats.go) and [internal/ui] (chat.go), followed by the
    properties of the streaming protocol client, the statistics it
    accumulates, the slash commands and the Bubble Tea update function.

    Conventions.
    - A Go [string] or [[]byte] is a [string] (a sequence of bytes).
    - A Go [int] that counts lines, arguments or messages is a [Z]; these
      counters stay far below 2^63, so no wrap-around is written for them.
    - [time.Time] is the monotonic clock reading in nanoseconds, a [Z];
      [time.Duration] is a [Z] number of nanoseconds, saturating as
      [Time.Sub] does.
    - [float64] is the kernel's binary64 type.
    - Functions of Go's standard library and of third-party packages whose
      text is not part of the repository are fields of the class [GoLib];
      an ASCII instance of it is given for evaluation. *)

From Stdlib Require Import ZArith List String Ascii Bool Lia Floats Uint63.
From Stdlib Require Import DecimalString.

#[local] Set Warnings "-inexact-float".
Import ListNotations.

Open Scope string_scope.
Open Scope Z_scope.

(* ================================================================== *)
(** * Go runtime pieces used by the sources                             *)
(* ================================================================== *)

Module Go.

(** Go's [error]: the value is identified with its message. *)
Definition error := string.

Definition newline : ascii := ascii_of_nat 10.
Definition dquote : ascii := ascii_of_nat 34.
Definition nl : string := String newline "".
Definition dq : string := String dquote "".

(** [len(s)] *)
Definition len (s : string) : Z := Z.of_nat (String.length s).

(** [len(xs)] on a slice *)
Definition slice_len {A} (xs : list A) : Z := Z.of_nat (List.length xs).

(** [append(xs, x)] *)
Definition append {A} (xs : list A) (x : A) : list A := (xs ++ [x])%list.

(** [strings.HasPrefix(s, prefix)], [bytes.HasPrefix] *)
Fixpoint HasPrefix (s prefix : string) : bool :=
  match prefix, s with
  | EmptyString, _ => true
  | String _ _, EmptyString => false
  | String a p', String b s' => Ascii.eqb a b && HasPrefix s' p'
  end.

Fixpoint drop (n : nat) (s : string) : string :=
  match n, s with
  | O, _ => s
  | S _, EmptyString => EmptyString
  | S n', String _ s' => drop n' s'
  end.

Fixpoint take (n : nat) (s : string) : string :=
  match n, s with
  | O, _ => EmptyString
  | S _, EmptyString => EmptyString
  | S n', String a s' => String a (take n' s')
  end.

(** [strings.TrimPrefix(s, prefix)], [bytes.TrimPrefix] *)
Definition TrimPrefix (s prefix : string) : string :=
  if HasPrefix s prefix then drop (String.length prefix) s else s.

(** [strings.HasSuffix(s, suffix)] *)
Definition HasSuffix (s suffix : string) : bool :=
  (String.length suffix <=? String.length s)%nat &&
  String.eqb (drop (String.length s - String.length suffix) s) suffix.

(** [strings.TrimSuffix(s, suffix)] *)
Definition TrimSuffix (s suffix : string) : string :=
  if HasSuffix s suffix
  then take (String.length s - String.length suffix) s
  else s.

(** [strings.Join(elems, sep)] *)
Fixpoint Join (elems : list string) (sep : string) : string :=
  match elems with
  | [] => ""
  | [x] => x
  | x :: rest => x ++ sep ++ Join rest sep
  end.

(** [%d] of [fmt] *)
Definition itoa (n : Z) : string := NilZero.string_of_int (Z.to_int n).

(** ** Time *)

Definition Time := Z.
Definition Duration := Z.

Definition minDuration : Duration := - 2 ^ 63.
Definition maxDuration : Duration := 2 ^ 63 - 1.
Definition Second : Duration := 1000000000.

(** [t.Sub(u)]: the difference of the monotonic readings, clamped to
    the range of [Duration]. *)
Definition Sub (t u : Time) : Duration :=
  let d := t - u in
  if d <? minDuration then minDuration
  else if maxDuration <? d then maxDuration
  else d.

(** [float64(n)] for an [int] *)
Definition float64_of_int (n : Z) : float :=
  if n <? 0
  then PrimFloat.opp (PrimFloat.of_uint63 (Uint63.of_Z (- n)))
  else PrimFloat.of_uint63 (Uint63.of_Z n).

(** [d.Seconds()]:
    [sec := d / Second; nsec := d % Second;
     return float64(sec) + float64(nsec)/1e9] *)
Definition Seconds (d : Duration) : float :=
  let sec := Z.quot d Second in
  let nsec := Z.rem d Second in
  PrimFloat.add (float64_of_int sec)
                (PrimFloat.div (float64_of_int nsec) 1e9%float).

(** The clock behind [time.Now()]: the last reading and the time that
    elapses before each later call.  Readings never decrease, which is
    what Go's monotonic clock promises; two calls may return the same
    reading. *)
Record Clock := mkClock { reading : Time; elapse : nat -> N }.

Definition tick (c : Clock) : Time * Clock :=
  let t := reading c + Z.of_N (elapse c 0%nat) in
  (t, {| reading := t; elapse := fun k => elapse c (S k) |}).

(** What [bufio.Reader.ReadBytes] reports besides bytes. *)
Inductive ioerr :=
| io_EOF
| io_failure (e : error).

(** [reader.ReadBytes('\n')] called until the body is used up: the
    lines it returns with a nil error, each ending in the delimiter,
    and the bytes it returns together with the final error. [cur] is
    the part of the current line already scanned. *)
Fixpoint ReadBytes_all (cur body : string) : list string * string :=
  match body with
  | EmptyString => ([], cur)
  | String c rest =>
      if Ascii.eqb c newline
      then let (ls, tail) := ReadBytes_all "" rest in
           ((cur ++ String c "") :: ls, tail)
      else ReadBytes_all (cur ++ String c "") rest
  end.

End Go.

Import Go.

(* ================================================================== *)
(** * package llm: data (client.go)                                     *)
(* ================================================================== *)

Module Message.
(** [type Message struct { Role, Content string }] *)
Record t := mk { Role : string; Content : string }.
End Message.

Module StreamChunk.
(** [type StreamChunk struct { Content string; Done bool; Error error }] *)
Record t := mk { Content : string; Done : bool; Error : option error }.
End StreamChunk.

Module RequestStats.
(** [type RequestStats struct], field for field. *)
Record t := mk {
  StartTime : Time;
  EndTime : Time;
  FirstTokenTime : Time;
  Model : string;
  InputTokens : Z;
  OutputTokens : Z;
  TotalTokens : Z;
  TokensPerSec : float;
  TimeToFirstToken : Duration;
  GenerationTime : Duration;
  PostFirstTokenSpeed : float;
  Latency : Duration;
  HTTPStatus : Z;
  CostEstimate : float
}.

(** The fields the streaming client assigns after the struct literal. *)
Inductive field :=
| fEndTime | fFirstTokenTime | fOutputTokens | fTokensPerSec
| fTimeToFirstToken | fGenerationTime | fPostFirstTokenSpeed
| fLatency | fHTTPStatus.

Definition field_eqb (a b : field) : bool :=
  match a, b with
  | fEndTime, fEndTime | fFirstTokenTime, fFirstTokenTime
  | fOutputTokens, fOutputTokens | fTokensPerSec, fTokensPerSec
  | fTimeToFirstToken, fTimeToFirstToken
  | fGenerationTime, fGenerationTime
  | fPostFirstTokenSpeed, fPostFirstTokenSpeed
  | fLatency, fLatency | fHTTPStatus, fHTTPStatus => true
  | _, _ => false
  end.

(** One assignment [stats.f = v]. *)
Inductive write :=
| wEndTime (v : Time)
| wFirstTokenTime (v : Time)
| wOutputTokens (v : Z)
| wTokensPerSec (v : float)
| wTimeToFirstToken (v : Duration)
| wGenerationTime (v : Duration)
| wPostFirstTokenSpeed (v : float)
| wLatency (v : Duration)
| wHTTPStatus (v : Z).

Definition target (w : write) : field :=
  match w with
  | wEndTime _ => fEndTime
  | wFirstTokenTime _ => fFirstTokenTime
  | wOutputTokens _ => fOutputTokens
  | wTokensPerSec _ => fTokensPerSec
  | wTimeToFirstToken _ => fTimeToFirstToken
  | wGenerationTime _ => fGenerationTime
  | wPostFirstTokenSpeed _ => fPostFirstTokenSpeed
  | wLatency _ => fLatency
  | wHTTPStatus _ => fHTTPStatus
  end.

Definition apply (w : write) (s : t) : t :=
  let '(mk st en ft mo it ot tot tps ttft gt pfs la hs ce) := s in
  match w with
  | wEndTime v => mk st v ft mo it ot tot tps ttft gt pfs la hs ce
  | wFirstTokenTime v => mk st en v mo it ot tot tps ttft gt pfs la hs ce
  | wOutputTokens v => mk st en ft mo it v tot tps ttft gt pfs la hs ce
  | wTokensPerSec v => mk st en ft mo it ot tot v ttft gt pfs la hs ce
  | wTimeToFirstToken v => mk st en ft mo it ot tot tps v gt pfs la hs ce
  | wGenerationTime v => mk st en ft mo it ot tot tps ttft v pfs la hs ce
  | wPostFirstTokenSpeed v => mk st en ft mo it ot tot tps ttft gt v la hs ce
  | wLatency v => mk st en ft mo it ot tot tps ttft gt pfs v hs ce
  | wHTTPStatus v => mk st en ft mo it ot tot tps ttft gt pfs la v ce
  end.

(** How often a field was assigned in a sequence of assignments. *)
Definition assignments (f : field) (ws : list write) : nat :=
  List.length (filter (fun w => field_eqb (target w) f) ws).

(** A field is present when the client assigned it; otherwise it still
    holds the zero value of the struct literal. *)
Definition present (f : field) (ws : list write) : bool :=
  existsb (fun w => field_eqb (target w) f) ws.
End RequestStats.

Module StreamResp.
(** The anonymous struct that [ChatStream] decodes each payload into:
    [struct { Choices []struct { Delta struct { Content string } } }] *)
Record Delta := mkDelta { Content : string }.
Record Choice := mkChoice { Delta_ : Delta }.
Record t := mk { Choices : list Choice }.
End StreamResp.

(* ================================================================== *)
(** * Bubble Tea: the messages and keys the program looks at            *)
(* ================================================================== *)

Module tea.
Inductive KeyType :=
| KeyCtrlC | KeyCtrlS | KeyCtrlD | KeyTab | KeyUp | KeyDown | KeyEnter
| KeyRunes | KeyOther (code : Z).

(** [tea.KeyMsg]; the field [Type] is written [Type_]. *)
Record KeyMsg := mkKey { Type_ : KeyType; Runes : string; Alt : bool }.

(** Messages whose types belong to the library. *)
Inductive LibMsg :=
| Key (k : KeyMsg)
| WindowSize (Width Height : Z)
| Other (tag : Z).
End tea.

(* ================================================================== *)
(** * Library functions outside the repository                          *)
(* ================================================================== *)

(** [textarea.Model], as far as the program observes it. *)
Module textarea.
Record Model := mk { value : string; width : Z; height : Z; focus : bool }.
End textarea.

Class GoLib := {
  (** [strings.TrimSpace], [bytes.TrimSpace] *)
  TrimSpace : string -> string;
  (** [strings.Fields] *)
  Fields : string -> list string;
  (** [strings.ToLower] *)
  ToLower : string -> string;
  (** [strconv.ParseFloat(s, 64)]; [None] when it returns an error *)
  ParseFloat : string -> option float;
  (** [fmt.Sprintf("%.2f", x)] *)
  Sprintf_2f : float -> string;
  (** [json.Unmarshal(data, &streamResp)] on a fresh [streamResp];
      [None] when it returns an error *)
  Unmarshal : string -> option StreamResp.t;
  (** [clipboard.WriteAll(text)]; [Some e] when it returns the error [e] *)
  clipboard_WriteAll : string -> option error;
  (** [textarea.Model.Update(msg)], the model it returns *)
  textarea_Update : textarea.Model -> tea.LibMsg -> textarea.Model;
  (** [tea.KeyMsg.String()] *)
  KeyMsg_String : tea.KeyMsg -> string
}.

(* ================================================================== *)
(** * package llm: the OpenAI-compatible client (openai.go)             *)
(* ================================================================== *)

Module llm.

(** [type OpenAIClient struct]; [httpClient] is its timeout. *)
Record OpenAIClient := mkClient {
  apiKey : string;
  baseURL : string;
  model : string;
  temperature : float;
  maxTokens : Z;
  httpClient : Duration
}.

(** [func NewOpenAIClient(apiKey, baseURL, model, temperature, maxTokens)] *)
Definition NewOpenAIClient (apiKey baseURL model : string)
    (temperature : float) (maxTokens : Z) : OpenAIClient :=
  {| apiKey := apiKey;
     baseURL := TrimSuffix baseURL "/";
     model := model;
     temperature := temperature;
     maxTokens := maxTokens;
     httpClient := 60 * Second |}.

Definition GetModel (c : OpenAIClient) : string := model c.

Definition SetModel (c : OpenAIClient) (m : string) : OpenAIClient :=
  mkClient (apiKey c) (baseURL c) m (temperature c) (maxTokens c)
           (httpClient c).

Definition GetTemperature (c : OpenAIClient) : float := temperature c.

Definition SetTemperature (c : OpenAIClient) (temp : float) : OpenAIClient :=
  mkClient (apiKey c) (baseURL c) (model c) temp (maxTokens c)
           (httpClient c).

(** ** What the network does to one request *)

(** [resp]: the status code, the bytes the body delivers, and how the
    body ends ([io.EOF], or a transport failure after those bytes). *)
Record Response := mkResponse {
  StatusCode : Z;
  Body : string;
  BodyEnd : ioerr
}.

Inductive Exchange :=
| MarshalFails (e : error)       (* json.Marshal(reqBody) *)
| NewRequestFails (e : error)    (* http.NewRequestWithContext *)
| DoFails (e : error)            (* c.httpClient.Do(req) *)
| Responds (resp : Response).

(** ** The state a call of [ChatStream] works on *)

(** What the call and its goroutine do to the world outside them. *)
Inductive event :=
| Assign (w : RequestStats.write)   (* [stats.f = v] *)
| Send (c : StreamChunk.t)          (* [chunks <- c] *)
| CloseChunks                       (* [close(chunks)] *)
| CloseBody.                        (* [resp.Body.Close()] *)

Record Run := mkRun {
  stats : RequestStats.t;   (* the record behind the pointer [stats] *)
  trace : list event;       (* what was done so far, oldest first *)
  clock : Clock
}.

(** The values sent on the channel, oldest first. *)
Fixpoint sent (tr : list event) : list StreamChunk.t :=
  match tr with
  | [] => []
  | Send c :: tr' => c :: sent tr'
  | _ :: tr' => sent tr'
  end.

(** The assignments to fields of [stats], oldest first. *)
Fixpoint assigned (tr : list event) : list RequestStats.write :=
  match tr with
  | [] => []
  | Assign w :: tr' => w :: assigned tr'
  | _ :: tr' => assigned tr'
  end.

Definition chunks (r : Run) : list StreamChunk.t := sent (trace r).
Definition writes (r : Run) : list RequestStats.write := assigned (trace r).

Definition is_close_chunks (e : event) : bool :=
  match e with CloseChunks => true | _ => false end.
Definition is_close_body (e : event) : bool :=
  match e with CloseBody => true | _ => false end.

Definition chanClosed (r : Run) : bool := existsb is_close_chunks (trace r).
Definition bodyClosed (r : Run) : bool := existsb is_close_body (trace r).

Definition M (A : Type) : Type := Run -> A * Run.

Definition ret {A} (a : A) : M A := fun r => (a, r).

Definition bind {A B} (m : M A) (k : A -> M B) : M B :=
  fun r => let (a, r') := m r in k a r'.

Declare Scope go_scope.
Delimit Scope go_scope with go.
Notation "x <- c1 ;; c2" := (bind c1 (fun x => c2))
  (at level 100, c1 at next level, right associativity) : go_scope.
Notation "c1 ;; c2" := (bind c1 (fun _ => c2))
  (at level 100, right associativity) : go_scope.
Open Scope go_scope.

(** [time.Now()] *)
Definition time_Now : M Time :=
  fun r => let (t, c) := tick (clock r) in (t, mkRun (stats r) (trace r) c).

Definition record (e : event) (r : Run) : Run :=
  mkRun (stats r) (append (trace r) e) (clock r).

(** [stats.f = v] *)
Definition assign (w : RequestStats.write) : M unit :=
  fun r => (tt, record (Assign w)
                  (mkRun (RequestStats.apply w (stats r)) (trace r) (clock r))).

(** reading [stats] *)
Definition load : M RequestStats.t := fun r => (stats r, r).

(** [chunks <- c], with a consumer that receives the chunk: the send
    returns.  ([wire.executed] cuts a run at the send that blocks
    when the consumer stops receiving.) *)
Definition send (c : StreamChunk.t) : M unit :=
  fun r => (tt, record (Send c) r).

(** [close(chunks)] *)
Definition close_chunks : M unit := fun r => (tt, record CloseChunks r).

(** [resp.Body.Close()] *)
Definition Body_Close : M unit := fun r => (tt, record CloseBody r).

Definition when (b : bool) (m : M unit) : M unit :=
  if b then m else ret tt.

(** The three shapes of [StreamChunk] literal in the source. *)
Definition chunkError (e : error) : StreamChunk.t :=
  StreamChunk.mk "" false (Some e).
Definition chunkDone : StreamChunk.t := StreamChunk.mk "" true None.
Definition chunkContent (content : string) : StreamChunk.t :=
  StreamChunk.mk content false None.

(** The statements between [stats.EndTime = time.Now()] and the send of
    the [Done] chunk; the source has them twice, in the branch for a
    read error and in the branch for the end marker. *)
Definition finalize (tokenCount : Z) (firstTokenReceived : bool) : M unit :=
  t <- time_Now ;;
  assign (RequestStats.wEndTime t) ;;
  s <- load ;;
  assign (RequestStats.wLatency
            (Sub (RequestStats.EndTime s) (RequestStats.StartTime s))) ;;
  assign (RequestStats.wOutputTokens tokenCount) ;;
  when firstTokenReceived
    (s <- load ;;
     assign (RequestStats.wGenerationTime
               (Sub (RequestStats.EndTime s)
                    (RequestStats.FirstTokenTime s))) ;;
     s <- load ;;
     when ((1 <? tokenCount) && (0 <? RequestStats.GenerationTime s))
       (assign (RequestStats.wPostFirstTokenSpeed
                  (PrimFloat.div (float64_of_int (tokenCount - 1))
                     (Seconds (RequestStats.GenerationTime s)))))) ;;
  s <- load ;;
  when ((0 <? tokenCount) && (0 <? RequestStats.Latency s))
    (assign (RequestStats.wTokensPerSec
               (PrimFloat.div (float64_of_int tokenCount)
                  (Seconds (RequestStats.Latency s))))).

Section Stream.
Context `{GoLib}.

(** The [for] loop of the goroutine. [lines] are the results of the
    calls of [reader.ReadBytes] that return a nil error, [err] the
    error of the call after them; [tokenCount] and
    [firstTokenReceived] are the goroutine's local variables. *)
Fixpoint readLoop (lines : list string) (err : ioerr)
    (tokenCount : Z) (firstTokenReceived : bool) : M unit :=
  match lines with
  | [] =>
      (* err != nil *)
      match err with
      | io_EOF => ret tt
      | io_failure e => send (chunkError ("stream read error: " ++ e))
      end ;;
      finalize tokenCount firstTokenReceived ;;
      send chunkDone
  | line :: rest =>
      let line := TrimSpace line in
      if len line =? 0 then
        readLoop rest err tokenCount firstTokenReceived
      else if negb (HasPrefix line "data: ") then
        readLoop rest err tokenCount firstTokenReceived
      else
        let data := TrimPrefix line "data: " in
        if String.eqb data "[DONE]" then
          finalize tokenCount firstTokenReceived ;;
          send chunkDone
        else
          match Unmarshal data with
          | None => readLoop rest err tokenCount firstTokenReceived
          | Some streamResp =>
              match StreamResp.Choices streamResp with
              | c0 :: _ =>
                  if negb (String.eqb
                             (StreamResp.Content (StreamResp.Delta_ c0)) "")
                  then
                    let content :=
                      StreamResp.Content (StreamResp.Delta_ c0) in
                    let tokenCount := tokenCount + 1 in
                    when (negb firstTokenReceived)
                      (t <- time_Now ;;
                       assign (RequestStats.wFirstTokenTime t) ;;
                       s <- load ;;
                       assign (RequestStats.wTimeToFirstToken
                                 (Sub (RequestStats.FirstTokenTime s)
                                      (RequestStats.StartTime s)))) ;;
                    send (chunkContent content) ;;
                    readLoop rest err tokenCount true
                  else readLoop rest err tokenCount firstTokenReceived
              | [] => readLoop rest err tokenCount firstTokenReceived
              end
          end
  end.

(** The goroutine started by [ChatStream]: the loop, then the deferred
    [close(chunks)] and [resp.Body.Close()]. *)
Definition stream_goroutine (resp : Response) : M unit :=
  let tokenCount := 0 in
  let firstTokenReceived := false in
  readLoop (fst (ReadBytes_all "" (Body resp))) (BodyEnd resp)
           tokenCount firstTokenReceived ;;
  close_chunks ;;
  Body_Close.

(** The state [ChatStream] starts from:
    [stats := &RequestStats{StartTime: time.Now(), Model: c.model}]. *)
Definition new_run (c : OpenAIClient) (clk : Clock) : Run :=
  let (t, clk') := tick clk in
  {| stats := RequestStats.mk t 0 0 (model c) 0 0 0 0%float 0 0 0%float
                              0 0 0%float;
     trace := [];
     clock := clk' |}.

(** What [ChatStream] returns besides [stats]. *)
Inductive StreamResult :=
| StreamErr (err : error)   (* [nil, stats, err] *)
| StreamOk.                 (* [chunks, stats, nil] *)

(** [func (c *OpenAIClient) ChatStream(ctx, messages)] up to its
    [return]; the goroutine has not run yet. *)
Definition ChatStream (c : OpenAIClient) (messages : list Message.t)
    (net : Exchange) : M StreamResult :=
  match net with
  | MarshalFails e => ret (StreamErr ("failed to marshal request: " ++ e))
  | NewRequestFails e => ret (StreamErr ("failed to create request: " ++ e))
  | DoFails e => ret (StreamErr ("failed to send request: " ++ e))
  | Responds resp =>
      assign (RequestStats.wHTTPStatus (StatusCode resp)) ;;
      if negb (StatusCode resp =? 200) then
        Body_Close ;;
        ret (StreamErr ("API error (status " ++ itoa (StatusCode resp)
                          ++ "): " ++ Body resp))
      else ret StreamOk
  end.

(** A whole stream: the call of [ChatStream] and, when it returns a
    channel, its goroutine run to its end with a consumer that keeps
    receiving. *)
Definition stream (c : OpenAIClient) (messages : list Message.t)
    (net : Exchange) (clk : Clock) : StreamResult * Run :=
  let (res, r) := ChatStream c messages net (new_run c clk) in
  match res, net with
  | StreamOk, Responds resp => (res, snd (stream_goroutine resp r))
  | _, _ => (res, r)
  end.

End Stream.

End llm.

(* ================================================================== *)
(** * An instance of the library functions, for evaluation              *)
(* ================================================================== *)

(** Byte-wise versions of the library functions, exact on ASCII text in
    the forms the examples use: decimal literals for [ParseFloat], and
    for [Unmarshal] the objects
    [{"choices":[{"delta":{"content":"..."}}]}] without escapes,
    [{"choices":[{"delta":{}}]}] and [{"choices":[]}]. *)
Module AsciiLib.

Definition is_space (c : ascii) : bool :=
  let n := nat_of_ascii c in
  ((9 <=? n) && (n <=? 13))%nat || (n =? 32)%nat.

Fixpoint trim_left (s : string) : string :=
  match s with
  | String c s' => if is_space c then trim_left s' else s
  | EmptyString => EmptyString
  end.

Fixpoint trim_right (s : string) : string :=
  match s with
  | EmptyString => EmptyString
  | String c s' =>
      match trim_right s' with
      | EmptyString => if is_space c then EmptyString else String c ""
      | t => String c t
      end
  end.

Definition trim_space (s : string) : string := trim_right (trim_left s).

Definition flush (cur : string) (acc : list string) : list string :=
  match cur with EmptyString => acc | _ => cur :: acc end.

Fixpoint fields_from (cur : string) (s : string) : list string :=
  match s with
  | EmptyString => flush cur []
  | String c s' =>
      if is_space c then flush cur (fields_from "" s')
      else fields_from (cur ++ String c "") s'
  end.

Definition fields (s : string) : list string := fields_from "" s.

Definition lower (c : ascii) : ascii :=
  let n := nat_of_ascii c in
  if ((65 <=? n) && (n <=? 90))%nat then ascii_of_nat (n + 32) else c.

Fixpoint to_lower (s : string) : string :=
  match s with
  | EmptyString => EmptyString
  | String c s' => String (lower c) (to_lower s')
  end.

Definition digit (c : ascii) : option Z :=
  let n := nat_of_ascii c in
  if ((48 <=? n) && (n <=? 57))%nat then Some (Z.of_nat (n - 48)) else None.

(** digits of [s] read into [acc]; also how many were read *)
Fixpoint digits (s : string) (acc : Z) (k : nat) : option (Z * nat) :=
  match s with
  | EmptyString => Some (acc, k)
  | String c s' =>
      match digit c with
      | Some d => digits s' (10 * acc + d) (S k)
      | None => None
      end
  end.

Fixpoint split_dot (cur s : string) : string * option string :=
  match s with
  | EmptyString => (cur, None)
  | String c s' =>
      if Ascii.eqb c "."%char then (cur, Some s')
      else split_dot (cur ++ String c "") s'
  end.

Definition parse_unsigned (s : string) : option float :=
  match split_dot "" s with
  | (ip, None) =>
      match ip, digits ip 0 0 with
      | String _ _, Some (n, _) => Some (float64_of_int n)
      | _, _ => None
      end
  | (ip, Some fp) =>
      match digits ip 0 0, digits fp 0 0 with
      | Some (n, i), Some (f, k) =>
          if ((i + k =? 0)%nat) then None
          else Some (PrimFloat.div (float64_of_int (n * 10 ^ Z.of_nat k + f))
                                   (float64_of_int (10 ^ Z.of_nat k)))
      | _, _ => None
      end
  end.

Definition parse_float (s : string) : option float :=
  match s with
  | String "-" s' => option_map PrimFloat.opp (parse_unsigned s')
  | String "+" s' => parse_unsigned s'
  | _ => parse_unsigned s
  end.

Definition pad2 (n : Z) : string :=
  if n <? 10 then "0" ++ itoa n else itoa n.

(** hundredths of a finite float, rounded half up *)
Definition hundredths (x : float) : option Z :=
  match FloatOps.Prim2SF x with
  | SpecFloat.S754_zero _ => Some 0
  | SpecFloat.S754_finite s m e =>
      let v := 100 * Z.pos m in
      let a := if 0 <=? e then v * 2 ^ e
               else (v + 2 ^ (- e - 1)) / 2 ^ (- e) in
      Some (if s then - a else a)
  | _ => None
  end.

Definition sprintf_2f (x : float) : string :=
  match hundredths x with
  | Some h =>
      (if h <? 0 then "-" else "") ++
      itoa (Z.abs h / 100) ++ "." ++ pad2 (Z.abs h mod 100)
  | None => "NaN"
  end.

Definition content_open : string :=
  "{" ++ dq ++ "choices" ++ dq ++ ":[{" ++ dq ++ "delta" ++ dq ++ ":{"
      ++ dq ++ "content" ++ dq ++ ":" ++ dq.
Definition content_close : string := dq ++ "}}]}".
Definition no_delta : string :=
  "{" ++ dq ++ "choices" ++ dq ++ ":[{" ++ dq ++ "delta" ++ dq ++ ":{}}]}".
Definition no_choice : string := "{" ++ dq ++ "choices" ++ dq ++ ":[]}".

Fixpoint plain (s : string) : bool :=
  match s with
  | EmptyString => true
  | String c s' =>
      negb (Ascii.eqb c dquote) && negb (Ascii.eqb c "\"%char) && plain s'
  end.

Definition unmarshal (data : string) : option StreamResp.t :=
  if String.eqb data no_choice then Some (StreamResp.mk [])
  else if String.eqb data no_delta then
    Some (StreamResp.mk [StreamResp.mkChoice (StreamResp.mkDelta "")])
  else if HasPrefix data content_open && HasSuffix data content_close then
    let text := TrimSuffix (TrimPrefix data content_open) content_close in
    if plain text
    then Some (StreamResp.mk [StreamResp.mkChoice (StreamResp.mkDelta text)])
    else None
  else None.

Definition textarea_update (t : textarea.Model) (msg : tea.LibMsg)
    : textarea.Model :=
  match msg with
  | tea.Key k =>
      match tea.Type_ k with
      | tea.KeyRunes =>
          textarea.mk (textarea.value t ++ tea.Runes k) (textarea.width t)
                      (textarea.height t) (textarea.focus t)
      | _ => t
      end
  | _ => t
  end.

Definition key_string (k : tea.KeyMsg) : string :=
  (if tea.Alt k then "alt+" else "") ++
  match tea.Type_ k with
  | tea.KeyCtrlC => "ctrl+c"
  | tea.KeyCtrlS => "ctrl+s"
  | tea.KeyCtrlD => "ctrl+d"
  | tea.KeyTab => "tab"
  | tea.KeyUp => "up"
  | tea.KeyDown => "down"
  | tea.KeyEnter => "enter"
  | tea.KeyRunes => tea.Runes k
  | tea.KeyOther _ => ""
  end.

#[export] Instance lib : GoLib := {|
  TrimSpace := trim_space;
  Fields := fields;
  ToLower := to_lower;
  ParseFloat := parse_float;
  Sprintf_2f := sprintf_2f;
  Unmarshal := unmarshal;
  clipboard_WriteAll := fun _ => None;
  textarea_Update := textarea_update;
  KeyMsg_String := key_string
|}.

End AsciiLib.

(* ================================================================== *)
(** * package commands (slash.go)                                       *)
(* ================================================================== *)

(** A Go result [(v, err)] with exactly one of the two set. *)
Inductive result (A : Type) :=
| Ok (v : A)
| Err (e : error).
Arguments Ok {A} v.
Arguments Err {A} e.

Module CommandDef.
(** [type CommandDef struct { Name, Description, Usage string }] *)
Record t := mk { Name : string; Description : string; Usage : string }.
End CommandDef.

Module Command.
(** [type Command struct { Name string; Args []string }] *)
Record t := mk { Name : string; Args : list string }.
End Command.

Module commands.

Definition AvailableCommands : list CommandDef.t :=
  [ CommandDef.mk "help" "Show help message" "/help";
    CommandDef.mk "new" "Start a new conversation" "/new";
    CommandDef.mk "clear" "Clear chat history" "/clear";
    CommandDef.mk "reload" "Reload configuration" "/reload";
    CommandDef.mk "temp" "Set temperature" "/temp <0-2>";
    CommandDef.mk "system" "Set system prompt" "/system <text>";
    CommandDef.mk "delete" "Delete last turn" "/delete";
    CommandDef.mk "save" "Save conversation" "/save <file>";
    CommandDef.mk "load" "Load conversation" "/load <file>";
    CommandDef.mk "tokens" "Show token usage" "/tokens";
    CommandDef.mk "cost" "Show estimated cost" "/cost";
    CommandDef.mk "export" "Export as markdown" "/export";
    CommandDef.mk "stats" "Toggle stats panel" "/stats";
    CommandDef.mk "debug" "Toggle debug mode" "/debug";
    CommandDef.mk "retry" "Retry last message" "/retry";
    CommandDef.mk "copy" "Copy last response" "/copy";
    CommandDef.mk "edit" "Edit last message" "/edit";
    CommandDef.mk "multiline" "Toggle multiline mode" "/multiline";
    CommandDef.mk "exit" "Exit the application" "/exit" ].

(** [func CommandHelp() string] *)
Definition CommandHelp : string :=
  Join
    [ "Available Commands:";
      "/help           - Show this help message";
      "/new            - Start a new conversation";
      "/clear          - Clear chat history (alias for /new)";
      "/reload         - Reload configuration from .chat-tui.yaml";
      "/temp <0-1>     - Set temperature (e.g., /temp 0.7)";
      "/system <text>  - Set system prompt";
      "/delete         - Delete last turn (user message + assistant response)";
      "/save <file>    - Save conversation to file";
      "/load <file>    - Load conversation from file";
      "/tokens         - Show token usage";
      "/cost           - Show estimated cost";
      "/export         - Export conversation as markdown";
      "/stats          - Toggle stats panel";
      "/debug          - Toggle debug mode";
      "/retry          - Retry last message";
      "/copy           - Copy last response to clipboard";
      "/edit           - Edit last message";
      "/multiline      - Toggle multiline input mode";
      "/quit           - Exit the application" ] nl.

(** [xs[i]]; [None] when the index is out of range, where Go panics *)
Definition at_index {A} (xs : list A) (i : Z) : option A :=
  if i <? 0 then None else nth_error xs (Z.to_nat i).

(** [xs[i:]] *)
Definition from_index {A} (xs : list A) (i : Z) : list A :=
  skipn (Z.to_nat i) xs.

Section WithLib.
Context `{GoLib}.

(** [func ParseCommand(input string)], returning the command or the
    error *)
Definition ParseCommand (input : string) : result Command.t :=
  let input := TrimSpace input in
  if negb (HasPrefix input "/") then Err "not a command"
  else
    let input := TrimPrefix input "/" in
    let parts := Fields input in
    match parts with
    | [] => Err "empty command"
    | p0 :: rest => Ok (Command.mk (ToLower p0) rest)
    end.

(** [func IsCommand(input string) bool] *)
Definition IsCommand (input : string) : bool :=
  HasPrefix (TrimSpace input) "/".

(** [func (c *Command) ValidateArgs(min, max int) error];
    [None] is the nil error. *)
Definition ValidateArgs (c : Command.t) (min max : Z) : option error :=
  if slice_len (Command.Args c) <? min then
    Some ("command /" ++ Command.Name c ++ " requires at least "
            ++ itoa min ++ " argument(s)")
  else if (0 <? max) && (max <? slice_len (Command.Args c)) then
    Some ("command /" ++ Command.Name c ++ " accepts at most "
            ++ itoa max ++ " argument(s)")
  else None.

(** [func (c *Command) GetFloatArg(index int) (float64, error)]; the
    program calls it with index 0 only (a negative index would make
    the slice access panic). *)
Definition GetFloatArg (c : Command.t) (index : Z) : result float :=
  if slice_len (Command.Args c) <=? index then
    Err ("argument " ++ itoa index ++ " not found")
  else
    match at_index (Command.Args c) index with
    | None => Err ("argument " ++ itoa index ++ " not found")
    | Some a =>
        match ParseFloat a with
        | None => Err ("invalid float value: " ++ a)
        | Some val => Ok val
        end
    end.

(** [func (c *Command) GetRestAsString(startIndex int) string]; the
    program calls it with index 0 only (a negative index would make
    the slice expression panic). *)
Definition GetRestAsString (c : Command.t) (startIndex : Z) : string :=
  if slice_len (Command.Args c) <=? startIndex then ""
  else Join (from_index (Command.Args c) startIndex) " ".

(** [func GetSuggestions(input string) []CommandDef] *)
Definition GetSuggestions (input : string) : list CommandDef.t :=
  let input := TrimSpace input in
  if negb (HasPrefix input "/") then []
  else
    let query := TrimPrefix input "/" in
    let query := ToLower query in
    if String.eqb query "" then AvailableCommands
    else filter (fun cmd => HasPrefix (CommandDef.Name cmd) query)
                AvailableCommands.
End WithLib.

End commands.

(* ================================================================== *)
(** * package config (config.go): the structure the program consumes   *)
(* ================================================================== *)

Module UIConfig.
Record t := mk { Theme : string; ShowStats : bool; SyntaxHighlight : bool }.
End UIConfig.

Module DebugConfig.
Record t := mk { Verbose : bool; LogFile : string }.
End DebugConfig.

Module Config.
(** [type Config struct] *)
Record t := mk {
  APIKey : string;
  BaseURL : string;
  Model : string;
  Temperature : float;
  MaxTokens : Z;
  SystemPrompt : string;
  UI : UIConfig.t;
  Debug : DebugConfig.t
}.
End Config.

(* ================================================================== *)
(** * package components (input.go, stats.go)                           *)
(* ================================================================== *)

(** A pointer to the [RequestStats] of a stream, and the channel of its
    chunks: both are named by the number of the [ChatStream] call that
    made them. *)
Definition statsptr := nat.
Definition chan := nat.

Module components.

(** [type InputComponent struct] *)
Record InputComponent := mkInput {
  textarea_ : textarea.Model;
  multilineMode : bool;
  history : list string;
  historyIndex : Z;
  currentInput : string
}.

Definition with_textarea (i : InputComponent) (t : textarea.Model) :=
  mkInput t (multilineMode i) (history i) (historyIndex i) (currentInput i).

Definition textarea_SetValue (t : textarea.Model) (v : string) :=
  textarea.mk v (textarea.width t) (textarea.height t) (textarea.focus t).
Definition textarea_SetWidth (t : textarea.Model) (w : Z) :=
  textarea.mk (textarea.value t) w (textarea.height t) (textarea.focus t).
Definition textarea_SetHeight (t : textarea.Model) (h : Z) :=
  textarea.mk (textarea.value t) (textarea.width t) h (textarea.focus t).

(** [func NewInputComponent() *InputComponent] *)
Definition NewInputComponent : InputComponent :=
  mkInput (textarea.mk "" 80 1 true) false [] (-1) "".

(** [func (i *InputComponent) Value() string] *)
Definition Value (i : InputComponent) : string :=
  textarea.value (textarea_ i).

(** [func (i *InputComponent) SetValue(value string)] *)
Definition SetValue (i : InputComponent) (value : string) : InputComponent :=
  with_textarea i (textarea_SetValue (textarea_ i) value).

(** [func (i *InputComponent) SetWidth(width int)] *)
Definition SetWidth (i : InputComponent) (width : Z) : InputComponent :=
  with_textarea i (textarea_SetWidth (textarea_ i) width).

(** [func (i *InputComponent) Reset()] *)
Definition Reset (i : InputComponent) : InputComponent :=
  mkInput (textarea_SetValue (textarea_ i) "") (multilineMode i)
          (history i) (-1) "".

(** [func (i *InputComponent) ToggleMultilineMode()] *)
Definition ToggleMultilineMode (i : InputComponent) : InputComponent :=
  let mm := negb (multilineMode i) in
  mkInput (textarea_SetHeight (textarea_ i) (if mm then 5 else 1)) mm
          (history i) (historyIndex i) (currentInput i).

(** [func (i *InputComponent) AddToHistory(input string)] *)
Definition AddToHistory (i : InputComponent) (input : string)
    : InputComponent :=
  if negb (String.eqb input "") &&
     ((slice_len (history i) =? 0) ||
      negb (String.eqb (last (history i) "") input))
  then mkInput (textarea_ i) (multilineMode i) (history i ++ [input])
               (-1) ""
  else i.

Section WithLib.
Context `{GoLib}.

(** [func (i *InputComponent) Update(msg tea.Msg)]; [None] when a
    slice index is out of range. The command it returns comes from
    the text area and is not looked at. *)
Definition Update (i : InputComponent) (msg : tea.LibMsg)
    : option InputComponent :=
  let other := Some (with_textarea i (textarea_Update (textarea_ i) msg)) in
  match msg with
  | tea.Key k =>
      if String.eqb (KeyMsg_String k) "up" then
        if 0 <? slice_len (history i) then
          let cur := if historyIndex i =? -1
                     then Value i else currentInput i in
          let hi := historyIndex i + 1 in
          let hi := if slice_len (history i) <=? hi
                    then slice_len (history i) - 1 else hi in
          match commands.at_index (history i)
                  (slice_len (history i) - 1 - hi) with
          | Some h =>
              Some (mkInput (textarea_SetValue (textarea_ i) h)
                            (multilineMode i) (history i) hi cur)
          | None => None
          end
        else Some i
      else if String.eqb (KeyMsg_String k) "down" then
        if 0 <=? historyIndex i then
          let hi := historyIndex i - 1 in
          if hi =? -1 then
            Some (mkInput (textarea_SetValue (textarea_ i) (currentInput i))
                          (multilineMode i) (history i) hi (currentInput i))
          else
            match commands.at_index (history i)
                    (slice_len (history i) - 1 - hi) with
            | Some h =>
                Some (mkInput (textarea_SetValue (textarea_ i) h)
                              (multilineMode i) (history i) hi
                              (currentInput i))
            | None => None
            end
        else Some i
      else other
  | _ => other
  end.
End WithLib.

(** [type StatsComponent struct { visible bool; stats *llm.RequestStats }] *)
Record StatsComponent := mkStats {
  visible : bool;
  stats_ : option statsptr
}.

(** [func NewStatsComponent() *StatsComponent] *)
Definition NewStatsComponent : StatsComponent := mkStats true None.

(** [func (s *StatsComponent) Toggle()] *)
Definition Toggle (s : StatsComponent) : StatsComponent :=
  mkStats (negb (visible s)) (stats_ s).

(** [func (s *StatsComponent) SetStats(stats *llm.RequestStats)] *)
Definition SetStats (s : StatsComponent) (st : option statsptr)
    : StatsComponent :=
  mkStats (visible s) st.

End components.

(* ================================================================== *)
(** * package ui (chat.go)                                              *)
(* ================================================================== *)

Module ui.

(** [type ChatModel struct]; [messageComp], which only renders, is left
    out. *)
Record ChatModel := mkChatModel {
  config : Config.t;
  client : llm.OpenAIClient;
  messages : list Message.t;
  input : components.InputComponent;
  stats : components.StatsComponent;
  streaming : bool;
  streamContent : string;
  streamChan : option chan;
  streamStats : option statsptr;
  err : option error;
  width : Z;
  height : Z;
  systemPrompt : string;
  ready : bool;
  suggestions : list CommandDef.t;
  selectedSuggestion : Z;
  showBanner : bool
}.

(** Assignments [m.f = v], one function per field the program assigns. *)
Definition set_config (m : ChatModel) (v : Config.t) : ChatModel :=
  mkChatModel v (client m) (messages m) (input m) (stats m)
    (streaming m) (streamContent m) (streamChan m) (streamStats m)
    (err m) (width m) (height m) (systemPrompt m) (ready m)
    (suggestions m) (selectedSuggestion m) (showBanner m).

Definition set_client (m : ChatModel) (v : llm.OpenAIClient) : ChatModel :=
  mkChatModel (config m) v (messages m) (input m) (stats m)
    (streaming m) (streamContent m) (streamChan m) (streamStats m)
    (err m) (width m) (height m) (systemPrompt m) (ready m)
    (suggestions m) (selectedSuggestion m) (showBanner m).

Definition set_messages (m : ChatModel) (v : list Message.t) : ChatModel :=
  mkChatModel (config m) (client m) v (input m) (stats m) (streaming m)
    (streamContent m) (streamChan m) (streamStats m) (err m) (width m)
    (height m) (systemPrompt m) (ready m) (suggestions m)
    (selectedSuggestion m) (showBanner m).

Definition set_input (m : ChatModel) (v : components.InputComponent)
    : ChatModel :=
  mkChatModel (config m) (client m) (messages m) v (stats m)
    (streaming m) (streamContent m) (streamChan m) (streamStats m)
    (err m) (width m) (height m) (systemPrompt m) (ready m)
    (suggestions m) (selectedSuggestion m) (showBanner m).

Definition set_stats (m : ChatModel) (v : components.StatsComponent)
    : ChatModel :=
  mkChatModel (config m) (client m) (messages m) (input m) v
    (streaming m) (streamContent m) (streamChan m) (streamStats m)
    (err m) (width m) (height m) (systemPrompt m) (ready m)
    (suggestions m) (selectedSuggestion m) (showBanner m).

Definition set_streaming (m : ChatModel) (v : bool) : ChatModel :=
  mkChatModel (config m) (client m) (messages m) (input m) (stats m) v
    (streamContent m) (streamChan m) (streamStats m) (err m) (width m)
    (height m) (systemPrompt m) (ready m) (suggestions m)
    (selectedSuggestion m) (showBanner m).

Definition set_streamContent (m : ChatModel) (v : string) : ChatModel :=
  mkChatModel (config m) (client m) (messages m) (input m) (stats m)
    (streaming m) v (streamChan m) (streamStats m) (err m) (width m)
    (height m) (systemPrompt m) (ready m) (suggestions m)
    (selectedSuggestion m) (showBanner m).

Definition set_streamChan (m : ChatModel) (v : option chan) : ChatModel :=
  mkChatModel (config m) (client m) (messages m) (input m) (stats m)
    (streaming m) (streamContent m) v (streamStats m) (err m) (width m)
    (height m) (systemPrompt m) (ready m) (suggestions m)
    (selectedSuggestion m) (showBanner m).

Definition set_streamStats (m : ChatModel) (v : option statsptr) : ChatModel :=
  mkChatModel (config m) (client m) (messages m) (input m) (stats m)
    (streaming m) (streamContent m) (streamChan m) v (err m) (width m)
    (height m) (systemPrompt m) (ready m) (suggestions m)
    (selectedSuggestion m) (showBanner m).

Definition set_err (m : ChatModel) (v : option error) : ChatModel :=
  mkChatModel (config m) (client m) (messages m) (input m) (stats m)
    (streaming m) (streamContent m) (streamChan m) (streamStats m) v
    (width m) (height m) (systemPrompt m) (ready m) (suggestions m)
    (selectedSuggestion m) (showBanner m).

Definition set_width (m : ChatModel) (v : Z) : ChatModel :=
  mkChatModel (config m) (client m) (messages m) (input m) (stats m)
    (streaming m) (streamContent m) (streamChan m) (streamStats m)
    (err m) v (height m) (systemPrompt m) (ready m) (suggestions m)
    (selectedSuggestion m) (showBanner m).

Definition set_height (m : ChatModel) (v : Z) : ChatModel :=
  mkChatModel (config m) (client m) (messages m) (input m) (stats m)
    (streaming m) (streamContent m) (streamChan m) (streamStats m)
    (err m) (width m) v (systemPrompt m) (ready m) (suggestions m)
    (selectedSuggestion m) (showBanner m).

Definition set_systemPrompt (m : ChatModel) (v : string) : ChatModel :=
  mkChatModel (config m) (client m) (messages m) (input m) (stats m)
    (streaming m) (streamContent m) (streamChan m) (streamStats m)
    (err m) (width m) (height m) v (ready m) (suggestions m)
    (selectedSuggestion m) (showBanner m).

Definition set_suggestions (m : ChatModel) (v : list CommandDef.t)
    : ChatModel :=
  mkChatModel (config m) (client m) (messages m) (input m) (stats m)
    (streaming m) (streamContent m) (streamChan m) (streamStats m)
    (err m) (width m) (height m) (systemPrompt m) (ready m) v
    (selectedSuggestion m) (showBanner m).

Definition set_selectedSuggestion (m : ChatModel) (v : Z) : ChatModel :=
  mkChatModel (config m) (client m) (messages m) (input m) (stats m)
    (streaming m) (streamContent m) (streamChan m) (streamStats m)
    (err m) (width m) (height m) (systemPrompt m) (ready m)
    (suggestions m) v (showBanner m).

(** The messages [Update] receives: those of the library, and the
    program's own [streamStartMsg], [streamChunkMsg],
    [streamCompleteMsg], [errorMsg] and [configReloadedMsg]. *)
Inductive Msg :=
| Lib (msg : tea.LibMsg)
| streamStartMsg (chunks : chan) (stats : statsptr)
| streamChunkMsg (chunk : StreamChunk.t)
| streamCompleteMsg (stats : option statsptr)
| errorMsg (err : error)
| configReloadedMsg (config : Config.t).

(** The commands [Update] returns. A closure is named by the function
    that builds it, with the values it reads when it starts to run. *)
Inductive Cmd :=
| CmdNil                                   (* nil *)
| CmdQuit                                  (* tea.Quit *)
| CmdStreamResponse (c : llm.OpenAIClient) (history : list Message.t)
                                           (* m.streamResponse() *)
| CmdWaitForChunk (ch : chan)              (* m.waitForChunk() *)
| CmdReload                                (* the closure of "reload" *)
| CmdBatch.                                (* tea.Batch(cmds...) *)

(** What a call of [Update] ends in. *)
Inductive Outcome :=
| Continue (m : ChatModel) (cmd : Cmd)
| Panic.                                   (* index out of range *)

(** [func (m *ChatModel) waitForChunk() tea.Cmd] *)
Definition waitForChunk (m : ChatModel) : Cmd :=
  match streamChan m with
  | None => CmdNil
  | Some ch => CmdWaitForChunk ch
  end.

(** [func (m *ChatModel) streamResponse() tea.Cmd] *)
Definition streamResponse (m : ChatModel) : Cmd :=
  CmdStreamResponse (client m) (messages m).

(** [xs[:len(xs)-k]] *)
Definition drop_last {A} (k : nat) (xs : list A) : list A :=
  firstn (List.length xs - k) xs.

Definition role_is (r : string) (msg : Message.t) : bool :=
  String.eqb (Message.Role msg) r.

Section WithLib.
Context `{GoLib}.

(** [func NewChatModel(cfg *config.Config)] when the message component
    is created without error. *)
Definition NewChatModel (cfg : Config.t) : ChatModel :=
  let client := llm.NewOpenAIClient (Config.APIKey cfg) (Config.BaseURL cfg)
                  (Config.Model cfg) (Config.Temperature cfg)
                  (Config.MaxTokens cfg) in
  let input := components.NewInputComponent in
  let stats := components.NewStatsComponent in
  let stats := if negb (UIConfig.ShowStats (Config.UI cfg))
               then components.Toggle stats else stats in
  let messages := [] in
  let messages :=
    if negb (String.eqb (Config.SystemPrompt cfg) "")
    then append messages (Message.mk "system" (Config.SystemPrompt cfg))
    else messages in
  {| config := cfg; client := client; messages := messages;
     input := input; stats := stats; streaming := false;
     streamContent := ""; streamChan := None; streamStats := None;
     err := None; width := 0; height := 0;
     systemPrompt := Config.SystemPrompt cfg; ready := true;
     suggestions := []; selectedSuggestion := 0; showBanner := true |}.

(** The statements after the [switch] of [handleCommand]. *)
Definition after_switch (m : ChatModel) (input_text : string)
    : ChatModel * Cmd :=
  let m := set_input m (components.AddToHistory (input m) input_text) in
  let m := set_input m (components.Reset (input m)) in
  let m := set_suggestions m [] in
  let m := set_selectedSuggestion m 0 in
  (m, CmdNil).

(** [case "delete"] *)
Definition delete_case (m : ChatModel) : ChatModel :=
  if 2 <=? slice_len (messages m) then
    let m :=
      if role_is "assistant"
           (last (messages m) (Message.mk "" ""))
      then set_messages m (drop_last 2 (messages m))
      else set_messages m (drop_last 1 (messages m)) in
    set_err m None
  else set_err m (Some "no messages to delete").

(** [case "copy"]: the loop from the last message down to the first. *)
Fixpoint copy_loop (m : ChatModel) (backwards : list Message.t)
    : ChatModel :=
  match backwards with
  | [] => m
  | msg :: earlier =>
      if role_is "assistant" msg then
        match clipboard_WriteAll (Message.Content msg) with
        | Some e => set_err m (Some ("failed to copy: " ++ e))
        | None =>
            let m := set_err m None in
            set_messages m
              (append (messages m)
                 (Message.mk "system" "Last response copied to clipboard"))
        end
      else copy_loop m earlier
  end.

(** [func (m *ChatModel) handleCommand(input string) tea.Cmd] *)
Definition handleCommand (m : ChatModel) (input_text : string)
    : ChatModel * Cmd :=
  match commands.ParseCommand input_text with
  | Err e => (set_err m (Some e), CmdNil)
  | Ok cmd =>
      let name := Command.Name cmd in
      if String.eqb name "help" then
        let m := set_err m None in
        let m := set_messages m
                   (append (messages m)
                      (Message.mk "assistant" commands.CommandHelp)) in
        after_switch m input_text
      else if String.eqb name "new" || String.eqb name "clear" then
        let m := set_messages m [] in
        let m := if negb (String.eqb (systemPrompt m) "")
                 then set_messages m
                        (append (messages m)
                           (Message.mk "system" (systemPrompt m)))
                 else m in
        let m := set_err m None in
        let m := set_streamContent m "" in
        after_switch m input_text
      else if String.eqb name "reload" then
        (m, CmdReload)
      else if String.eqb name "delete" then
        after_switch (delete_case m) input_text
      else if String.eqb name "stats" then
        after_switch (set_stats m (components.Toggle (stats m))) input_text
      else if String.eqb name "temp" then
        match commands.ValidateArgs cmd 1 1 with
        | Some e => (set_err m (Some e), CmdNil)
        | None =>
            match commands.GetFloatArg cmd 0 with
            | Err e => (set_err m (Some e), CmdNil)
            | Ok temp =>
                if PrimFloat.ltb temp 0 || PrimFloat.ltb 2 temp then
                  (set_err m (Some "temperature must be between 0 and 2"),
                   CmdNil)
                else
                  let m := set_client m
                             (llm.SetTemperature (client m) temp) in
                  let m := set_err m None in
                  let m := set_messages m
                             (append (messages m)
                                (Message.mk "system"
                                   ("Temperature set to "
                                      ++ Sprintf_2f temp))) in
                  after_switch m input_text
            end
        end
      else if String.eqb name "system" then
        match commands.ValidateArgs cmd 1 0 with
        | Some e => (set_err m (Some e), CmdNil)
        | None =>
            let newPrompt := commands.GetRestAsString cmd 0 in
            let m := set_systemPrompt m newPrompt in
            let m :=
              match messages m with
              | m0 :: rest =>
                  if role_is "system" m0
                  then set_messages m
                         (Message.mk (Message.Role m0) newPrompt :: rest)
                  else set_messages m
                         ([Message.mk "system" newPrompt] ++ messages m)%list
              | [] => set_messages m
                        ([Message.mk "system" newPrompt] ++ messages m)%list
              end in
            let m := set_err m None in
            after_switch m input_text
        end
      else if String.eqb name "copy" then
        after_switch (copy_loop m (rev (messages m))) input_text
      else if String.eqb name "multiline" then
        after_switch
          (set_input m (components.ToggleMultilineMode (input m)))
          input_text
      else if String.eqb name "exit" then
        (m, CmdQuit)
      else
        let m := set_err m
                   (Some ("unknown command: /" ++ name ++
                          " (type /help for available commands)")) in
        after_switch m input_text
  end.

(** The end of [Update], reached by the messages no case returns
    from: the input component and the suggestions are updated. *)
Definition update_input (m : ChatModel) (msg : tea.LibMsg) : Outcome :=
  match components.Update (input m) msg with
  | None => Panic
  | Some i =>
      let m := set_input m i in
      let currentInput := components.Value (input m) in
      let m := set_suggestions m (commands.GetSuggestions currentInput) in
      let m :=
        if slice_len (suggestions m) =? 0 then set_selectedSuggestion m 0
        else if slice_len (suggestions m) <=? selectedSuggestion m
        then set_selectedSuggestion m (slice_len (suggestions m) - 1)
        else m in
      Continue m CmdBatch
  end.

(** [case tea.KeyEnter]; the model is not streaming. *)
Definition key_enter (m : ChatModel) (msg : tea.LibMsg) : Outcome :=
  let input_text := TrimSpace (components.Value (input m)) in
  if String.eqb input_text "" then Continue m CmdNil
  else
    let completed :=
      if commands.IsCommand input_text && (0 <? slice_len (suggestions m))
      then match commands.at_index (suggestions m) (selectedSuggestion m)
           with
           | Some suggestion => Some ("/" ++ CommandDef.Name suggestion)
           | None => None
           end
      else Some input_text in
    match completed with
    | None => Panic
    | Some input_text =>
        let m := set_suggestions m [] in
        let m := set_selectedSuggestion m 0 in
        if commands.IsCommand input_text then
          let (m, cmd) := handleCommand m input_text in
          Continue m cmd
        else
          let m := set_messages m
                     (append (messages m) (Message.mk "user" input_text)) in
          let m := set_input m
                     (components.AddToHistory (input m) input_text) in
          let m := set_input m (components.Reset (input m)) in
          let m := set_streaming m true in
          let m := set_streamContent m "" in
          Continue m (streamResponse m)
    end.

(** [case tea.KeyMsg] *)
Definition key_msg (m : ChatModel) (k : tea.KeyMsg) : Outcome :=
  if streaming m then
    match tea.Type_ k with
    | tea.KeyCtrlC =>
        let m := set_streaming m false in
        let m := set_err m (Some "streaming cancelled") in
        Continue m CmdNil
    | _ => Continue m CmdNil
    end
  else
    match tea.Type_ k with
    | tea.KeyCtrlC => Continue m CmdQuit
    | tea.KeyCtrlS =>
        Continue (set_stats m (components.Toggle (stats m))) CmdNil
    | tea.KeyCtrlD =>
        Continue (set_input m (components.ToggleMultilineMode (input m)))
                 CmdNil
    | tea.KeyTab =>
        if 0 <? slice_len (suggestions m) then
          match commands.at_index (suggestions m) (selectedSuggestion m)
          with
          | None => Panic
          | Some suggestion =>
              let m := set_input m
                         (components.SetValue (input m)
                            ("/" ++ CommandDef.Name suggestion ++ " ")) in
              let m := set_suggestions m [] in
              let m := set_selectedSuggestion m 0 in
              Continue m CmdNil
          end
        else Continue m CmdNil
    | tea.KeyUp =>
        if 1 <? slice_len (suggestions m) then
          let m := set_selectedSuggestion m (selectedSuggestion m - 1) in
          let m := if selectedSuggestion m <? 0
                   then set_selectedSuggestion m
                          (slice_len (suggestions m) - 1)
                   else m in
          Continue m CmdNil
        else update_input m (tea.Key k)
    | tea.KeyDown =>
        if 1 <? slice_len (suggestions m) then
          let m := set_selectedSuggestion m (selectedSuggestion m + 1) in
          let m := if slice_len (suggestions m) <=? selectedSuggestion m
                   then set_selectedSuggestion m 0
                   else m in
          Continue m CmdNil
        else update_input m (tea.Key k)
    | tea.KeyEnter => key_enter m (tea.Key k)
    | _ => update_input m (tea.Key k)
    end.

(** [case streamChunkMsg] *)
Definition stream_chunk (m : ChatModel) (chunk : StreamChunk.t) : Outcome :=
  match StreamChunk.Error chunk with
  | Some e =>
      let m := set_streaming m false in
      let m := set_streamChan m None in
      let m := set_err m (Some e) in
      Continue m CmdNil
  | None =>
      if StreamChunk.Done chunk then
        let m := set_streaming m false in
        let m := set_streamChan m None in
        let m := if negb (String.eqb (streamContent m) "")
                 then set_messages m
                        (append (messages m)
                           (Message.mk "assistant" (streamContent m)))
                 else m in
        let m := set_stats m
                   (components.SetStats (stats m) (streamStats m)) in
        Continue m CmdNil
      else
        let m := set_streamContent m
                   (streamContent m ++ StreamChunk.Content chunk) in
        Continue m (waitForChunk m)
  end.

(** [func (m *ChatModel) Update(msg tea.Msg) (tea.Model, tea.Cmd)] *)
Definition Update (m : ChatModel) (msg : Msg) : Outcome :=
  match msg with
  | Lib (tea.WindowSize w h) =>
      let m := set_width m w in
      let m := set_height m h in
      let m := set_input m (components.SetWidth (input m) (w - 4)) in
      update_input m (tea.WindowSize w h)
  | streamStartMsg chunks st =>
      let m := set_streamChan m (Some chunks) in
      let m := set_streamStats m (Some st) in
      Continue m (waitForChunk m)
  | Lib (tea.Key k) => key_msg m k
  | streamChunkMsg chunk => stream_chunk m chunk
  | streamCompleteMsg st =>
      let m := set_streaming m false in
      let m := set_streamChan m None in
      let m := set_stats m (components.SetStats (stats m) st) in
      let m := if negb (String.eqb (streamContent m) "")
               then set_messages m
                      (append (messages m)
                         (Message.mk "assistant" (streamContent m)))
               else m in
      Continue m CmdNil
  | errorMsg e =>
      let m := set_err m (Some e) in
      let m := set_streaming m false in
      Continue m CmdNil
  | configReloadedMsg cfg =>
      let m := set_config m cfg in
      let m := set_client m
                 (llm.NewOpenAIClient (Config.APIKey cfg)
                    (Config.BaseURL cfg) (Config.Model cfg)
                    (Config.Temperature cfg) (Config.MaxTokens cfg)) in
      let m := set_err m None in
      Continue m CmdNil
  | Lib (tea.Other tag) => update_input m (tea.Other tag)
  end.

End WithLib.

End ui.

(* ================================================================== *)
(** * The Bubble Tea event loop, as far as the program relies on it     *)
(* ================================================================== *)

(** [tea.NewProgram(chatModel).Run()] hands every message to [Update]
    and starts the command [Update] returns; a command runs beside the
    loop and the message it returns is handed to [Update] in turn.  The
    bodies of the commands below are the closures of chat.go. *)
Module runtime.

(** A stream made by one call of [ChatStream]: the chunks its goroutine
    sends that were not received yet, and the record behind [stats]. *)
Record Stream := mkStream {
  queue : list StreamChunk.t;
  final : RequestStats.t
}.

(** What lies outside the process: the fate of the k-th request, the
    clock its stream reads, and what [config.Load()] returns. *)
Record Env := mkEnv {
  network : nat -> llm.Exchange;
  clocks : nat -> Clock;
  disk : result Config.t
}.

Record World := mkWorld {
  model : ui.ChatModel;
  running : list ui.Cmd;   (* commands started that did not return yet *)
  streams : list Stream;   (* a channel or stats pointer is an index here *)
  requests : nat;          (* calls of [ChatStream] so far *)
  halted : bool            (* [tea.Quit] was run, or [Update] panicked *)
}.

Inductive Event :=
| Deliver (msg : tea.LibMsg)   (* a key press or a resize arrives *)
| Return (n : nat).            (* the n-th running command returns *)

(** The commands a returned command adds to the running ones; the
    commands of the text area (its cursor) are not followed. *)
Definition start (cmd : ui.Cmd) : list ui.Cmd :=
  match cmd with
  | ui.CmdNil | ui.CmdBatch => []
  | _ => [cmd]
  end.

Fixpoint remove_nth {A} (n : nat) (xs : list A) : list A :=
  match n, xs with
  | _, [] => []
  | O, _ :: xs' => xs'
  | S n', x :: xs' => x :: remove_nth n' xs'
  end.

Fixpoint replace_nth {A} (n : nat) (y : A) (xs : list A) : list A :=
  match n, xs with
  | _, [] => []
  | O, _ :: xs' => y :: xs'
  | S n', x :: xs' => x :: replace_nth n' y xs'
  end.

Section WithLib.
Context `{GoLib}.

(** A message is handed to [Update]. *)
Definition dispatch (w : World) (msg : ui.Msg) : World :=
  match ui.Update (model w) msg with
  | ui.Panic =>
      mkWorld (model w) (running w) (streams w) (requests w) true
  | ui.Continue m cmd =>
      mkWorld m (running w ++ start cmd) (streams w) (requests w)
              (halted w)
  end.

(** A running command returns: the message it returns, if any, and
    what it did to the streams. *)
Definition perform (env : Env) (w : World) (cmd : ui.Cmd)
    : option ui.Msg * World :=
  match cmd with
  | ui.CmdNil | ui.CmdBatch => (None, w)
  | ui.CmdQuit =>
      (None, mkWorld (model w) (running w) (streams w) (requests w) true)
  | ui.CmdReload =>
      (* cfg, err := config.Load() *)
      match disk env with
      | Err e => (Some (ui.errorMsg ("failed to reload config: " ++ e)), w)
      | Ok cfg => (Some (ui.configReloadedMsg cfg), w)
      end
  | ui.CmdStreamResponse c history =>
      (* chunks, stats, err := m.client.ChatStream(ctx, m.messages) *)
      let k := requests w in
      let w' := mkWorld (model w) (running w) (streams w) (S k)
                        (halted w) in
      match llm.stream c history (network env k) (clocks env k) with
      | (llm.StreamErr e, _) => (Some (ui.errorMsg e), w')
      | (llm.StreamOk, r) =>
          let id := List.length (streams w) in
          (Some (ui.streamStartMsg id id),
           mkWorld (model w) (running w)
                   (streams w ++ [mkStream (llm.chunks r) (llm.stats r)])
                   (S k) (halted w))
      end
  | ui.CmdWaitForChunk ch =>
      (* chunk, ok := <-m.streamChan *)
      match nth_error (streams w) ch with
      | None => (None, w)
      | Some st =>
          match queue st with
          | [] => (Some (ui.streamCompleteMsg (ui.streamStats (model w))), w)
          | chunk :: rest =>
              (Some (ui.streamChunkMsg chunk),
               mkWorld (model w) (running w)
                       (replace_nth ch (mkStream rest (final st))
                                    (streams w))
                       (requests w) (halted w))
          end
      end
  end.

Definition step (env : Env) (w : World) (e : Event) : World :=
  if halted w then w
  else
    match e with
    | Deliver msg => dispatch w (ui.Lib msg)
    | Return n =>
        match nth_error (running w) n with
        | None => w
        | Some cmd =>
            let w := mkWorld (model w) (remove_nth n (running w))
                             (streams w) (requests w) (halted w) in
            match perform env w cmd with
            | (None, w') => w'
            | (Some msg, w') => dispatch w' msg
            end
        end
    end.

Definition run (env : Env) (w : World) (es : list Event) : World :=
  fold_left (step env) es w.

(** The program as [runChat] starts it. *)
Definition boot (cfg : Config.t) : World :=
  mkWorld (ui.NewChatModel cfg) [] [] 0 false.

End WithLib.

End runtime.

(* ================================================================== *)
(** * Vocabulary of the properties of the streaming client              *)
(* ================================================================== *)

Module sse.

Import llm.

(** A [Content] chunk: neither [Done] nor [Error]. *)
Definition is_content (c : StreamChunk.t) : bool :=
  negb (StreamChunk.Done c) &&
  match StreamChunk.Error c with None => true | Some _ => false end.

Definition is_done (c : StreamChunk.t) : bool := StreamChunk.Done c.

Definition is_error (c : StreamChunk.t) : bool :=
  match StreamChunk.Error c with None => false | Some _ => true end.

(** A terminal chunk: [Done] or [Error]. *)
Definition is_terminal (c : StreamChunk.t) : bool := is_done c || is_error c.

(** Nothing follows a terminal chunk. *)
Fixpoint terminal_is_last (cs : list StreamChunk.t) : bool :=
  match cs with
  | [] => true
  | c :: rest =>
      (if is_terminal c then match rest with [] => true | _ => false end
       else true) && terminal_is_last rest
  end.

(** Nothing follows a [Done] chunk. *)
Fixpoint done_is_last (cs : list StreamChunk.t) : bool :=
  match cs with
  | [] => true
  | c :: rest =>
      (if is_done c then match rest with [] => true | _ => false end
       else true) && done_is_last rest
  end.

(** A line as [ReadBytes] returns it, with its newline. *)
Definition raw (l : string) : string := l ++ nl.

(** The body made of the given lines, each followed by a newline. *)
Fixpoint body_of (lines : list string) : string :=
  match lines with
  | [] => ""
  | l :: rest => raw l ++ body_of rest
  end.

Fixpoint no_newline (s : string) : bool :=
  match s with
  | EmptyString => true
  | String c s' => negb (Ascii.eqb c newline) && no_newline s'
  end.

(** How the loop stops reading. *)
Inductive ending :=
| AtSentinel                (* the payload [[DONE]] was read *)
| AtEnd (err : ioerr).      (* [ReadBytes] returned an error *)

(** The chunks after the last [Content] chunk. *)
Definition closing (e : ending) : list StreamChunk.t :=
  match e with
  | AtEnd (io_failure x) => [chunkError ("stream read error: " ++ x); chunkDone]
  | _ => [chunkDone]
  end.

Section WithLib.
Context `{GoLib}.

(** The line carries the event-data marker and its payload is the
    stream-termination sentinel. *)
Definition is_sentinel (line : string) : bool :=
  let l := TrimSpace line in
  HasPrefix l "data: " && String.eqb (TrimPrefix l "data: ") "[DONE]".

(** The text delta of a line, in the words of the specification: a
    blank line, a line without the data marker, a payload that does
    not decode, and a payload without a non-empty text delta carry
    none. *)
Definition payload (line : string) : option string :=
  let l := TrimSpace line in
  if String.eqb l "" then None
  else if negb (HasPrefix l "data: ") then None
  else
    match Unmarshal (TrimPrefix l "data: ") with
    | None => None
    | Some decoded =>
        match StreamResp.Choices decoded with
        | [] => None
        | first :: _ =>
            let text := StreamResp.Content (StreamResp.Delta_ first) in
            if String.eqb text "" then None else Some text
        end
    end.

(** The text deltas of a sequence of lines, in order. *)
Fixpoint deltas (lines : list string) : list string :=
  match lines with
  | [] => []
  | l :: rest =>
      match payload l with
      | Some t => t :: deltas rest
      | None => deltas rest
      end
  end.

(** The lines up to the first sentinel, and how the reading stops. *)
Fixpoint scan (lines : list string) (err : ioerr) : list string * ending :=
  match lines with
  | [] => ([], AtEnd err)
  | l :: rest =>
      if is_sentinel l then ([], AtSentinel)
      else let (before, e) := scan rest err in (l :: before, e)
  end.

(** A well-formed body terminated by the sentinel: lines that each
    end in a newline, none of them the sentinel, and the sentinel
    line after them. The lines are given without their newline. *)
Definition well_formed (lines : list string) (last_line : string) : Prop :=
  forallb no_newline (lines ++ [last_line])%list = true /\
  forallb (fun l => negb (is_sentinel (raw l))) lines = true /\
  is_sentinel (raw last_line) = true.
End WithLib.

(** The first-token block of the loop:
    [stats.FirstTokenTime = time.Now();
     stats.TimeToFirstToken = stats.FirstTokenTime.Sub(stats.StartTime)]. *)
Definition stamp (r : Run) : Run :=
  snd ((t <- time_Now ;;
        assign (RequestStats.wFirstTokenTime t) ;;
        s <- load ;;
        assign (RequestStats.wTimeToFirstToken
                  (Sub (RequestStats.FirstTokenTime s)
                       (RequestStats.StartTime s)))) r).

(** Sending one [Content] chunk per text. *)
Definition sends (texts : list string) (r : Run) : Run :=
  mkRun (stats r)
        (trace r ++ map (fun t => Send (chunkContent t)) texts)%list
        (clock r).

(** The run after the [Content] chunks of [texts]. *)
Definition emitted (texts : list string) (firstTokenReceived : bool)
    (r : Run) : Run :=
  match texts with
  | [] => r
  | _ => sends texts (if firstTokenReceived then r else stamp r)
  end.

(** The run [ChatStream] hands to its goroutine when the status is 200. *)
Definition handed_over (c : OpenAIClient) (status : Z) (clk : Clock) : Run :=
  snd (assign (RequestStats.wHTTPStatus status) (new_run c clk)).

(** The readings of the clock in a stream: at the call, at the first
    text delta, and at the end of the stream. *)
Definition start_time (clk : Clock) : Time := fst (tick clk).
Definition first_token_time (clk : Clock) : Time :=
  fst (tick (snd (tick clk))).
Definition end_time (clk : Clock) (any_token : bool) : Time :=
  fst (tick (if any_token then snd (tick (snd (tick clk)))
             else snd (tick clk))).

(** The assignments of the first-token block. *)
Definition first_token_writes (clk : Clock) (any_token : bool)
    : list RequestStats.write :=
  if any_token
  then [RequestStats.wFirstTokenTime (first_token_time clk);
        RequestStats.wTimeToFirstToken
          (Sub (first_token_time clk) (start_time clk))]
  else [].

(** The assignments of the final statistics. *)
Definition final_writes (clk : Clock) (tokens : Z) (any_token : bool)
    : list RequestStats.write :=
  let t0 := start_time clk in
  let t2 := end_time clk any_token in
  let lat := Sub t2 t0 in
  let gen := Sub t2 (first_token_time clk) in
  ([RequestStats.wEndTime t2; RequestStats.wLatency lat;
    RequestStats.wOutputTokens tokens] ++
   (if any_token then
      RequestStats.wGenerationTime gen ::
      (if (1 <? tokens) && (0 <? gen)
       then [RequestStats.wPostFirstTokenSpeed
               (PrimFloat.div (float64_of_int (tokens - 1)) (Seconds gen))]
       else [])
    else []) ++
   (if (0 <? tokens) && (0 <? lat)
    then [RequestStats.wTokensPerSec
            (PrimFloat.div (float64_of_int tokens) (Seconds lat))]
    else []))%list.

(** The way out of the loop: the [Error] chunk of a failed read, the
    final statistics, the [Done] chunk. *)
Definition terminate (e : ending) (tokenCount : Z)
    (firstTokenReceived : bool) : M unit :=
  match e with
  | AtEnd (io_failure x) => send (chunkError ("stream read error: " ++ x))
  | _ => ret tt
  end ;;
  finalize tokenCount firstTokenReceived ;;
  send chunkDone.

(** The assignments of [finalize] in a given run. *)
Definition closed_stats (tc : Z) (ftr : bool) (r : Run)
    : list RequestStats.write :=
  let t := fst (tick (clock r)) in
  let lat := Sub t (RequestStats.StartTime (stats r)) in
  let gen := Sub t (RequestStats.FirstTokenTime (stats r)) in
  ([RequestStats.wEndTime t; RequestStats.wLatency lat;
    RequestStats.wOutputTokens tc] ++
   (if ftr then
      RequestStats.wGenerationTime gen ::
      (if (1 <? tc) && (0 <? gen)
       then [RequestStats.wPostFirstTokenSpeed
               (PrimFloat.div (float64_of_int (tc - 1)) (Seconds gen))]
       else [])
    else []) ++
   (if (0 <? tc) && (0 <? lat)
    then [RequestStats.wTokensPerSec
            (PrimFloat.div (float64_of_int tc) (Seconds lat))]
    else []))%list.

(** The send of the [Error] chunk, when the loop is left on a failed read. *)
Definition error_event (e : ending) : list event :=
  match e with
  | AtEnd (io_failure x) => [Send (chunkError ("stream read error: " ++ x))]
  | _ => []
  end.

Definition any (texts : list string) : bool :=
  negb (Nat.eqb (List.length texts) 0).

(** The struct literal [ChatStream] starts from. *)
Definition literal (c : OpenAIClient) (clk : Clock) : RequestStats.t :=
  RequestStats.mk (start_time clk) 0 0 (model c) 0 0 0 0%float 0 0
                  0%float 0 0 0%float.

Definition replay (ws : list RequestStats.write) (s : RequestStats.t)
    : RequestStats.t :=
  fold_left (fun s w => RequestStats.apply w s) ws s.


Section Streams.
Context `{GoLib}.

(** The texts sent, and how the loop was left, for a response. *)
Definition texts_of (resp : Response) : list string :=
  deltas (fst (scan (fst (ReadBytes_all "" (Body resp))) (BodyEnd resp))).
Definition ending_of (resp : Response) : ending :=
  snd (scan (fst (ReadBytes_all "" (Body resp))) (BodyEnd resp)).

(** The lines of the body the loop looks at: the complete lines
    before the first sentinel line. *)
Definition lines_read (resp : Response) : list string :=
  fst (scan (fst (ReadBytes_all "" (Body resp))) (BodyEnd resp)).

(** A stream that the server answers with status 200, from the call
    to the return of the goroutine. *)
Definition stream_end (c : OpenAIClient) (resp : Response) (clk : Clock)
    : Run :=
  let (before, e) :=
    scan (fst (ReadBytes_all "" (Body resp))) (BodyEnd resp) in
  let ds := deltas before in
  record CloseBody
    (record CloseChunks
       (snd (terminate e (Z.of_nat (List.length ds))
                       (negb (Nat.eqb (List.length ds) 0))
                       (emitted ds false
                          (handed_over c (StatusCode resp) clk))))).
End Streams.


(** The rule for [PostFirstTokenSpeed] as the specification words it:
    present only with two tokens or more, and with more than one token
    equal to [(OutputTokens - 1) / GenerationTime]. *)
Definition speed_as_specified (r : Run) : Prop :=
  let s := stats r in
  (RequestStats.present RequestStats.fPostFirstTokenSpeed (writes r) = true ->
   2 <= RequestStats.OutputTokens s) /\
  (1 < RequestStats.OutputTokens s ->
   RequestStats.present RequestStats.fPostFirstTokenSpeed (writes r) = true /\
   RequestStats.PostFirstTokenSpeed s =
     PrimFloat.div (float64_of_int (RequestStats.OutputTokens s - 1))
                   (Seconds (RequestStats.GenerationTime s))).

End sse.

(* ================================================================== *)
(** * Vocabulary of the properties of the controller                    *)
(* ================================================================== *)

Module chat.

Import ui.


(** The keys of the properties. *)
Definition enter : tea.KeyMsg := tea.mkKey tea.KeyEnter "" false.
Definition ctrl_c : tea.KeyMsg := tea.mkKey tea.KeyCtrlC "" false.
Definition typed (text : string) : tea.KeyMsg :=
  tea.mkKey tea.KeyRunes text false.

(** The ways the arguments of a command fail validation. *)
Inductive failure :=
| TooFewArguments
| TooManyArguments
| NotANumber
| OutOfRange.

(** The error of each failure. *)
Definition failure_text (f : failure) (cmd : Command.t) : error :=
  match f with
  | TooFewArguments =>
      "command /" ++ Command.Name cmd ++ " requires at least 1 argument(s)"
  | TooManyArguments =>
      "command /" ++ Command.Name cmd ++ " accepts at most 1 argument(s)"
  | NotANumber => "invalid float value: " ++ hd "" (Command.Args cmd)
  | OutOfRange => "temperature must be between 0 and 2"
  end.

Section WithLib.
Context `{GoLib}.

(** Argument validation in the words of the specification: [temp]
    takes exactly one argument, which must parse as a number in
    [0,2], that is with [0 <= temp] and [temp <= 2] (a NaN is no such
    number); [system] takes at least one argument. *)
Definition validation (cmd : Command.t) : option failure :=
  if String.eqb (Command.Name cmd) "temp" then
    match Command.Args cmd with
    | [] => Some TooFewArguments
    | [a] =>
        match ParseFloat a with
        | None => Some NotANumber
        | Some temp =>
            if PrimFloat.leb 0 temp && PrimFloat.leb temp 2
            then None else Some OutOfRange
        end
    | _ :: _ :: _ => Some TooManyArguments
    end
  else if String.eqb (Command.Name cmd) "system" then
    match Command.Args cmd with
    | [] => Some TooFewArguments
    | _ => None
    end
  else None.
End WithLib.

(** The fragments of a reply put together in the order received. *)
Fixpoint reply (fragments : list string) : string :=
  match fragments with
  | [] => ""
  | t :: rest => t ++ reply rest
  end.

(** The events of a reply of [n] fragments streamed to its end: the
    request returns the stream, each fragment and then the [Done]
    chunk are received. *)
Definition streamed (n : nat) : list runtime.Event :=
  repeat (runtime.Return 0) (2 + n).

(** The error of [/delete] on a history with nothing to delete. *)
Definition NothingToDelete : error := "no messages to delete".

End chat.

(* ================================================================== *)
(** * Concrete inputs                                                   *)
(* ================================================================== *)

Module samples.

Import llm.

(** [data: {"choices":[{"delta":{"content":"Hi"}}]}] *)
Definition hi : string :=
  "data: " ++ AsciiLib.content_open ++ "Hi" ++ AsciiLib.content_close.

Definition done_line : string := "data: [DONE]".

(** A body with a text delta, a blank line, a line without the data
    marker, a payload that does not decode, a payload without a text
    delta, a second text delta, and the sentinel. *)
Definition mixed : list string :=
  [hi; ""; ": keep-alive"; "data: {"; "data: " ++ AsciiLib.no_delta; hi].

(** A clock that advances by 5 ns from one reading to the next, and
    one that stands still. *)
Definition ticking : Clock := mkClock 100 (fun _ => 5%N).
Definition frozen : Clock := mkClock 100 (fun _ => 0%N).

Definition client : OpenAIClient :=
  NewOpenAIClient "key" "http://localhost:11434/v1/" "llama2" 0.5%float 4096.

Definition ok (body : string) (how : ioerr) : Exchange :=
  Responds (mkResponse 200 body how).

(** Two text deltas and the sentinel, all read at one clock reading. *)
Definition burst : Run :=
  snd (@stream AsciiLib.lib client []
         (ok (sse.body_of [hi; hi; done_line]) io_EOF) frozen).

(** One text delta, then the connection fails. *)
Definition broken : Run :=
  snd (@stream AsciiLib.lib client []
         (ok (sse.body_of [hi]) (io_failure "connection reset")) ticking).


(** A configuration with a system prompt, and one without. *)
Definition cfg : Config.t :=
  Config.mk "key" "http://localhost:11434/v1" "llama2" 0.5%float 4096
            "Be brief" (UIConfig.mk "dark" true true)
            (DebugConfig.mk false ".chat-tui.log").
Definition cfg_no_prompt : Config.t :=
  Config.mk "key" "http://localhost:11434/v1" "llama2" 0.5%float 4096
            "" (UIConfig.mk "dark" true true)
            (DebugConfig.mk false ".chat-tui.log").

(** A server that answers every request with three text deltas and
    the sentinel; one that answers with the sentinel alone; and a
    network that cannot be reached. *)
Definition talkative : runtime.Env :=
  runtime.mkEnv (fun _ => ok (sse.body_of [hi; hi; hi; done_line]) io_EOF)
                (fun _ => ticking) (Ok cfg).
Definition silent : runtime.Env :=
  runtime.mkEnv (fun _ => ok (sse.body_of [done_line]) io_EOF)
                (fun _ => ticking) (Ok cfg).
Definition offline : runtime.Env :=
  runtime.mkEnv (fun _ => DoFails "connection refused")
                (fun _ => ticking) (Ok cfg).

Definition key (k : tea.KeyMsg) : runtime.Event :=
  runtime.Deliver (tea.Key k).

(** The user types [text] and presses Enter. *)
Definition submit (text : string) : list runtime.Event :=
  [key (chat.typed text); key chat.enter].

(** The command that has been running longest returns. *)
Definition next : runtime.Event := runtime.Return 0.

Definition session (env : runtime.Env) (c : Config.t)
    (es : list runtime.Event) : runtime.World :=
  @runtime.run AsciiLib.lib env (runtime.boot c) es.

End samples.

(* ================================================================== *)
(** * Further library functions outside the repository                  *)
(* ================================================================== *)

Module Completion.
(** The anonymous struct that [Chat] decodes the body into:
    [struct { Choices []struct { Message struct { Content string } };
              Usage struct { PromptTokens, CompletionTokens,
                             TotalTokens int } }] *)
Record Message_ := mkMessage { Content : string }.
Record Choice := mkChoice { Message : Message_ }.
Record Usage_ := mkUsage {
  PromptTokens : Z;
  CompletionTokens : Z;
  TotalTokens : Z
}.
Record t := mk { Choices : list Choice; Usage : Usage_ }.
End Completion.

Module lipgloss.
(** The styles the program renders with, by the names of their
    variables in styles.go, input.go, message.go and stats.go. *)
Inductive Style :=
| HelpStyle | SuccessStyle | ErrorStyle | TypingStyle
| helpStyle
| userMessageStyle | systemMessageStyle | typingStyle
| statsPanelStyle | statsTitleStyle | statsLabelStyle | statsValueStyle
| statsHelpStyle
(* the styles [RenderBanner] builds, two of them with [Width(48)] *)
| bannerStyle | asciiArtStyle_48 | subtitleStyle_48 | infoStyle.
End lipgloss.

Class GoMore := {
  (** [strconv.Atoi]; [None] when it returns an error *)
  Atoi : string -> option Z;
  (** [fmt.Sprintf("%.1f", x)] *)
  Sprintf_1f : float -> string;
  (** [fmt.Sprintf("%.6f", x)] *)
  Sprintf_6f : float -> string;
  (** [json.Unmarshal(body, &result)] on a fresh [result] *)
  UnmarshalResult : string -> result Completion.t;
  (** [style.Render(text)] of lipgloss *)
  Render : lipgloss.Style -> string -> string;
  (** [glamourRenderer.Render(content)] *)
  glamour_Render : string -> result string;
  (** [textarea.Model.View()] *)
  textarea_View : textarea.Model -> string;
  (** [version.AppName], [version.Description] and [version.Version],
      constants of the package [internal/version] *)
  version_AppName : string;
  version_Description : string;
  version_Version : string
}.

(** Byte-wise versions of the further library functions, exact on
    the ASCII texts the examples use: decimal integers for [Atoi],
    finite numbers for the formats, and for [UnmarshalResult] the
    objects [{"choices":[{"message":{"content":"..."}}]}] without
    escapes and [{"choices":[]}].  The styles render a text as it
    is, and so does the markdown renderer. *)
Module AsciiMore.

Definition atoi (s : string) : option Z :=
  let unsigned (t : string) : option Z :=
    match t, AsciiLib.digits t 0 0 with
    | String _ _, Some (n, _) => Some n
    | _, _ => None
    end in
  match s with
  | String "-" t => option_map Z.opp (unsigned t)
  | String "+" t => unsigned t
  | _ => unsigned s
  end.

(** [x] times [10^k], rounded half up, for a finite [x] *)
Definition scaled (k : Z) (x : float) : option Z :=
  match FloatOps.Prim2SF x with
  | SpecFloat.S754_zero _ => Some 0
  | SpecFloat.S754_finite sg m e =>
      let v := 10 ^ k * Z.pos m in
      let a := if 0 <=? e then v * 2 ^ e
               else (v + 2 ^ (- e - 1)) / 2 ^ (- e) in
      Some (if sg then - a else a)
  | _ => None
  end.

Fixpoint zeros (n : nat) : string :=
  match n with O => "" | S n' => "0" ++ zeros n' end.

(** [n] in decimal, padded with zeros on the left to [k] digits *)
Definition padded (k : nat) (n : Z) : string :=
  let t := itoa n in
  zeros (k - String.length t) ++ t.

Definition sprintf_f (k : nat) (x : float) : string :=
  match scaled (Z.of_nat k) x with
  | Some h =>
      (if h <? 0 then "-" else "") ++
      itoa (Z.abs h / 10 ^ Z.of_nat k) ++ "." ++
      padded k (Z.abs h mod 10 ^ Z.of_nat k)
  | None => "NaN"
  end.

Definition message_open : string :=
  "{" ++ dq ++ "choices" ++ dq ++ ":[{" ++ dq ++ "message" ++ dq ++ ":{"
      ++ dq ++ "content" ++ dq ++ ":" ++ dq.

Definition unmarshal_result (body : string) : result Completion.t :=
  if String.eqb body AsciiLib.no_choice then
    Ok (Completion.mk [] (Completion.mkUsage 0 0 0))
  else if HasPrefix body message_open
          && HasSuffix body AsciiLib.content_close then
    let text := TrimSuffix (TrimPrefix body message_open)
                           AsciiLib.content_close in
    if AsciiLib.plain text
    then Ok (Completion.mk
               [Completion.mkChoice (Completion.mkMessage text)]
               (Completion.mkUsage 0 0 0))
    else Err "invalid character in string literal"
  else Err "unexpected end of JSON input".

Definition lib : GoMore := {|
  Atoi := atoi;
  Sprintf_1f := sprintf_f 1;
  Sprintf_6f := sprintf_f 6;
  UnmarshalResult := unmarshal_result;
  Render := fun _ text => text;
  glamour_Render := fun text => Ok text;
  textarea_View := textarea.value;
  version_AppName := "chat-tui";
  version_Description := "A terminal chat interface for LLMs";
  version_Version := "dev"
|}.

End AsciiMore.

(* ================================================================== *)
(** * package llm: the call without streaming (openai.go)               *)
(* ================================================================== *)

Module llm_chat.

Import llm.

(** An assignment to a field of [stats] that the streaming client
    never assigns. *)
Definition store (f : RequestStats.t -> RequestStats.t) : M unit :=
  fun r => (tt, mkRun (f (stats r)) (trace r) (clock r)).

Definition with_InputTokens (v : Z) (s : RequestStats.t) : RequestStats.t :=
  let '(RequestStats.mk st en ft mo it ot tot tps ttft gt pfs la hs ce) := s in
  RequestStats.mk st en ft mo v ot tot tps ttft gt pfs la hs ce.

Definition with_TotalTokens (v : Z) (s : RequestStats.t) : RequestStats.t :=
  let '(RequestStats.mk st en ft mo it ot tot tps ttft gt pfs la hs ce) := s in
  RequestStats.mk st en ft mo it ot v tps ttft gt pfs la hs ce.

(** [io.ReadAll(resp.Body)]: the bytes of the body, or the failure of
    the transport. *)
Definition ReadAll (resp : Response) : result string :=
  match BodyEnd resp with
  | io_EOF => Ok (Body resp)
  | io_failure e => Err e
  end.

Section WithLib.
Context `{GoMore}.

(** The statements of [Chat] from [stats.HTTPStatus = resp.StatusCode]
    to its [return]s: the content and the error it returns. *)
Definition answer (resp : Response) : M (string * option error) :=
  assign (RequestStats.wHTTPStatus (StatusCode resp)) ;;
  t <- time_Now ;;
  assign (RequestStats.wEndTime t) ;;
  s <- load ;;
  assign (RequestStats.wLatency
            (Sub (RequestStats.EndTime s) (RequestStats.StartTime s))) ;;
  match ReadAll resp with
  | Err e => ret ("", Some ("failed to read response: " ++ e))
  | Ok body =>
      if negb (StatusCode resp =? 200) then
        ret ("", Some ("API error (status " ++ itoa (StatusCode resp)
                         ++ "): " ++ body))
      else
        match UnmarshalResult body with
        | Err e => ret ("", Some ("failed to unmarshal response: " ++ e))
        | Ok result =>
            if slice_len (Completion.Choices result) =? 0 then
              ret ("", Some "no choices in response")
            else
              let usage := Completion.Usage result in
              store (with_InputTokens (Completion.PromptTokens usage)) ;;
              assign (RequestStats.wOutputTokens
                        (Completion.CompletionTokens usage)) ;;
              store (with_TotalTokens (Completion.TotalTokens usage)) ;;
              s <- load ;;
              when ((0 <? RequestStats.OutputTokens s) &&
                    (0 <? RequestStats.Latency s))
                (assign (RequestStats.wTokensPerSec
                           (PrimFloat.div
                              (float64_of_int (RequestStats.OutputTokens s))
                              (Seconds (RequestStats.Latency s))))) ;;
              match Completion.Choices result with
              | first :: _ =>
                  ret (Completion.Content (Completion.Message first), None)
              | [] => ret ("", None)   (* not reached: len is not 0 *)
              end
        end
  end.

(** [func (c *OpenAIClient) Chat(ctx, messages)]; the deferred
    [resp.Body.Close()] runs after the [return] was evaluated. *)
Definition Chat (c : OpenAIClient) (messages : list Message.t)
    (net : Exchange) : M (string * option error) :=
  match net with
  | MarshalFails e => ret ("", Some ("failed to marshal request: " ++ e))
  | NewRequestFails e => ret ("", Some ("failed to create request: " ++ e))
  | DoFails e => ret ("", Some ("failed to send request: " ++ e))
  | Responds resp =>
      out <- answer resp ;;
      Body_Close ;;
      ret out
  end.

(** A call of [Chat] from its first statement. *)
Definition call (c : OpenAIClient) (messages : list Message.t)
    (net : Exchange) (clk : Clock) : (string * option error) * Run :=
  Chat c messages net (new_run c clk).

End WithLib.

End llm_chat.

(* ================================================================== *)
(** * Vocabulary of the further properties of the streaming client      *)
(* ================================================================== *)

Module wire.

Import llm sse.

Definition is_send (e : event) : bool :=
  match e with Send _ => true | _ => false end.

(** How often an event of a kind occurs in a trace. *)
Definition count (p : event -> bool) (tr : list event) : nat :=
  List.length (filter p tr).

(** A response arrived: [c.httpClient.Do(req)] returned a nil error. *)
Definition responded (net : Exchange) : bool :=
  match net with Responds _ => true | _ => false end.

(** The status code of the response, 0 without one. *)
Definition status_of (net : Exchange) : Z :=
  match net with Responds resp => StatusCode resp | _ => 0 end.

Definition opened (res : StreamResult) : bool :=
  match res with StreamOk => true | StreamErr _ => false end.

(** The events that close the channel or the body. *)
Definition closing_event (e : event) : bool :=
  is_close_chunks e || is_close_body e.

(** [chunks := make(chan StreamChunk, 10)] *)
Definition capacity : nat := 10.

(** The events of a run that happen when only [room] more sends can
    return: a send returns while the channel has room and blocks for
    ever when it has none, and what follows a send that blocks never
    happens. *)
Fixpoint unblocked (room : nat) (tr : list event) : list event :=
  match tr with
  | [] => []
  | Send c :: rest =>
      match room with
      | O => []
      | S room' => Send c :: unblocked room' rest
      end
  | e :: rest => e :: unblocked room rest
  end.

(** What a run gets done when the consumer receives [received] chunks
    and then stops receiving: these sends return, and so do the next
    [capacity] ones, which fill the channel. *)
Definition executed (received : nat) (tr : list event) : list event :=
  unblocked (received + capacity) tr.

Section WithLib.
Context `{GoLib}.

(** What a stream answered with status 200 does before it closes the
    channel. *)
Definition until_close (c : OpenAIClient) (resp : Response) (clk : Clock)
    : list event :=
  ([Assign (RequestStats.wHTTPStatus (StatusCode resp))] ++
   map Assign (first_token_writes clk (any (texts_of resp))) ++
   map (fun t => Send (chunkContent t)) (texts_of resp) ++
   error_event (ending_of resp) ++
   map Assign (final_writes clk (Z.of_nat (List.length (texts_of resp)))
                            (any (texts_of resp))) ++
   [Send chunkDone])%list.
End WithLib.

End wire.

(* ================================================================== *)
(** * Vocabulary of the further properties of the controller            *)
(* ================================================================== *)

Module bounds.

Import ui.

(** The index into the input history is -1 (no entry shown) or the
    position of an entry. *)
Definition history_in_range (i : components.InputComponent) : bool :=
  (-1 <=? components.historyIndex i) &&
  (components.historyIndex i <? slice_len (components.history i)).

(** The selected suggestion is the position of a suggestion, when
    there are suggestions. *)
Definition selection_in_range (m : ChatModel) : bool :=
  (0 <=? selectedSuggestion m) &&
  ((slice_len (suggestions m) =? 0) ||
   (selectedSuggestion m <? slice_len (suggestions m))).

Definition in_range (m : ChatModel) : bool :=
  history_in_range (input m) && selection_in_range m.

End bounds.

Module session.

Import ui.

(** The model after Enter on a text that is not a command: the
    statements of [case tea.KeyEnter] from the clearing of the
    suggestions to the change of the buffer. *)
Definition entered (m : ChatModel) (text : string) : ChatModel :=
  let m := set_suggestions m [] in
  let m := set_selectedSuggestion m 0 in
  let m := set_messages m (append (messages m) (Message.mk "user" text)) in
  let m := set_input m (components.AddToHistory (input m) text) in
  let m := set_input m (components.Reset (input m)) in
  let m := set_streaming m true in
  set_streamContent m "".

(** Enter is pressed and the request returns. *)
Definition asked : list runtime.Event :=
  [runtime.Deliver (tea.Key chat.enter); runtime.Return 0].

End session.

Module more_samples.

Import llm.

(** A server whose answer breaks off after two text deltas. *)
Definition flaky : runtime.Env :=
  runtime.mkEnv
    (fun _ => samples.ok (sse.body_of [samples.hi; samples.hi])
                         (io_failure "connection reset"))
    (fun _ => samples.ticking) (Ok samples.cfg).

(** The session after [hello] was typed. *)
Definition typed_hello (env : runtime.Env) : runtime.World :=
  samples.session env samples.cfg [samples.key (chat.typed "hello")].

(** A configuration file that was edited to name another model, and a
    session in which it is read again. *)
Definition cfg_edited : Config.t :=
  Config.mk "key" "http://localhost:11434/v1" "mistral" 0.5%float 4096
            "Be brief" (UIConfig.mk "dark" true true)
            (DebugConfig.mk false ".chat-tui.log").

Definition edited : runtime.Env :=
  runtime.mkEnv (fun _ => DoFails "connection refused")
                (fun _ => samples.ticking) (Ok cfg_edited).

(** A history of one exchange. *)
Definition one_exchange : list Message.t :=
  [Message.mk "system" "Be brief"; Message.mk "user" "hello";
   Message.mk "assistant" "Hi"].

End more_samples.

Module menu.

Import ui.

(** The labels of the cases of the [switch] of [handleCommand]. *)
Definition handled : list string :=
  ["help"; "new"; "clear"; "reload"; "delete"; "stats"; "temp"; "system";
   "copy"; "multiline"; "exit"].

Definition is_handled (name : string) : bool :=
  existsb (String.eqb name) handled.

(** The error of the [default] case. *)
Definition unknown (name : string) : error :=
  "unknown command: /" ++ name ++ " (type /help for available commands)".

(** [strings.Contains(s, substr)] *)
Fixpoint Contains (s substr : string) : bool :=
  HasPrefix s substr ||
  match s with
  | EmptyString => false
  | String _ s' => Contains s' substr
  end.

(** The history without the system message at its head, if it has one. *)
Definition without_system_head (ms : list Message.t) : list Message.t :=
  match ms with
  | m0 :: rest => if role_is "system" m0 then rest else ms
  | [] => []
  end.

(** The notice [/copy] appends. *)
Definition copied : Message.t :=
  Message.mk "system" "Last response copied to clipboard".

End menu.

(** The library functions of [AsciiLib], with a [ParseFloat] that also
    reads [NaN] as [strconv.ParseFloat] does. *)
Module SpecialLib.

Definition parse_float (s : string) : option float :=
  if String.eqb (AsciiLib.to_lower s) "nan" then Some PrimFloat.nan
  else AsciiLib.parse_float s.

Definition lib : GoLib := {|
  TrimSpace := AsciiLib.trim_space;
  Fields := AsciiLib.fields;
  ToLower := AsciiLib.to_lower;
  ParseFloat := parse_float;
  Sprintf_2f := AsciiLib.sprintf_2f;
  Unmarshal := AsciiLib.unmarshal;
  clipboard_WriteAll := fun _ => None;
  textarea_Update := AsciiLib.textarea_update;
  KeyMsg_String := AsciiLib.key_string
|}.

End SpecialLib.

(* ================================================================== *)
(** * Vocabulary of the properties of the input history                 *)
(* ================================================================== *)

Module browse.

Import components.

Section WithLib.
Context `{GoLib}.

(** Keys handed to the input component one after the other; [None]
    when an index leaves its slice. *)
Fixpoint press (i : InputComponent) (keys : list tea.KeyMsg)
    : option InputComponent :=
  match keys with
  | [] => Some i
  | k :: rest =>
      match Update i (tea.Key k) with
      | Some i' => press i' rest
      | None => None
      end
  end.

End WithLib.

(** The component shows the [j]-th most recent entry of the history of
    [i0], the last entry being the first, and remembers the text that
    [i0] held. *)
Definition shows (i0 : InputComponent) (j : Z) (i : InputComponent) : Prop :=
  history i = history i0 /\
  currentInput i = Value i0 /\
  historyIndex i = j - 1 /\
  commands.at_index (history i0) (slice_len (history i0) - j)
    = Some (Value i).

(** Neither an empty entry nor two equal entries in a row. *)
Fixpoint tidy (h : list string) : bool :=
  match h with
  | [] => true
  | a :: rest =>
      negb (String.eqb a "") &&
      match rest with
      | [] => true
      | b :: _ => negb (String.eqb a b)
      end && tidy rest
  end.

(** The keys of the properties, and a component with three entries
    and a text being typed. *)
Definition key_up : tea.KeyMsg := tea.mkKey tea.KeyUp "" false.
Definition key_down : tea.KeyMsg := tea.mkKey tea.KeyDown "" false.
Definition drafting : InputComponent :=
  mkInput (textarea.mk "draft" 80 1 true) false ["one"; "two"; "three"]
          (-1) "".

End browse.

(* ================================================================== *)
(** * package commands: the other argument getters (slash.go)           *)
(* ================================================================== *)

Module getters.

(** What a call ends in: it returns, or it panics on an index out of
    range. *)
Inductive outcome (A : Type) :=
| Returns (r : result A)
| Panics.
Arguments Returns {A} r.
Arguments Panics {A}.

(** [c.Args[index]] *)
Definition arg (c : Command.t) (index : Z) : option string :=
  commands.at_index (Command.Args c) index.

(** [func (c *Command) GetStringArg(index int) (string, error)] *)
Definition GetStringArg (c : Command.t) (index : Z) : outcome string :=
  if slice_len (Command.Args c) <=? index then
    Returns (Err ("argument " ++ itoa index ++ " not found"))
  else
    match arg c index with
    | None => Panics
    | Some a => Returns (Ok a)
    end.

Section WithLib.
Context `{GoMore}.

(** [func (c *Command) GetIntArg(index int) (int, error)] *)
Definition GetIntArg (c : Command.t) (index : Z) : outcome Z :=
  if slice_len (Command.Args c) <=? index then
    Returns (Err ("argument " ++ itoa index ++ " not found"))
  else
    match arg c index with
    | None => Panics
    | Some a =>
        match Atoi a with
        | None => Returns (Err ("invalid integer value: " ++ a))
        | Some val => Returns (Ok val)
        end
    end.

End WithLib.

End getters.

(* ================================================================== *)
(** * package config (config.go)                                        *)
(* ================================================================== *)

Module config.

(** [var defaultConfig] *)
Definition defaultConfig : Config.t :=
  Config.mk "not_needed" "https://api.openai.com/v1" "gpt-4" 0.7%float 4096
            "You are a helpful assistant"
            (UIConfig.mk "dark" true true)
            (DebugConfig.mk false ".chat-tui.log").

(** Assignments to the fields of a [Config]. *)
Definition with_APIKey (c : Config.t) (v : string) : Config.t :=
  Config.mk v (Config.BaseURL c) (Config.Model c) (Config.Temperature c)
            (Config.MaxTokens c) (Config.SystemPrompt c) (Config.UI c)
            (Config.Debug c).
Definition with_BaseURL (c : Config.t) (v : string) : Config.t :=
  Config.mk (Config.APIKey c) v (Config.Model c) (Config.Temperature c)
            (Config.MaxTokens c) (Config.SystemPrompt c) (Config.UI c)
            (Config.Debug c).
Definition with_Model (c : Config.t) (v : string) : Config.t :=
  Config.mk (Config.APIKey c) (Config.BaseURL c) v (Config.Temperature c)
            (Config.MaxTokens c) (Config.SystemPrompt c) (Config.UI c)
            (Config.Debug c).
Definition with_Temperature (c : Config.t) (v : float) : Config.t :=
  Config.mk (Config.APIKey c) (Config.BaseURL c) (Config.Model c) v
            (Config.MaxTokens c) (Config.SystemPrompt c) (Config.UI c)
            (Config.Debug c).
Definition with_MaxTokens (c : Config.t) (v : Z) : Config.t :=
  Config.mk (Config.APIKey c) (Config.BaseURL c) (Config.Model c)
            (Config.Temperature c) v (Config.SystemPrompt c) (Config.UI c)
            (Config.Debug c).
Definition with_SystemPrompt (c : Config.t) (v : string) : Config.t :=
  Config.mk (Config.APIKey c) (Config.BaseURL c) (Config.Model c)
            (Config.Temperature c) (Config.MaxTokens c) v (Config.UI c)
            (Config.Debug c).
Definition with_ShowStats (c : Config.t) (v : bool) : Config.t :=
  Config.mk (Config.APIKey c) (Config.BaseURL c) (Config.Model c)
            (Config.Temperature c) (Config.MaxTokens c)
            (Config.SystemPrompt c)
            (UIConfig.mk (UIConfig.Theme (Config.UI c)) v
                         (UIConfig.SyntaxHighlight (Config.UI c)))
            (Config.Debug c).

(** What the process reads and writes: what the calls of
    [os.Stdin.Read] to come return, one text for each call that
    delivers bytes (a terminal delivers a line at a time, a file or a
    pipe as much as the caller has room for), and the error of the
    call after them; the text printed so far; and the files written
    so far, each with its path. *)
Record Sys := mkSys {
  stdin : list string;
  stdin_end : ioerr;
  stdout : string;
  written : list (string * string)
}.

(** [bufio.Reader]: the bytes it has read and not yet handed out. *)
Record Reader := mkReader { buffered : string }.

(** [bufio.NewReader(os.Stdin)] *)
Definition NewReader : Reader := mkReader "".

(** What the machine answers: [os.UserHomeDir()],
    [viper.ReadInConfig()], [viper.Unmarshal(&config)],
    [os.Getenv("OPENAI_API_KEY")] and the error of
    [os.WriteFile(path, data, 0644)]. *)
Inductive FileState :=
| ConfigRead
| ConfigFileNotFound
| ConfigUnreadable (e : error).

Record Host := mkHost {
  UserHomeDir : result string;
  ReadInConfig : FileState;
  viper_Unmarshal : result Config.t;
  OPENAI_API_KEY : string;
  WriteFile : string -> string -> option error
}.

(** A computation on [Sys] that returns a value or an error. *)
Definition IO (A : Type) : Type := Sys -> result A * Sys.

Definition ret {A} (a : A) : IO A := fun s => (Ok a, s).
Definition fail {A} (e : error) : IO A := fun s => (Err e, s).
Definition bind {A B} (m : IO A) (k : A -> IO B) : IO B :=
  fun s => match m s with
           | (Ok a, s') => k a s'
           | (Err e, s') => (Err e, s')
           end.

Declare Scope io_scope.
Delimit Scope io_scope with io.
Notation "x <- c1 ;; c2" := (bind c1 (fun x => c2))
  (at level 100, c1 at next level, right associativity) : io_scope.
Notation "c1 ;; c2" := (bind c1 (fun _ => c2))
  (at level 100, right associativity) : io_scope.
Open Scope io_scope.

(** [fmt.Print], [fmt.Printf], and [fmt.Println] with its newline
    written out *)
Definition Print (text : string) : IO unit :=
  fun s => (Ok tt, mkSys (stdin s) (stdin_end s) (stdout s ++ text)
                         (written s)).

(** The error a read ends with, as a Go error. *)
Definition error_text (e : ioerr) : error :=
  match e with
  | io_EOF => "EOF"
  | io_failure x => x
  end.

(** The first line of the input with its newline, and the rest. *)
Fixpoint read_line (cur input : string) : option (string * string) :=
  match input with
  | EmptyString => None
  | String c rest =>
      if Ascii.eqb c newline then Some (cur ++ String c "", rest)
      else read_line (cur ++ String c "") rest
  end.

(** The loop of [ReadString] on the bytes buffered and the reads to
    come: while the buffer holds no newline, the reader reads again
    and keeps all that the read delivers.  The result is the line
    through the first newline, what stays in the buffer, and the
    reads left; when the input ends before a newline, there is no
    line and nothing is left. *)
Fixpoint read_through (buffered : string) (reads : list string)
    : option string * string * list string :=
  match read_line "" buffered with
  | Some (line, rest) => (Some line, rest, reads)
  | None =>
      match reads with
      | [] => (None, "", [])
      | chunk :: reads' => read_through (buffered ++ chunk) reads'
      end
  end.

(** [reader.ReadString('\n')]: the line and the reader after it, or,
    without a newline to come, the error the input ends with (the
    bytes returned with it are dropped by the only caller). *)
Definition ReadString (reader : Reader) : IO (string * Reader) :=
  fun s =>
    match read_through (buffered reader) (stdin s) with
    | (Some line, rest, reads) =>
        (Ok (line, mkReader rest),
         mkSys reads (stdin_end s) (stdout s) (written s))
    | (None, _, reads) =>
        (Err (error_text (stdin_end s)),
         mkSys reads (stdin_end s) (stdout s) (written s))
    end.

Definition bool_text (b : bool) : string := if b then "true" else "false".

(** The bytes of a sequence of reads. *)
Fixpoint all_bytes (reads : list string) : string :=
  match reads with
  | [] => ""
  | chunk :: rest => chunk ++ all_bytes rest
  end.

(** The bytes a reader has still to hand out: those it has buffered
    and those standard input has not delivered yet. *)
Definition pending (reader : Reader) (s : Sys) : string :=
  buffered reader ++ all_bytes (stdin s).

(** The complete lines standard input has still to deliver, each
    with its newline. *)
Definition lines (s : Sys) : list string :=
  fst (ReadBytes_all "" (all_bytes (stdin s))).

(** A read that delivers one complete line, as a terminal does. *)
Definition one_line_read (chunk : string) : bool :=
  match read_line "" chunk with
  | Some (_, rest) => String.eqb rest ""
  | None => false
  end.

Section WithLib.
Context `{GoLib} `{GoMore}.

(** [func promptWithDefault(reader, prompt, defaultValue string)]; the
    reader is returned as the call leaves it. *)
Definition promptWithDefault (reader : Reader)
    (prompt defaultValue : string) : IO (string * Reader) :=
  Print (prompt ++ " [" ++ defaultValue ++ "]: ") ;;
  read <- ReadString reader ;;
  let input := fst read in
  let reader := snd read in
  let input := TrimSpace input in
  if String.eqb input "" then ret (defaultValue, reader)
  else ret (input, reader).

(** [func InteractiveSetup()], returning the configuration or the
    error; the reader and what it has buffered are gone when it
    returns. *)
Definition InteractiveSetup : IO Config.t :=
  Print ("Welcome to Chat TUI!" ++ nl) ;;
  Print ("No configuration file found. Let's set one up." ++ nl ++ nl) ;;
  let reader := NewReader in
  let config := defaultConfig in
  answer <- promptWithDefault reader "API Key"
              (Config.APIKey defaultConfig) ;;
  let apiKey := fst answer in
  let reader := snd answer in
  let config := with_APIKey config apiKey in
  answer <- promptWithDefault reader "Base URL"
              (Config.BaseURL defaultConfig) ;;
  let baseURL := fst answer in
  let reader := snd answer in
  let config := with_BaseURL config baseURL in
  answer <- promptWithDefault reader "Model" (Config.Model defaultConfig) ;;
  let model := fst answer in
  let reader := snd answer in
  let config := with_Model config model in
  answer <- promptWithDefault reader "Temperature (0.0-1.0)"
              (Sprintf_1f (Config.Temperature defaultConfig)) ;;
  let tempStr := fst answer in
  let reader := snd answer in
  temp <- match ParseFloat tempStr with
          | Some temp => ret temp
          | None =>
              Print ("Invalid temperature, using default: "
                       ++ Sprintf_1f (Config.Temperature defaultConfig)
                       ++ nl) ;;
              ret (Config.Temperature defaultConfig)
          end ;;
  let config := with_Temperature config temp in
  answer <- promptWithDefault reader "Max Tokens"
              (itoa (Config.MaxTokens defaultConfig)) ;;
  let maxTokensStr := fst answer in
  let reader := snd answer in
  maxTokens <- match Atoi maxTokensStr with
               | Some n => ret n
               | None =>
                   Print ("Invalid max tokens, using default: "
                            ++ itoa (Config.MaxTokens defaultConfig) ++ nl) ;;
                   ret (Config.MaxTokens defaultConfig)
               end ;;
  let config := with_MaxTokens config maxTokens in
  answer <- promptWithDefault reader "System Prompt"
              (Config.SystemPrompt defaultConfig) ;;
  let systemPrompt := fst answer in
  let config := with_SystemPrompt config systemPrompt in
  ret config.

(** The text [saveConfig] formats. *)
Definition config_text (cfg : Config.t) : string :=
  "# Chat TUI Configuration" ++ nl ++
  "# OpenAI-compatible API settings" ++ nl ++
  "api_key: " ++ dq ++ Config.APIKey cfg ++ dq ++
  "  # Optional: Set your API key here or use OPENAI_API_KEY environment variable"
  ++ nl ++
  "base_url: " ++ dq ++ Config.BaseURL cfg ++ dq ++
  "  # Can be changed to any OpenAI-compatible endpoint" ++ nl ++
  "model: " ++ dq ++ Config.Model cfg ++ dq ++ nl ++
  "temperature: " ++ Sprintf_1f (Config.Temperature cfg) ++ nl ++
  "max_tokens: " ++ itoa (Config.MaxTokens cfg) ++ nl ++
  "system_prompt: " ++ dq ++ Config.SystemPrompt cfg ++ dq ++ nl ++
  nl ++
  "ui:" ++ nl ++
  "  theme: " ++ UIConfig.Theme (Config.UI cfg) ++ "  # or light" ++ nl ++
  "  show_stats: " ++ bool_text (UIConfig.ShowStats (Config.UI cfg)) ++ nl ++
  "  syntax_highlight: "
    ++ bool_text (UIConfig.SyntaxHighlight (Config.UI cfg)) ++ nl ++
  nl ++
  "debug:" ++ nl ++
  "  verbose: " ++ bool_text (DebugConfig.Verbose (Config.Debug cfg)) ++ nl ++
  "  log_file: " ++ DebugConfig.LogFile (Config.Debug cfg) ++ nl.

(** [func saveConfig(cfg, path) error] *)
Definition saveConfig (host : Host) (cfg : Config.t) (path : string)
    : IO unit :=
  fun s =>
    match WriteFile host path (config_text cfg) with
    | Some e => (Err e, s)
    | None =>
        (Ok tt, mkSys (stdin s) (stdin_end s) (stdout s)
                      (written s ++ [(path, config_text cfg)]))
    end.

(** A failure of [m] reported as [fmt.Errorf(prefix + ": %w", err)]. *)
Definition wrapped {A} (prefix : string) (m : IO A) : IO A :=
  fun s => match m s with
           | (Err e, s') => (Err (prefix ++ ": " ++ e), s')
           | ok => ok
           end.

(** [if apiKey := os.Getenv("OPENAI_API_KEY"); apiKey != ""] *)
Definition key_of_environment (host : Host) (cfg : Config.t) : Config.t :=
  if negb (String.eqb (OPENAI_API_KEY host) "")
  then with_APIKey cfg (OPENAI_API_KEY host)
  else cfg.

(** [func Load()], returning the configuration or the error *)
Definition Load (host : Host) : IO Config.t :=
  match UserHomeDir host with
  | Err e => fail ("failed to get home directory: " ++ e)
  | Ok homeDir =>
      match ReadInConfig host with
      | ConfigUnreadable e => fail ("failed to read config: " ++ e)
      | ConfigFileNotFound =>
          config <- wrapped "failed to complete interactive setup"
                      InteractiveSetup ;;
          wrapped "failed to save config"
            (saveConfig host config ".chat-tui.yaml") ;;
          let config := key_of_environment host config in
          Print (nl ++ "Configuration saved to .chat-tui.yaml" ++ nl) ;;
          Print ("Starting chat..." ++ nl ++ nl) ;;
          ret config
      | ConfigRead =>
          match viper_Unmarshal host with
          | Err e => fail ("failed to unmarshal config: " ++ e)
          | Ok config => ret (key_of_environment host config)
          end
      end
  end.

(** The answer of a line of input to a prompt with a default. *)
Definition reply_or (defaultValue line : string) : string :=
  if String.eqb (TrimSpace line) "" then defaultValue else TrimSpace line.

(** The configuration six lines of input answer to the six prompts. *)
Definition answered (l1 l2 l3 l4 l5 l6 : string) : Config.t :=
  Config.mk
    (reply_or (Config.APIKey defaultConfig) l1)
    (reply_or (Config.BaseURL defaultConfig) l2)
    (reply_or (Config.Model defaultConfig) l3)
    (match ParseFloat
             (reply_or (Sprintf_1f (Config.Temperature defaultConfig)) l4)
     with
     | Some temp => temp
     | None => Config.Temperature defaultConfig
     end)
    (match Atoi (reply_or (itoa (Config.MaxTokens defaultConfig)) l5) with
     | Some n => n
     | None => Config.MaxTokens defaultConfig
     end)
    (reply_or (Config.SystemPrompt defaultConfig) l6)
    (Config.UI defaultConfig) (Config.Debug defaultConfig).

End WithLib.

(** What a step leaves untouched. *)
Definition same_input (s s' : Sys) : Prop :=
  stdin s' = stdin s /\ stdin_end s' = stdin_end s /\
  written s' = written s.

(** A step that writes no file. *)
Definition keeps_files {A} (m : IO A) : Prop :=
  forall s, written (snd (m s)) = written s.

(** A step after which standard input has nothing left to deliver
    when it had nothing before. *)
Definition keeps_drained {A} (m : IO A) : Prop :=
  forall s, stdin s = [] -> stdin (snd (m s)) = [].

End config.

(* ================================================================== *)
(** * package cmd (root.go)                                             *)
(* ================================================================== *)

Module cmd.

(** The flags of the root command, with the values [cmd.Flags()]
    returns for them. *)
Record Flags := mkFlags {
  flag_config : string;
  flag_model : string;
  flag_temperature : float;
  flag_base_url : string;
  flag_no_stats : bool
}.

(** The flags as [init] declares them, none given. *)
Definition no_flags : Flags := mkFlags "" "" 0%float "" false.

(** The overrides of [runChat]. *)
Definition override (cfg : Config.t) (flags : Flags) : Config.t :=
  let cfg := if negb (String.eqb (flag_model flags) "")
             then config.with_Model cfg (flag_model flags) else cfg in
  let cfg := if PrimFloat.ltb 0 (flag_temperature flags)
             then config.with_Temperature cfg (flag_temperature flags)
             else cfg in
  let cfg := if negb (String.eqb (flag_base_url flags) "")
             then config.with_BaseURL cfg (flag_base_url flags) else cfg in
  let cfg := if flag_no_stats flags
             then config.with_ShowStats cfg false else cfg in
  cfg.

Section WithLib.
Context `{GoLib} `{GoMore}.

(** [func runChat(cmd, args) error] up to the start of the Bubble Tea
    program: the world the program starts in, or the error
    returned.  [renderer] is the error of [glamour.NewTermRenderer]
    inside [NewChatModel]. *)
Definition runChat (host : config.Host) (renderer : option error)
    (flags : Flags) : config.IO runtime.World :=
  fun s =>
    match config.wrapped "failed to load config" (config.Load host) s with
    | (Err e, s') => (Err e, s')
    | (Ok cfg, s') =>
        let cfg := override cfg flags in
        match renderer with
        | Some e =>
            (Err ("failed to create chat model: "
                    ++ "failed to create message component: " ++ e), s')
        | None => (Ok (runtime.boot cfg), s')
        end
    end.

End WithLib.

End cmd.

Module start_samples.

(** A machine with a configuration file that decodes to [samples.cfg],
    and a key in the environment. *)
Definition configured : config.Host :=
  config.mkHost (Ok "/home/user") config.ConfigRead (Ok samples.cfg)
                "sk-env" (fun _ _ => None).

(** A machine without a configuration file. *)
Definition fresh : config.Host :=
  config.mkHost (Ok "/home/user") config.ConfigFileNotFound
                (Ok config.defaultConfig) "sk-env" (fun _ _ => None).

(** Nothing typed, and six answers: a key, two blank lines, a
    temperature, a token limit that is not a number, and a prompt,
    with a seventh line after them.  A terminal delivers them line
    by line, a file in one read. *)
Definition silent_terminal : config.Sys := config.mkSys [] io_EOF "" [].
Definition answers : list string :=
  ["sk-typed"; ""; "  "; "1.5"; "many"; "Be brief"; "hello"].
Definition six_answers : config.Sys :=
  config.mkSys (map sse.raw answers) io_EOF "" [].
Definition six_answers_of_a_file : config.Sys :=
  config.mkSys [sse.body_of answers] io_EOF "" [].

Definition flags : cmd.Flags := cmd.mkFlags "" "mistral" 0%float "" true.

(** A command with the arguments [0.5] and [x]. *)
Definition two_args : Command.t := Command.mk "temp" ["0.5"; "x"].

End start_samples.

(* ================================================================== *)
(** * Rendering: message.go, stats.go, input.go and chat.go             *)
(* ================================================================== *)

Module render.

Import ui.

(** [strings.Split(s, "\n")]; [cur] is the part of the current piece
    already scanned. *)
Fixpoint split_lines (cur s : string) : list string :=
  match s with
  | EmptyString => [cur]
  | String c rest =>
      if Ascii.eqb c newline then cur :: split_lines "" rest
      else split_lines (cur ++ String c "") rest
  end.

Definition Split_nl (s : string) : list string := split_lines "" s.

(** [strings.TrimRight(s, "\n")] *)
Fixpoint TrimRight_nl (s : string) : string :=
  match s with
  | EmptyString => EmptyString
  | String c rest =>
      match TrimRight_nl rest with
      | EmptyString =>
          if Ascii.eqb c newline then EmptyString else String c ""
      | t => String c t
      end
  end.

Fixpoint spaces (n : nat) : string :=
  match n with O => "" | S n' => " " ++ spaces n' end.

(** [%-12s] of [fmt], on a text of one byte per character *)
Definition pad_12 (s : string) : string :=
  s ++ spaces (12 - String.length s).

(** [xs[len(xs)-k:]] *)
Definition last_n {A} (k : nat) (xs : list A) : list A :=
  skipn (List.length xs - k) xs.

Section WithLib.
Context `{GoLib} `{GoMore}.

(** ** message.go *)

(** [func (m *MessageComponent) RenderMessage(role, content string)] *)
Definition RenderMessage (role content : string) : string :=
  if String.eqb role "user" then
    let lines := Split_nl content in
    let lines :=
      map (fun line =>
             if String.eqb (TrimSpace line) ""
             then Render lipgloss.userMessageStyle ">"
             else Render lipgloss.userMessageStyle "> " ++ line)
          lines in
    Join lines nl
  else if String.eqb role "assistant" then
    let rendered := match glamour_Render content with
                    | Ok rendered => rendered
                    | Err _ => content
                    end in
    let rendered := TrimRight_nl rendered in
    rendered ++ nl
  else if String.eqb role "system" then
    let rendered := match glamour_Render content with
                    | Ok rendered => rendered
                    | Err _ => content
                    end in
    let rendered := TrimRight_nl rendered in
    let headerLine := Render lipgloss.systemMessageStyle "System:" in
    headerLine ++ nl ++ rendered ++ nl
  else content ++ nl.

(** [func (m *MessageComponent) RenderTyping() string] *)
Definition RenderTyping : string := Render lipgloss.typingStyle "typing...".

(** ** input.go *)

(** [func (i *InputComponent) View() string] *)
Definition InputView (i : components.InputComponent) : string :=
  textarea_View (components.textarea_ i).

(** [func (i *InputComponent) GetModeIndicator() string] *)
Definition GetModeIndicator (i : components.InputComponent) : string :=
  let mode := "single-line" in
  let mode := if components.multilineMode i then "multi-line" else mode in
  Render lipgloss.helpStyle ("(" ++ mode ++ " mode)").

(** ** stats.go; the record behind the pointer [s.stats] is given as
    [stats], [None] for a nil pointer *)

(** [func (s *StatsComponent) IsVisible() bool] *)
Definition IsVisible (s : components.StatsComponent) : bool :=
  components.visible s.

(** [func (s *StatsComponent) renderStat(label, value string)] *)
Definition renderStat (label value : string) : string :=
  Render lipgloss.statsLabelStyle (label ++ ":") ++ " " ++
  Render lipgloss.statsValueStyle value ++ nl.

(** [func (s *StatsComponent) View() string] *)
Definition StatsView (visible : bool) (stats : option RequestStats.t)
    : string :=
  if negb visible then ""
  else
    match stats with
    | None =>
        Render lipgloss.statsPanelStyle
          (Render lipgloss.statsTitleStyle "Stats" ++ nl ++ nl ++
           Render lipgloss.statsHelpStyle "No request data yet")
    | Some st =>
        let content := "" in
        let content := content ++
          Render lipgloss.statsTitleStyle "Request Statistics" in
        let content := content ++ nl ++ nl in
        let content := content ++
          renderStat "Model" (RequestStats.Model st) in
        let content := content ++
          renderStat "HTTP Status" (itoa (RequestStats.HTTPStatus st)) in
        let content := content ++ nl in
        let content := content ++ Render lipgloss.statsTitleStyle "Tokens" in
        let content := content ++ nl in
        let content := content ++
          renderStat "Input Tokens" (itoa (RequestStats.InputTokens st)) in
        let content := content ++
          renderStat "Output Tokens" (itoa (RequestStats.OutputTokens st)) in
        let content := content ++
          renderStat "Total Tokens" (itoa (RequestStats.TotalTokens st)) in
        let content := content ++ nl in
        let content := content ++
          Render lipgloss.statsTitleStyle "Performance" in
        let content := content ++ nl in
        let content := content ++
          renderStat "Total Latency"
            (Sprintf_2f (Seconds (RequestStats.Latency st)) ++ "s") in
        let content :=
          if 0 <? RequestStats.TimeToFirstToken st
          then content ++
               renderStat "Time to 1st Token"
                 (Sprintf_2f (Seconds (RequestStats.TimeToFirstToken st))
                    ++ "s")
          else content in
        let content :=
          if 0 <? RequestStats.GenerationTime st
          then content ++
               renderStat "Generation Time"
                 (Sprintf_2f (Seconds (RequestStats.GenerationTime st))
                    ++ "s")
          else content in
        let content :=
          if PrimFloat.ltb 0 (RequestStats.TokensPerSec st)
          then content ++
               renderStat "Avg Speed"
                 (Sprintf_2f (RequestStats.TokensPerSec st) ++ " tok/s")
          else content in
        let content :=
          if PrimFloat.ltb 0 (RequestStats.PostFirstTokenSpeed st)
          then content ++
               renderStat "Gen Speed"
                 (Sprintf_2f (RequestStats.PostFirstTokenSpeed st)
                    ++ " tok/s")
          else content in
        let content :=
          if PrimFloat.ltb 0 (RequestStats.CostEstimate st)
          then content ++ nl ++
               Render lipgloss.statsTitleStyle "Cost" ++ nl ++
               renderStat "Estimate"
                 ("$" ++ Sprintf_6f (RequestStats.CostEstimate st))
          else content in
        Render lipgloss.statsPanelStyle content
    end.

(** The separator of the parts of the compact stats, as the source
    file holds it. *)
Definition parts_separator : string := " â€¢ ".

(** The slice [parts] of [RenderCompactStats] before it is joined. *)
Definition compact_parts (st : RequestStats.t) : list string :=
  let parts := [] in
  let parts :=
    if 0 <? RequestStats.TotalTokens st
    then append parts (itoa (RequestStats.TotalTokens st) ++ " tok")
    else parts in
  let parts :=
    if 0 <? RequestStats.TimeToFirstToken st
    then append parts
           ("TTFT: "
              ++ Sprintf_2f (Seconds (RequestStats.TimeToFirstToken st))
              ++ "s")
    else parts in
  let parts :=
    if PrimFloat.ltb 0 (RequestStats.PostFirstTokenSpeed st)
    then append parts
           (Sprintf_1f (RequestStats.PostFirstTokenSpeed st) ++ " tok/s")
    else if PrimFloat.ltb 0 (RequestStats.TokensPerSec st)
    then append parts (Sprintf_1f (RequestStats.TokensPerSec st) ++ " tok/s")
    else parts in
  let parts :=
    if 0 <? RequestStats.Latency st
    then append parts (Sprintf_2f (Seconds (RequestStats.Latency st)) ++ "s")
    else parts in
  parts.

(** [func (s *StatsComponent) RenderCompactStats() string] *)
Definition RenderCompactStats (visible : bool)
    (stats : option RequestStats.t) : string :=
  match stats with
  | None => ""
  | Some st =>
      if negb visible then ""
      else
        let parts := compact_parts st in
        if slice_len parts =? 0 then ""
        else Render lipgloss.statsHelpStyle
               ("[" ++ Join parts parts_separator ++ "]")
  end.

(** ** styles.go *)

Definition asciiArt : string :=
  "░█▀▀░█░█░█▀█░▀█▀░░░▀█▀░█░█░▀█▀" ++ nl ++
  "░█░░░█▀█░█▀█░░█░░░░░█░░█░█░░█░" ++ nl ++
  "░▀▀▀░▀░▀░▀░▀░░▀░░░░░▀░░▀▀▀░▀▀▀" ++ nl.

(** [func RenderBanner(appName, appDesc, version, model, baseURL)] *)
Definition RenderBanner (appName appDesc version model baseURL : string)
    : string :=
  let content := "" in
  let content := content ++ Render lipgloss.asciiArtStyle_48 asciiArt in
  let content := content ++ nl in
  let content := content ++ Render lipgloss.subtitleStyle_48 appDesc in
  let content := content ++ nl ++ nl in
  let content := content ++
    Render lipgloss.infoStyle ("Version:  " ++ version) in
  let content := content ++ nl in
  let content := content ++
    Render lipgloss.infoStyle ("Model:    " ++ model) in
  let content := content ++ nl in
  let content := content ++
    Render lipgloss.infoStyle ("Endpoint: " ++ baseURL) in
  let content := content ++ nl ++ nl in
  let content := content ++
    Render lipgloss.HelpStyle "Type /help for commands • Ctrl+C to exit" in
  Render lipgloss.bannerStyle content.

(** ** chat.go *)

(** The loop of [renderSuggestions] over the suggestions displayed,
    from index [i] on. *)
Fixpoint suggestion_lines (i selected : Z) (shown : list CommandDef.t)
    : string :=
  match shown with
  | [] => ""
  | cmd :: rest =>
      let line := "  " ++ pad_12 (CommandDef.Usage cmd) ++ " - "
                       ++ CommandDef.Description cmd in
      (if i =? selected
       then Render lipgloss.SuccessStyle ("▸ " ++ line)
       else Render lipgloss.HelpStyle ("  " ++ line)) ++ nl ++
      suggestion_lines (i + 1) selected rest
  end.

(** [func (m *ChatModel) renderSuggestions() string] *)
Definition renderSuggestions (m : ChatModel) : string :=
  if slice_len (suggestions m) =? 0 then ""
  else
    let maxSuggestions := 5 in
    let displayCount := slice_len (suggestions m) in
    let displayCount := if maxSuggestions <? displayCount
                        then maxSuggestions else displayCount in
    Render lipgloss.HelpStyle
      "Suggestions (Enter/Tab to complete, ↑↓ to navigate):" ++ nl ++
    suggestion_lines 0 (selectedSuggestion m)
      (firstn (Z.to_nat displayCount) (suggestions m)) ++
    (if maxSuggestions <? slice_len (suggestions m)
     then Render lipgloss.HelpStyle
            ("  ... and " ++ itoa (slice_len (suggestions m) - maxSuggestions)
               ++ " more") ++ nl
     else "").

(** The loop of [View] and of [renderMessages] over the history. *)
Fixpoint history_text (msgs : list Message.t) : string :=
  match msgs with
  | [] => ""
  | msg :: rest =>
      if String.eqb (Message.Role msg) "system" then history_text rest
      else RenderMessage (Message.Role msg) (Message.Content msg) ++ nl ++
           history_text rest
  end.

(** [func (m *ChatModel) renderMessages(maxHeight int) string] *)
Definition renderMessages (m : ChatModel) (maxHeight : Z) : string :=
  let content := history_text (messages m) in
  let content :=
    if streaming m && negb (String.eqb (streamContent m) "") then
      content ++
      RenderMessage "assistant"
        (streamContent m ++ " " ++ Render lipgloss.TypingStyle "▊") ++ nl
    else if streaming m then content ++ RenderTyping ++ nl
    else content in
  let lines := Split_nl content in
  let lines := if (0 <? maxHeight) && (maxHeight <? slice_len lines)
               then last_n (Z.to_nat maxHeight) lines else lines in
  Join lines nl.

(** [func (m *ChatModel) View() string]; [stats] is the record behind
    [m.stats.stats]. *)
Definition View (m : ChatModel) (stats : option RequestStats.t) : string :=
  if negb (ready m) then "Initializing..."
  else
    let view := "" in
    let view := view ++
      RenderBanner version_AppName version_Description version_Version
                   (Config.Model (config m)) (Config.BaseURL (config m)) in
    let view := view ++ nl ++ nl in
    let view := view ++ history_text (messages m) in
    let view :=
      if streaming m && negb (String.eqb (streamContent m) "") then
        view ++
        RenderMessage "assistant"
          (streamContent m ++ " " ++ Render lipgloss.TypingStyle "▊")
      else if streaming m then view ++ RenderTyping ++ nl
      else view in
    let view :=
      match err m with
      | Some e => view ++ Render lipgloss.ErrorStyle ("Error: " ++ e)
                       ++ nl ++ nl
      | None => view
      end in
    let view :=
      if 0 <? slice_len (suggestions m)
      then view ++ renderSuggestions m ++ nl
      else view in
    let view := view ++ InputView (input m) in
    let statusLine := GetModeIndicator (input m) in
    let statusLine :=
      if IsVisible (ui.stats m) then
        let compactStats :=
          RenderCompactStats (components.visible (ui.stats m)) stats in
        if negb (String.eqb compactStats "")
        then statusLine ++ "  " ++ compactStats
        else statusLine
      else statusLine in
    let view :=
      if negb (String.eqb statusLine "")
      then view ++ nl ++ statusLine
      else view in
    view.

End WithLib.

(** The model after [/] was typed and Down was pressed five times. *)
Definition fifth_down : runtime.World :=
  samples.session samples.offline samples.cfg
    (samples.key (chat.typed "/")
       :: repeat (samples.key browse.key_down) 5).

End render.

(** What a reader of the screen can tell. *)
Module screen.

Import ui render.

Definition tab : tea.KeyMsg := tea.mkKey tea.KeyTab "" false.

(** The messages [View] renders. *)
Definition not_system (msg : Message.t) : bool :=
  negb (role_is "system" msg).
Definition shown_messages (msgs : list Message.t) : list Message.t :=
  filter not_system msgs.

(** A text without a newline. *)
Fixpoint one_line (s : string) : bool :=
  match s with
  | EmptyString => true
  | String c rest => negb (Ascii.eqb c newline) && one_line rest
  end.

Section WithLib.
Context `{GoLib} `{GoMore}.

(** The line of a suggestion that is not the selected one. *)
Definition plain_line (cmd : CommandDef.t) : string :=
  Render lipgloss.HelpStyle
    ("  " ++ "  " ++ pad_12 (CommandDef.Usage cmd) ++ " - "
          ++ CommandDef.Description cmd) ++ nl.

(** A list of suggestions none of which is highlighted. *)
Definition unmarked (shown : list CommandDef.t) : string :=
  fold_right (fun cmd rest => plain_line cmd ++ rest) "" shown.

(** The parts of the status line without the token count. *)
Definition parts_without_total (s : RequestStats.t) : list string :=
  ((if 0 <? RequestStats.TimeToFirstToken s
    then [("TTFT: "
             ++ Sprintf_2f (Seconds (RequestStats.TimeToFirstToken s))
             ++ "s")%string]
    else []) ++
   (if PrimFloat.ltb 0 (RequestStats.PostFirstTokenSpeed s)
    then [(Sprintf_1f (RequestStats.PostFirstTokenSpeed s)
             ++ " tok/s")%string]
    else if PrimFloat.ltb 0 (RequestStats.TokensPerSec s)
    then [(Sprintf_1f (RequestStats.TokensPerSec s) ++ " tok/s")%string]
    else []) ++
   (if 0 <? RequestStats.Latency s
    then [(Sprintf_2f (Seconds (RequestStats.Latency s)) ++ "s")%string]
    else []))%list.

(** What [View] and [renderMessages] add for a reply that is being
    received. *)
Definition cursor : string := Render lipgloss.TypingStyle "▊".

(** The text [renderMessages] splits into lines. *)
Definition conversation (m : ChatModel) : string :=
  history_text (messages m) ++
  (if streaming m && negb (String.eqb (streamContent m) "")
   then RenderMessage "assistant" (streamContent m ++ " " ++ cursor) ++ nl
   else if streaming m then RenderTyping ++ nl
   else "").

End WithLib.

End screen.

(* ================================================================== *)
(** * Properties of the streaming client                                *)
(* ================================================================== *)

Module sse_facts.

Import llm sse.

Lemma len_zero (s : string) : (len s =? 0) = String.eqb s "".
Proof.
  destruct s as [|c s]; [reflexivity|].
  unfold len; simpl String.length.
  destruct (Z.eqb_spec (Z.of_nat (S (String.length s))) 0); [lia|reflexivity].
Qed.

Lemma sends_cons t ts r : sends ts (sends [t] r) = sends (t :: ts) r.
Proof.
  unfold sends; simpl. rewrite <- app_assoc. reflexivity.
Qed.

Lemma emitted_cons t ts ftr r :
  emitted ts true (emitted [t] ftr r) = emitted (t :: ts) ftr r.
Proof.
  destruct ts as [|d ds]; [reflexivity|].
  unfold emitted. apply sends_cons.
Qed.

Lemma sent_app a b : sent (a ++ b) = (sent a ++ sent b)%list.
Proof.
  induction a as [|e a IH]; [reflexivity|].
  destruct e; cbn; rewrite IH; reflexivity.
Qed.

Lemma assigned_app a b : assigned (a ++ b) = (assigned a ++ assigned b)%list.
Proof.
  induction a as [|e a IH]; [reflexivity|].
  destruct e; cbn; rewrite IH; reflexivity.
Qed.

Lemma sent_sends texts :
  sent (map (fun t => Send (chunkContent t)) texts) = map chunkContent texts.
Proof. induction texts as [|t ts IH]; cbn; [|rewrite IH]; reflexivity. Qed.

Lemma assigned_sends texts :
  assigned (map (fun t => Send (chunkContent t)) texts) = [].
Proof. induction texts as [|t ts IH]; cbn; [reflexivity|exact IH]. Qed.

Lemma finalize_spec tc ftr r :
  finalize tc ftr r =
  (tt, mkRun (fold_left (fun s w => RequestStats.apply w s)
                        (closed_stats tc ftr r) (stats r))
             (trace r ++ map Assign (closed_stats tc ftr r))
             (snd (tick (clock r)))).
Proof.
  destruct r as [s tr c]. destruct s.
  unfold finalize, closed_stats, bind, when, time_Now, assign, load, ret,
    record, append.
  cbn -[Sub Seconds float64_of_int Z.ltb].
  destruct ftr;
    repeat (match goal with
            | |- context [Z.ltb ?a ?b] => destruct (Z.ltb a b)
            end; cbn -[Sub Seconds float64_of_int Z.ltb]);
    repeat rewrite <- app_assoc; reflexivity.
Qed.

Lemma terminate_spec e tc ftr r :
  snd (terminate e tc ftr r) =
  mkRun (fold_left (fun s w => RequestStats.apply w s)
                   (closed_stats tc ftr r) (stats r))
        (trace r ++ error_event e ++ map Assign (closed_stats tc ftr r)
           ++ [Send chunkDone])
        (snd (tick (clock r))).
Proof.
  unfold terminate, bind.
  assert (E : forall r', stats r' = stats r -> clock r' = clock r ->
            closed_stats tc ftr r' = closed_stats tc ftr r).
  { intros r' Hs Hc. unfold closed_stats. rewrite Hs, Hc. reflexivity. }
  destruct e as [|[|x]]; unfold send, ret, record, append;
    cbn [error_event app]; rewrite finalize_spec;
    cbn [snd stats trace clock];
    try rewrite (E _ eq_refl eq_refl);
    repeat rewrite <- app_assoc; reflexivity.
Qed.

Lemma append_assoc (a b c : string) : ((a ++ b) ++ c = a ++ (b ++ c))%string.
Proof. induction a as [|x a IH]; cbn; [|rewrite IH]; reflexivity. Qed.

(** [ReadBytes] returns a newline-free line with its newline. *)
Lemma ReadBytes_line l : forall cur rest,
  no_newline l = true ->
  ReadBytes_all cur (raw l ++ rest) =
  ((cur ++ raw l) :: fst (ReadBytes_all "" rest),
   snd (ReadBytes_all "" rest)).
Proof.
  unfold raw.
  induction l as [|x l IH]; intros cur rest Hl.
  - cbn. destruct (ReadBytes_all "" rest); reflexivity.
  - cbn [no_newline] in Hl. apply andb_true_iff in Hl as [Hx Hl].
    cbn [String.append ReadBytes_all].
    apply negb_true_iff in Hx. rewrite Hx.
    rewrite (IH _ _ Hl). rewrite append_assoc. reflexivity.
Qed.

Lemma ReadBytes_body ls :
  forallb no_newline ls = true ->
  ReadBytes_all "" (body_of ls) = (map raw ls, "").
Proof.
  induction ls as [|l ls IH]; intros Hn; [reflexivity|].
  cbn in Hn. apply andb_true_iff in Hn as [Hl Hn].
  cbn [body_of]. rewrite (ReadBytes_line _ _ _ Hl), (IH Hn). reflexivity.
Qed.

(** The clock does not run backwards. *)
Lemma tick_le c : reading c <= fst (tick c).
Proof. unfold tick; cbn. lia. Qed.

Lemma tick_reading c : reading (snd (tick c)) = fst (tick c).
Proof. reflexivity. Qed.

Lemma start_le_first clk : start_time clk <= first_token_time clk.
Proof.
  unfold start_time, first_token_time.
  rewrite <- (tick_reading clk). apply tick_le.
Qed.

Lemma first_le_end clk : first_token_time clk <= end_time clk true.
Proof.
  unfold first_token_time, end_time.
  rewrite <- (tick_reading (snd (tick clk))). apply tick_le.
Qed.

Lemma start_le_end clk a : start_time clk <= end_time clk a.
Proof.
  destruct a.
  - pose proof (start_le_first clk). pose proof (first_le_end clk). lia.
  - unfold start_time, end_time.
    rewrite <- (tick_reading clk). apply tick_le.
Qed.

Lemma Sub_nonneg t u : u <= t -> 0 <= Sub t u.
Proof.
  intros L. unfold Sub, minDuration, maxDuration.
  destruct (Z.ltb_spec (t - u) (- 2 ^ 63)); [lia|].
  destruct (Z.ltb_spec (2 ^ 63 - 1) (t - u)); lia.
Qed.

Lemma Sub_mono t t' u : t <= t' -> Sub t u <= Sub t' u.
Proof.
  intros L. unfold Sub, minDuration, maxDuration.
  destruct (Z.ltb_spec (t - u) (- 2 ^ 63));
    destruct (Z.ltb_spec (2 ^ 63 - 1) (t - u));
    destruct (Z.ltb_spec (t' - u) (- 2 ^ 63));
    destruct (Z.ltb_spec (2 ^ 63 - 1) (t' - u)); lia.
Qed.

Lemma content_is_content t : is_content (chunkContent t) = true.
Proof. reflexivity. Qed.

Lemma filter_content_texts ts :
  filter is_content (map chunkContent ts) = map chunkContent ts.
Proof. induction ts as [|t ts IH]; cbn; [|rewrite IH]; reflexivity. Qed.

Lemma filter_content_closing e : filter is_content (closing e) = [].
Proof. destruct e as [|[|x]]; reflexivity. Qed.

Lemma done_is_last_texts ts e :
  done_is_last (map chunkContent ts ++ closing e) = true.
Proof.
  induction ts as [|t ts IH]; [destruct e as [|[|x]]; reflexivity|].
  cbn. exact IH.
Qed.

Section WithLib.
Context `{GoLib}.

(** One trip through the loop body for a line that is not the
    sentinel. *)
Lemma readLoop_step l rest err tc ftr r :
  is_sentinel l = false ->
  readLoop (l :: rest) err tc ftr r =
  match payload l with
  | Some t => readLoop rest err (tc + 1) true (emitted [t] ftr r)
  | None => readLoop rest err tc ftr r
  end.
Proof.
  unfold is_sentinel, payload; intros Hs.
  cbn [readLoop]. rewrite len_zero.
  destruct (String.eqb (TrimSpace l) ""); [reflexivity|].
  destruct (HasPrefix (TrimSpace l) "data: "); [|reflexivity].
  cbn [negb andb] in *. rewrite Hs.
  destruct (Unmarshal _) as [d|]; [|reflexivity].
  destruct (StreamResp.Choices d) as [|c0 cs]; [reflexivity|].
  destruct (String.eqb _ ""); cbn [negb]; [reflexivity|].
  destruct ftr; reflexivity.
Qed.

Lemma readLoop_sentinel l rest err tc ftr r :
  is_sentinel l = true ->
  readLoop (l :: rest) err tc ftr r = terminate AtSentinel tc ftr r.
Proof.
  unfold is_sentinel; intros Hs.
  apply andb_true_iff in Hs as [Hp Hd].
  cbn [readLoop]. rewrite len_zero.
  destruct (String.eqb (TrimSpace l) "") eqn:E.
  - apply String.eqb_eq in E. rewrite E in Hp. discriminate.
  - rewrite Hp, Hd. reflexivity.
Qed.

Lemma readLoop_end err tc ftr r :
  readLoop [] err tc ftr r = terminate (AtEnd err) tc ftr r.
Proof. destruct err; reflexivity. Qed.

(** The loop sends the text deltas of the lines before the first
    sentinel and then leaves. *)
Lemma readLoop_scan lines : forall err tc ftr r,
  readLoop lines err tc ftr r =
  let (before, e) := scan lines err in
  terminate e (tc + Z.of_nat (List.length (deltas before)))
            (ftr || negb (Nat.eqb (List.length (deltas before)) 0))
            (emitted (deltas before) ftr r).
Proof.
  induction lines as [|l rest IH]; intros err tc ftr r.
  - rewrite readLoop_end. cbn.
    rewrite Z.add_0_r, orb_false_r. reflexivity.
  - cbn [scan]. destruct (is_sentinel l) eqn:Hs.
    + rewrite readLoop_sentinel by assumption. cbn.
      rewrite Z.add_0_r, orb_false_r. reflexivity.
    + rewrite readLoop_step by assumption.
      specialize (IH err).
      destruct (scan rest err) as [before e].
      cbn [deltas]. destruct (payload l) as [t|].
      * rewrite IH. rewrite emitted_cons.
        cbn [List.length Nat.eqb negb orb].
        rewrite orb_true_r.
        replace (tc + 1 + Z.of_nat (List.length (deltas before)))
          with (tc + Z.of_nat (S (List.length (deltas before)))) by lia.
        reflexivity.
      * apply IH.
Qed.

Lemma stream_responds c msgs resp clk :
  StatusCode resp = 200 ->
  stream c msgs (Responds resp) clk = (StreamOk, stream_end c resp clk).
Proof.
  intros Hs. unfold stream, ChatStream, stream_end, handed_over.
  unfold bind at 1. cbn [assign].
  rewrite Hs. cbn [Z.eqb Pos.eqb negb ret].
  unfold stream_goroutine, bind, close_chunks, Body_Close.
  rewrite readLoop_scan.
  destruct (scan _ _) as [before e].
  cbn [orb Z.add]. cbn [snd assign].
  destruct (terminate _ _ _ _) as [u r]. reflexivity.
Qed.

Lemma closed_stats_emitted ds c st clk :
  closed_stats (Z.of_nat (List.length ds)) (any ds)
               (emitted ds false (handed_over c st clk)) =
  final_writes clk (Z.of_nat (List.length ds)) (any ds).
Proof.
  unfold closed_stats, final_writes, handed_over, new_run, any.
  destruct ds as [|d ds]; [reflexivity|].
  cbn [List.length Nat.eqb negb].
  unfold emitted, sends, stamp, end_time, start_time, first_token_time.
  reflexivity.
Qed.

(** Everything a stream answered with status 200 does, in order. *)
Lemma stream_end_trace c resp clk :
  trace (stream_end c resp clk) =
  ([Assign (RequestStats.wHTTPStatus (StatusCode resp))] ++
   map Assign (first_token_writes clk (any (texts_of resp))) ++
   map (fun t => Send (chunkContent t)) (texts_of resp) ++
   error_event (ending_of resp) ++
   map Assign (final_writes clk (Z.of_nat (List.length (texts_of resp)))
                            (any (texts_of resp))) ++
   [Send chunkDone; CloseChunks; CloseBody])%list.
Proof.
  unfold stream_end, texts_of, ending_of.
  destruct (scan _ _) as [before e]. cbn [fst snd].
  unfold record, append. cbn [trace].
  rewrite terminate_spec. cbn [trace].
  fold (any (deltas before)).
  rewrite closed_stats_emitted.
  set (fw := final_writes _ _ _).
  destruct (deltas before) as [|d ds].
  - cbn. repeat rewrite <- app_assoc. reflexivity.
  - unfold any. cbn [List.length Nat.eqb negb first_token_writes].
    unfold emitted, sends, stamp. cbn -[fw error_event].
    repeat rewrite <- app_assoc. reflexivity.
Qed.

Lemma stream_end_writes c resp clk :
  writes (stream_end c resp clk) =
  ([RequestStats.wHTTPStatus (StatusCode resp)] ++
   first_token_writes clk (any (texts_of resp)) ++
   final_writes clk (Z.of_nat (List.length (texts_of resp)))
                (any (texts_of resp)))%list.
Proof.
  unfold writes. rewrite stream_end_trace.
  repeat rewrite assigned_app.
  rewrite assigned_sends.
  assert (A : forall ws, assigned (map Assign ws) = ws).
  { induction ws as [|w ws IH]; cbn; [|rewrite IH]; reflexivity. }
  rewrite !A.
  destruct (ending_of resp) as [|[|x]]; cbn [error_event assigned app];
    rewrite app_nil_r; reflexivity.
Qed.

Lemma stream_end_chunks c resp clk :
  chunks (stream_end c resp clk) =
  (map chunkContent (texts_of resp) ++ closing (ending_of resp))%list.
Proof.
  unfold chunks. rewrite stream_end_trace.
  repeat rewrite sent_app. rewrite sent_sends.
  assert (A : forall ws, sent (map Assign ws) = []).
  { induction ws as [|w ws IH]; cbn; [reflexivity|exact IH]. }
  rewrite !A.
  destruct (ending_of resp) as [|[|x]]; reflexivity.
Qed.

(** The record at the end of the stream is the struct literal with
    the assignments of the stream applied in order. *)
Lemma stream_end_stats c resp clk :
  stats (stream_end c resp clk) =
  replay (writes (stream_end c resp clk)) (literal c clk).
Proof.
  rewrite stream_end_writes.
  unfold stream_end, texts_of.
  destruct (scan _ _) as [before e]. cbn [fst snd].
  unfold record, append. cbn [stats].
  rewrite terminate_spec. cbn [stats].
  fold (any (deltas before)).
  rewrite closed_stats_emitted.
  set (fw := final_writes _ _ _).
  unfold replay. rewrite !fold_left_app. f_equal.
  destruct (deltas before) as [|d ds]; reflexivity.
Qed.

(** The final record, field by field. *)
Lemma stream_end_record c resp clk :
  let n := Z.of_nat (List.length (texts_of resp)) in
  let a := any (texts_of resp) in
  let t0 := start_time clk in
  let t1 := first_token_time clk in
  let t2 := end_time clk a in
  stats (stream_end c resp clk) =
  RequestStats.mk
    t0 t2 (if a then t1 else 0) (model c) 0 n 0
    (if (0 <? n) && (0 <? Sub t2 t0)
     then PrimFloat.div (float64_of_int n) (Seconds (Sub t2 t0))
     else 0%float)
    (if a then Sub t1 t0 else 0)
    (if a then Sub t2 t1 else 0)
    (if a && ((1 <? n) && (0 <? Sub t2 t1))
     then PrimFloat.div (float64_of_int (n - 1)) (Seconds (Sub t2 t1))
     else 0%float)
    (Sub t2 t0) (StatusCode resp) 0%float.
Proof.
  intros n a t0 t1 t2.
  rewrite stream_end_stats, stream_end_writes.
  fold n a. unfold final_writes, first_token_writes, literal, replay.
  fold t0 t1 t2.
  destruct a;
    destruct ((1 <? n) && (0 <? Sub t2 t1));
    destruct ((0 <? n) && (0 <? Sub t2 t0)); reflexivity.
Qed.
End WithLib.
End sse_facts.

Module stream_claims.

Import llm sse sse_facts.

(** Case analysis on every comparison of the goal. *)
Ltac cases :=
  repeat (match goal with
          | |- context [Z.ltb ?a ?b] => destruct (Z.ltb a b)
          end; cbn -[Sub Z.ltb Z.of_nat Seconds float64_of_int]).

Section WithLib.
Context `{GoLib}.

Lemma scan_well_formed lines last_line err :
  forallb (fun l => negb (is_sentinel (raw l))) lines = true ->
  is_sentinel (raw last_line) = true ->
  scan (map raw (lines ++ [last_line])) err = (map raw lines, AtSentinel).
Proof.
  intros Hl Hs. induction lines as [|l ls IH].
  - cbn. rewrite Hs. reflexivity.
  - cbn in Hl. apply andb_true_iff in Hl as [Hn Hl].
    apply negb_true_iff in Hn.
    cbn [app map scan]. rewrite Hn, (IH Hl). reflexivity.
Qed.

Lemma scan_no_sentinel lines err :
  forallb (fun l => negb (is_sentinel l)) lines = true ->
  scan lines err = (lines, AtEnd err).
Proof.
  intros Hl. induction lines as [|l ls IH]; [reflexivity|].
  cbn in Hl. apply andb_true_iff in Hl as [Hn Hl].
  apply negb_true_iff in Hn.
  cbn [scan]. rewrite Hn, (IH Hl). reflexivity.
Qed.

(** C1. For every well-formed body that ends with the sentinel line,
    the streaming client sends one [Content] chunk for each line
    that carries a non-empty text delta, in the order of the lines,
    and nothing for the other lines (blank lines, lines without the
    data marker, payloads that do not decode, payloads without a
    non-empty delta); the chunks end with [Done], and the final
    [OutputTokens] is the number of [Content] chunks sent. *)
Theorem C1_one_content_chunk_per_text_delta
    (c : OpenAIClient) (msgs : list Message.t) (clk : Clock)
    (lines : list string) (last_line : string) (how : ioerr) :
  well_formed lines last_line ->
  let r := snd (stream c msgs
                  (Responds (mkResponse 200
                               (body_of (lines ++ [last_line])) how))
                  clk) in
  chunks r = (map chunkContent (deltas (map raw lines)) ++ [chunkDone])%list /\
  filter is_content (chunks r) = map chunkContent (deltas (map raw lines)) /\
  RequestStats.OutputTokens (stats r) =
    Z.of_nat (List.length (filter is_content (chunks r))).
Proof.
  intros (Hn & Hl & Hs) r. subst r.
  rewrite stream_responds by reflexivity. cbn [snd].
  assert (T : texts_of (mkResponse 200 (body_of (lines ++ [last_line])) how)
              = deltas (map raw lines)).
  { unfold texts_of. cbn [Body BodyEnd].
    rewrite (ReadBytes_body _ Hn). cbn [fst].
    rewrite (scan_well_formed _ _ _ Hl Hs). reflexivity. }
  assert (E : ending_of (mkResponse 200 (body_of (lines ++ [last_line])) how)
              = AtSentinel).
  { unfold ending_of. cbn [Body BodyEnd].
    rewrite (ReadBytes_body _ Hn). cbn [fst].
    rewrite (scan_well_formed _ _ _ Hl Hs). reflexivity. }
  rewrite stream_end_chunks, stream_end_record, T, E.
  cbn [closing RequestStats.OutputTokens].
  rewrite filter_app, filter_content_texts. cbn [filter is_content
    chunkDone StreamChunk.Done StreamChunk.Error negb andb].
  rewrite app_nil_r, !length_map. auto.
Qed.

Lemma closing_split ts e pre c post :
  (map chunkContent ts ++ closing e)%list = (pre ++ c :: post)%list ->
  is_error c = true ->
  post = [chunkDone] /\ forallb is_content pre = true /\
  exists x, e = AtEnd (io_failure x).
Proof.
  revert pre. induction ts as [|t ts IH]; intros pre E Hc.
  - cbn [map app] in E.
    destruct e as [|[|x]]; cbn [closing] in E.
    + destruct pre as [|p [|q pre]]; inversion E; subst; discriminate.
    + destruct pre as [|p [|q pre]]; inversion E; subst; discriminate.
    + destruct pre as [|p [|q [|u pre]]]; inversion E; subst;
        try discriminate.
      repeat split; eauto.
  - destruct pre as [|p pre]; cbn [map app] in E; inversion E; subst.
    + discriminate.
    + destruct (IH _ H2 Hc) as (P & F & X).
      repeat split; auto.
Qed.

(** C2 (as amended). [Done] is terminal: every stream the server
    answers with status 200 sends exactly one [Done] chunk, as its
    last chunk, and closes the channel.  An [Error] chunk is not
    terminal: it is sent only after [Content] chunks and is followed
    by exactly one more chunk, the [Done] chunk.  When the transport
    fails before a sentinel was read, the stream ends with one
    [Error] chunk carrying the cause, then the assignments of the
    final statistics, then the [Done] chunk, then the close of the
    channel. *)
Theorem C2_done_is_terminal_error_is_followed_by_done
    (c : OpenAIClient) (msgs : list Message.t) (resp : Response)
    (clk : Clock) :
  StatusCode resp = 200 ->
  let r := snd (stream c msgs (Responds resp) clk) in
  done_is_last (chunks r) = true /\
  (exists before, chunks r = (before ++ [chunkDone])%list /\
                  forallb (fun k => negb (is_done k)) before = true) /\
  (forall pre k post,
      chunks r = (pre ++ k :: post)%list -> is_error k = true ->
      post = [chunkDone] /\ forallb is_content pre = true) /\
  (forall x,
      BodyEnd resp = io_failure x ->
      forallb (fun l => negb (is_sentinel l))
              (fst (ReadBytes_all "" (Body resp))) = true ->
      exists earlier,
        trace r =
          (earlier ++
           [Send (chunkError ("stream read error: " ++ x)%string)] ++
           map Assign
             (final_writes clk (Z.of_nat (List.length (texts_of resp)))
                           (any (texts_of resp))) ++
           [Send chunkDone; CloseChunks; CloseBody])%list /\
        sent earlier = map chunkContent (texts_of resp)) /\
  chanClosed r = true.
Proof.
  intros Hs r. subst r.
  rewrite (stream_responds _ _ _ _ Hs). cbn [snd].
  rewrite stream_end_chunks.
  split; [apply done_is_last_texts|].
  split.
  { destruct (ending_of resp) as [|[|x]]; cbn [closing].
    - exists (map chunkContent (texts_of resp)). split; [reflexivity|].
      induction (texts_of resp); cbn; auto.
    - exists (map chunkContent (texts_of resp)). split; [reflexivity|].
      induction (texts_of resp); cbn; auto.
    - exists (map chunkContent (texts_of resp) ++
              [chunkError ("stream read error: " ++ x)%string])%list.
      split; [rewrite <- app_assoc; reflexivity|].
      rewrite forallb_app. apply andb_true_iff. split; [|reflexivity].
      induction (texts_of resp); cbn; auto. }
  split.
  { intros pre k post E Hk.
    destruct (closing_split _ _ _ _ _ E Hk) as (P & F & _). auto. }
  split.
  { intros x Hx Hn. rewrite stream_end_trace.
    assert (E : ending_of resp = AtEnd (io_failure x)).
    { unfold ending_of. rewrite (scan_no_sentinel _ _ Hn), Hx.
      reflexivity. }
    rewrite E. cbn [error_event].
    eexists. split.
    - rewrite !app_assoc. reflexivity.
    - rewrite !sent_app, sent_sends. cbn [sent app].
      assert (A : forall ws, sent (map Assign ws) = []).
      { induction ws as [|w ws IH]; cbn; [reflexivity|exact IH]. }
      rewrite A. reflexivity. }
  unfold chanClosed. rewrite stream_end_trace.
  rewrite !existsb_app. cbn. rewrite !orb_true_r. reflexivity.
Qed.


Lemma any_content ts e :
  existsb is_content (map chunkContent ts ++ closing e) = any ts.
Proof.
  destruct ts as [|t ts]; [destruct e as [|[|x]]; reflexivity|].
  reflexivity.
Qed.

Lemma any_tokens ts : any ts = (0 <? Z.of_nat (List.length ts)).
Proof. destruct ts; reflexivity. Qed.

(** A response whose status is not 200 is closed without a stream. *)
Lemma stream_rejected c msgs resp clk :
  StatusCode resp <> 200 ->
  stream c msgs (Responds resp) clk =
  (StreamErr ("API error (status " ++ itoa (StatusCode resp) ++ "): "
                ++ Body resp),
   record CloseBody (handed_over c (StatusCode resp) clk)).
Proof.
  intros Hs. unfold stream, ChatStream, handed_over.
  unfold bind at 1. cbn [assign].
  apply Z.eqb_neq in Hs. rewrite Hs. reflexivity.
Qed.

Lemma time_to_first_token_of_stream
    (c : OpenAIClient) (resp : Response) (clk : Clock) :
  let r := stream_end c resp clk in
  let s := stats r in
  RequestStats.present RequestStats.fTimeToFirstToken (writes r) =
    existsb is_content (chunks r) /\
  RequestStats.assignments RequestStats.fTimeToFirstToken (writes r) =
    (if existsb is_content (chunks r) then 1 else 0)%nat /\
  (forall first rest,
      chunks r = first :: rest -> is_content first = true ->
      exists earlier later,
        trace r =
          (earlier ++
           [Assign (RequestStats.wFirstTokenTime
                      (RequestStats.FirstTokenTime s));
            Assign (RequestStats.wTimeToFirstToken
                      (Sub (RequestStats.FirstTokenTime s)
                           (RequestStats.StartTime s)));
            Send first] ++ later)%list /\
        sent earlier = [] /\
        RequestStats.TimeToFirstToken s =
          Sub (RequestStats.FirstTokenTime s) (RequestStats.StartTime s)) /\
  (existsb is_content (chunks r) = false ->
   RequestStats.TimeToFirstToken s = 0) /\
  0 <= RequestStats.TimeToFirstToken s <= RequestStats.Latency s.
Proof.
  intros r s. subst s r.
  rewrite stream_end_chunks, stream_end_writes, stream_end_record,
    stream_end_trace, any_content.
  cbn [RequestStats.TimeToFirstToken RequestStats.FirstTokenTime
       RequestStats.StartTime RequestStats.Latency].
  pose proof (start_le_first clk) as L1.
  pose proof (first_le_end clk) as L2.
  pose proof (start_le_end clk false) as L3.
  unfold final_writes, first_token_writes.
  destruct (texts_of resp) as [|t ts] eqn:T; unfold any;
    cbn [List.length Nat.eqb negb].
  - split; [|split; [|split; [|split]]].
    + cbn -[Sub Z.ltb Z.of_nat Seconds float64_of_int]; cases; reflexivity.
    + cbn -[Sub Z.ltb Z.of_nat Seconds float64_of_int]; cases; reflexivity.
    + intros first rest E F. exfalso.
      destruct (ending_of resp) as [|[|x]]; cbn in E; inversion E; subst;
        discriminate.
    + reflexivity.
    + split; [lia|]. apply Sub_nonneg. exact L3.
  - split; [|split; [|split; [|split]]].
    + reflexivity.
    + cbn -[Sub Z.ltb Z.of_nat Seconds float64_of_int]; cases; reflexivity.
    + intros first rest E F. cbn [map app] in E. inversion E; subst.
      eexists [_], _. split; [cbn; reflexivity|]. split; reflexivity.
    + discriminate.
    + split; [apply Sub_nonneg; exact L1 | apply Sub_mono; exact L2].
Qed.


Lemma deltas_app a b :
  deltas (a ++ b) = (deltas a ++ deltas b)%list.
Proof.
  induction a as [|l a IH]; [reflexivity|].
  cbn [app deltas]. destruct (payload l); rewrite IH; reflexivity.
Qed.

Lemma deltas_none ls :
  (forall x, In x ls -> payload x = None) -> deltas ls = [].
Proof.
  induction ls as [|l ls IH]; intros N; [reflexivity|].
  cbn [deltas]. rewrite (N l (or_introl eq_refl)).
  apply IH. intros x I. apply N. right. exact I.
Qed.

(** Lines have a text delta exactly when one of them carries a
    payload with a text that is not empty. *)
Lemma deltas_some ls :
  deltas ls <> [] <-> exists l text, In l ls /\ payload l = Some text.
Proof.
  induction ls as [|l ls IH]; cbn [deltas].
  - split; [congruence|]. intros (l & text & [] & _).
  - destruct (payload l) as [t|] eqn:P.
    + split; [|discriminate]. intros _. exists l, t.
      split; [left; reflexivity|exact P].
    + rewrite IH. split.
      * intros (x & text & I & Q). exists x, text.
        split; [right; exact I|exact Q].
      * intros (x & text & [I|I] & Q); [subst x; congruence|].
        exists x, text. split; assumption.
Qed.

(** The first-token block of a stream answered with status 200, told
    from the lines of the body. *)
Lemma first_token_of_stream
    (c : OpenAIClient) (resp : Response) (clk : Clock) :
  let r := stream_end c resp clk in
  let s := stats r in
  (RequestStats.present RequestStats.fTimeToFirstToken (writes r) = true <->
   exists l text, In l (lines_read resp) /\ payload l = Some text) /\
  (forall before l text after,
      lines_read resp = (before ++ l :: after)%list ->
      (forall x, In x before -> payload x = None) ->
      payload l = Some text ->
      RequestStats.FirstTokenTime s = first_token_time clk /\
      RequestStats.TimeToFirstToken s =
        Sub (first_token_time clk) (start_time clk) /\
      exists later,
        trace r =
          ([Assign (RequestStats.wHTTPStatus (StatusCode resp));
            Assign (RequestStats.wFirstTokenTime (first_token_time clk));
            Assign (RequestStats.wTimeToFirstToken
                      (Sub (first_token_time clk) (start_time clk)));
            Send (chunkContent text)] ++ later)%list).
Proof.
  intros r s.
  destruct (time_to_first_token_of_stream c resp clk) as (P & _).
  fold r in P. subst s.
  split.
  - rewrite P. unfold r. rewrite stream_end_chunks, any_content.
    rewrite <- deltas_some. fold (texts_of resp).
    change (deltas (lines_read resp)) with (texts_of resp).
    unfold any. destruct (texts_of resp); cbn; split;
      congruence.
  - intros before l text after L N Q.
    assert (T : texts_of resp = text :: deltas after).
    { change (texts_of resp) with (deltas (lines_read resp)).
      rewrite L, deltas_app, (deltas_none _ N). cbn [app deltas].
      rewrite Q. reflexivity. }
    unfold r. rewrite stream_end_record, stream_end_trace, T.
    unfold any, first_token_writes.
    cbn [List.length Nat.eqb negb map app
         RequestStats.FirstTokenTime RequestStats.TimeToFirstToken].
    split; [reflexivity|]. split; [reflexivity|].
    eexists. reflexivity.
Qed.

(** C4. For every stream, whatever the network does:
    [TimeToFirstToken] is present in the final statistics exactly
    when a [Content] chunk was sent; it is assigned once in such a
    stream, together with [FirstTokenTime] and just before the first
    [Content] chunk is sent, and never otherwise; and it lies
    between zero and the total latency.  Told from the body: it is
    present exactly when the response has status 200 and one of the
    lines read carries a payload with a text that is not empty; the
    first such line makes the client read the clock, assign that
    reading to [FirstTokenTime] and its distance from [StartTime] to
    [TimeToFirstToken], and send the text of the line, before
    anything else is assigned or sent. *)
Theorem C4_time_to_first_token
    (c : OpenAIClient) (msgs : list Message.t) (net : Exchange)
    (clk : Clock) :
  let r := snd (stream c msgs net clk) in
  let s := stats r in
  RequestStats.present RequestStats.fTimeToFirstToken (writes r) =
    existsb is_content (chunks r) /\
  RequestStats.assignments RequestStats.fTimeToFirstToken (writes r) =
    (if existsb is_content (chunks r) then 1 else 0)%nat /\
  (forall first rest,
      chunks r = first :: rest -> is_content first = true ->
      exists earlier later,
        trace r =
          (earlier ++
           [Assign (RequestStats.wFirstTokenTime
                      (RequestStats.FirstTokenTime s));
            Assign (RequestStats.wTimeToFirstToken
                      (Sub (RequestStats.FirstTokenTime s)
                           (RequestStats.StartTime s)));
            Send first] ++ later)%list /\
        sent earlier = [] /\
        RequestStats.TimeToFirstToken s =
          Sub (RequestStats.FirstTokenTime s) (RequestStats.StartTime s)) /\
  (existsb is_content (chunks r) = false ->
   RequestStats.TimeToFirstToken s = 0) /\
  0 <= RequestStats.TimeToFirstToken s <= RequestStats.Latency s /\
  (RequestStats.present RequestStats.fTimeToFirstToken (writes r) = true <->
   exists resp l text,
     net = Responds resp /\ StatusCode resp = 200 /\
     In l (lines_read resp) /\ payload l = Some text) /\
  (forall resp before l text after,
      net = Responds resp -> StatusCode resp = 200 ->
      lines_read resp = (before ++ l :: after)%list ->
      (forall x, In x before -> payload x = None) ->
      payload l = Some text ->
      RequestStats.StartTime s = start_time clk /\
      RequestStats.FirstTokenTime s = first_token_time clk /\
      RequestStats.TimeToFirstToken s =
        Sub (first_token_time clk) (start_time clk) /\
      exists later,
        trace r =
          ([Assign (RequestStats.wHTTPStatus (StatusCode resp));
            Assign (RequestStats.wFirstTokenTime (first_token_time clk));
            Assign (RequestStats.wTimeToFirstToken
                      (Sub (first_token_time clk) (start_time clk)));
            Send (chunkContent text)] ++ later)%list).
Proof.
  destruct net as [e|e|e|resp];
    try (cbn; (split; [|split; [|split; [|split; [|split; [|split]]]]]);
         [ reflexivity | reflexivity | discriminate | reflexivity | lia
         | split; [discriminate|];
           intros (resp & l & text & Q & _); discriminate Q
         | intros resp before l text after Q; discriminate Q ]).
  destruct (Z.eq_dec (StatusCode resp) 200) as [Hs|Hs].
  - rewrite (stream_responds _ _ _ _ Hs). cbn [snd].
    destruct (time_to_first_token_of_stream c resp clk)
      as (P1 & P2 & P3 & P4 & P5).
    destruct (first_token_of_stream c resp clk) as (Q1 & Q2).
    cbv zeta in *.
    split; [exact P1|]. split; [exact P2|]. split; [exact P3|].
    split; [exact P4|]. split; [exact P5|]. split.
    + rewrite Q1. split.
      * intros (l & text & I & Q). exists resp, l, text. auto.
      * intros (resp0 & l & text & E & _ & I & Q).
        inversion E; subst resp0. exists l, text. auto.
    + intros resp0 before l text after E _ L N Q.
      inversion E; subst resp0.
      destruct (Q2 before l text after L N Q) as (A & B & C).
      split; [|split; [exact A|split; [exact B|exact C]]].
      rewrite stream_end_record. reflexivity.
  - rewrite (stream_rejected _ _ _ _ Hs).
    cbn; (split; [|split; [|split; [|split; [|split; [|split]]]]]);
      [ reflexivity | reflexivity | discriminate | reflexivity | lia
      | split; [discriminate|];
        intros (resp0 & l & text & E & S & _);
        inversion E; subst resp0; contradiction
      | intros resp0 before l text after E S;
        inversion E; subst resp0; contradiction ].
Qed.

Lemma post_first_token_speed_of_stream
    (c : OpenAIClient) (resp : Response) (clk : Clock) :
  let r := stream_end c resp clk in
  let s := stats r in
  RequestStats.present RequestStats.fPostFirstTokenSpeed (writes r) =
    (1 <? RequestStats.OutputTokens s) &&
    (0 <? RequestStats.GenerationTime s) /\
  (RequestStats.present RequestStats.fPostFirstTokenSpeed (writes r) = true ->
   2 <= RequestStats.OutputTokens s) /\
  (1 < RequestStats.OutputTokens s -> 0 < RequestStats.GenerationTime s ->
   RequestStats.PostFirstTokenSpeed s =
     PrimFloat.div (float64_of_int (RequestStats.OutputTokens s - 1))
                   (Seconds (RequestStats.GenerationTime s))) /\
  (RequestStats.present RequestStats.fPostFirstTokenSpeed (writes r) = false ->
   RequestStats.PostFirstTokenSpeed s = 0%float) /\
  (0 < RequestStats.OutputTokens s ->
   RequestStats.GenerationTime s =
     Sub (RequestStats.EndTime s) (RequestStats.FirstTokenTime s)).
Proof.
  intros r s. subst s r.
  rewrite stream_end_writes, stream_end_record.
  cbn [RequestStats.OutputTokens RequestStats.GenerationTime
       RequestStats.PostFirstTokenSpeed RequestStats.EndTime
       RequestStats.FirstTokenTime].
  rewrite any_tokens.
  set (n := Z.of_nat (List.length (texts_of resp))).
  unfold final_writes, first_token_writes.
  set (t0 := start_time clk). set (t1 := first_token_time clk).
  destruct (Z.ltb_spec 0 n) as [Pn|Pn].
  - set (t2 := end_time clk true).
    destruct (Z.ltb_spec 1 n) as [Qn|Qn];
      destruct (Z.ltb_spec 0 (Sub t2 t1)) as [G|G];
      destruct (0 <? Sub t2 t0); cbn;
      (split; [|split; [|split; [|split]]]);
      intros; try reflexivity; try discriminate;
      try (subst t0 t1 t2; cbn in *; lia).
  - set (t2 := end_time clk false).
    destruct (Z.ltb_spec 1 n) as [Qn|Qn]; [lia|].
    cbn. (split; [|split; [|split; [|split]]]);
      intros; try reflexivity; try discriminate; lia.
Qed.


(** C5 (as amended). For every stream, whatever the network does:
    [PostFirstTokenSpeed] is present in the final
    statistics exactly when more than one token was observed and the
    generation time is positive, hence only when [OutputTokens] is
    at least 2; it then equals [(OutputTokens - 1)] divided by the
    generation time in seconds, and it keeps its zero value
    otherwise.  With a token observed, the generation time is the
    end time minus the first-token time. *)
Theorem C5_post_first_token_speed
    (c : OpenAIClient) (msgs : list Message.t) (net : Exchange)
    (clk : Clock) :
  let r := snd (stream c msgs net clk) in
  let s := stats r in
  RequestStats.present RequestStats.fPostFirstTokenSpeed (writes r) =
    (1 <? RequestStats.OutputTokens s) &&
    (0 <? RequestStats.GenerationTime s) /\
  (RequestStats.present RequestStats.fPostFirstTokenSpeed (writes r) = true ->
   2 <= RequestStats.OutputTokens s) /\
  (1 < RequestStats.OutputTokens s -> 0 < RequestStats.GenerationTime s ->
   RequestStats.PostFirstTokenSpeed s =
     PrimFloat.div (float64_of_int (RequestStats.OutputTokens s - 1))
                   (Seconds (RequestStats.GenerationTime s))) /\
  (RequestStats.present RequestStats.fPostFirstTokenSpeed (writes r) = false ->
   RequestStats.PostFirstTokenSpeed s = 0%float) /\
  (0 < RequestStats.OutputTokens s ->
   RequestStats.GenerationTime s =
     Sub (RequestStats.EndTime s) (RequestStats.FirstTokenTime s)).
Proof.
  destruct net as [e|e|e|resp];
    try (cbn; (split; [|split; [|split; [|split]]]);
         intros; try reflexivity; try discriminate; lia).
  destruct (Z.eq_dec (StatusCode resp) 200) as [Hs|Hs].
  - rewrite (stream_responds _ _ _ _ Hs). cbn [snd].
    apply post_first_token_speed_of_stream.
  - rewrite (stream_rejected _ _ _ _ Hs).
    cbn; (split; [|split; [|split; [|split]]]);
      intros; try reflexivity; try discriminate; lia.
Qed.

End WithLib.

(** C1, at a body whose lines show every kind of line. *)
Lemma C1_witness :
  let r := snd (@stream AsciiLib.lib samples.client []
                  (Responds (mkResponse 200
                     (body_of (samples.mixed ++ [samples.done_line])) io_EOF))
                  samples.ticking) in
  chunks r =
    (map chunkContent (@deltas AsciiLib.lib (map raw samples.mixed))
       ++ [chunkDone])%list /\
  filter is_content (chunks r) =
    map chunkContent (@deltas AsciiLib.lib (map raw samples.mixed)) /\
  RequestStats.OutputTokens (stats r) =
    Z.of_nat (List.length (filter is_content (chunks r))).
Proof.
  apply (@C1_one_content_chunk_per_text_delta AsciiLib.lib).
  repeat split; vm_compute; reflexivity.
Defined.

Example C1_sample_deltas :
  @deltas AsciiLib.lib (map raw samples.mixed) = ["Hi"; "Hi"].
Proof. vm_compute. reflexivity. Qed.

(** C4, at a body whose first text delta comes after a blank line and
    a line without the data marker. *)
Lemma C4_witness :
  let resp :=
    mkResponse 200
      (body_of [""; ": keep-alive"; samples.hi; samples.hi;
                samples.done_line]) io_EOF in
  let r := snd (@stream AsciiLib.lib samples.client [] (Responds resp)
                  samples.ticking) in
  RequestStats.StartTime (stats r) = start_time samples.ticking /\
  RequestStats.FirstTokenTime (stats r) = first_token_time samples.ticking /\
  RequestStats.TimeToFirstToken (stats r) =
    Sub (first_token_time samples.ticking) (start_time samples.ticking) /\
  exists later,
    trace r =
      ([Assign (RequestStats.wHTTPStatus 200);
        Assign (RequestStats.wFirstTokenTime
                  (first_token_time samples.ticking));
        Assign (RequestStats.wTimeToFirstToken
                  (Sub (first_token_time samples.ticking)
                       (start_time samples.ticking)));
        Send (chunkContent "Hi")] ++ later)%list.
Proof.
  intros resp r.
  refine (proj2 (proj2 (proj2 (proj2 (proj2 (proj2
            (@C4_time_to_first_token AsciiLib.lib samples.client []
               (Responds resp) samples.ticking))))))
            resp [raw ""; raw ": keep-alive"] (raw samples.hi) "Hi"
            [raw samples.hi] eq_refl eq_refl _ _ _).
  - vm_compute. reflexivity.
  - intros x [Q|[Q|[]]]; subst x; vm_compute; reflexivity.
  - vm_compute. reflexivity.
Defined.

(** The scenario of the specification: one text delta [Hi], then the
    sentinel. *)
Example one_delta_then_done :
  let r := snd (@stream AsciiLib.lib samples.client []
                  (samples.ok (body_of [samples.hi; samples.done_line]) io_EOF)
                  samples.ticking) in
  chunks r = [chunkContent "Hi"; chunkDone] /\
  RequestStats.OutputTokens (stats r) = 1 /\
  RequestStats.present RequestStats.fPostFirstTokenSpeed (writes r) = false /\
  RequestStats.present RequestStats.fTimeToFirstToken (writes r) = true /\
  chanClosed r = true /\ bodyClosed r = true.
Proof. vm_compute. repeat split; reflexivity. Qed.

(** C2 as stated fails: after a failed read the [Error] chunk is
    followed by a [Done] chunk. *)
Lemma C2_counterexample :
  chunks samples.broken =
    [chunkContent "Hi";
     chunkError "stream read error: connection reset";
     chunkDone] /\
  terminal_is_last (chunks samples.broken) = false.
Proof. split; vm_compute; reflexivity. Qed.

(** C2 (as amended), at a stream whose transport fails after one text
    delta. *)
Lemma C2_witness :
  done_is_last (chunks samples.broken) = true /\
  (exists before,
      chunks samples.broken = (before ++ [chunkDone])%list /\
      forallb (fun k => negb (is_done k)) before = true).
Proof.
  pose proof (@C2_done_is_terminal_error_is_followed_by_done AsciiLib.lib
                samples.client []
                (mkResponse 200 (body_of [samples.hi])
                            (io_failure "connection reset"))
                samples.ticking eq_refl) as P.
  exact (conj (proj1 P) (proj1 (proj2 P))).
Defined.

(** C5 as stated fails: two tokens read at one clock reading leave
    [PostFirstTokenSpeed] absent, the generation time being zero. *)
Lemma C5_counterexample :
  RequestStats.OutputTokens (stats samples.burst) = 2 /\
  RequestStats.GenerationTime (stats samples.burst) = 0 /\
  RequestStats.present RequestStats.fPostFirstTokenSpeed
                       (writes samples.burst) = false /\
  ~ speed_as_specified samples.burst.
Proof.
  split; [vm_compute; reflexivity|].
  split; [vm_compute; reflexivity|].
  split; [vm_compute; reflexivity|].
  intros [_ P]. destruct P as [P _]; [vm_compute; reflexivity|].
  vm_compute in P. discriminate.
Qed.
End stream_claims.

(* ================================================================== *)
(** * Properties of the commands and of the controller                  *)
(* ================================================================== *)

Module chat_claims.

Import ui chat.

Lemma append_cancel (a b c : string) : (a ++ b = a ++ c)%string -> b = c.
Proof.
  induction a as [|x a IH]; cbn; intros E; [exact E|].
  inversion E. auto.
Qed.

(** The errors of the failures differ from one another. *)
Lemma failure_text_distinct (cmd : Command.t) (f f' : failure) :
  f' <> f -> failure_text f' cmd <> failure_text f cmd.
Proof.
  intros D E. apply D. clear D.
  destruct f, f'; try reflexivity; exfalso; cbn in E;
    try discriminate;
    repeat (match type of E with
            | String _ _ = String _ _ => injection E as E
            end);
    apply append_cancel in E; discriminate.
Qed.

Section WithLib.
Context `{GoLib}.

Lemma two_or_more {A} (a b : A) (rest : list A) :
  (slice_len (a :: b :: rest) <? 1) = false /\
  (1 <? slice_len (a :: b :: rest)) = true.
Proof.
  unfold slice_len. cbn [List.length].
  split; [apply Z.ltb_ge | apply Z.ltb_lt]; lia.
Qed.

(** A number that is not a NaN is in [0,2] exactly when it is
    neither below 0 nor above 2. *)
Lemma in_range_or_rejected (t : float) :
  PrimFloat.is_nan t = false ->
  PrimFloat.leb 0 t = negb (PrimFloat.ltb t 0) /\
  PrimFloat.leb t 2 = negb (PrimFloat.ltb 2 t).
Proof.
  unfold PrimFloat.is_nan. intros N. apply negb_false_iff in N.
  rewrite FloatAxioms.eqb_spec in N.
  rewrite !FloatAxioms.leb_spec, !FloatAxioms.ltb_spec.
  change (FloatOps.Prim2SF 0) with (SpecFloat.S754_zero false).
  assert (E2 : exists m e,
             FloatOps.Prim2SF 2 = SpecFloat.S754_finite false m e).
  { eexists _, _. vm_compute. reflexivity. }
  destruct E2 as (m2 & e2 & E2). rewrite E2. clear E2.
  destruct (FloatOps.Prim2SF t) as [sg|sg| |sg mt ex];
    try discriminate N.
  - destruct sg; split; reflexivity.
  - destruct sg; split; reflexivity.
  - unfold SpecFloat.SFleb, SpecFloat.SFltb, SpecFloat.SFcompare.
    destruct sg; split; try reflexivity.
    rewrite (Z.compare_antisym ex e2).
    destruct (ex ?= e2)%Z; cbn [CompOpp]; try reflexivity.
    change (PosDef.Pos.compare_cont Eq mt m2) with (Pos.compare mt m2).
    change (PosDef.Pos.compare_cont Eq m2 mt) with (Pos.compare m2 mt).
    rewrite (Pos.compare_antisym mt m2).
    destruct (mt ?= m2)%positive; reflexivity.
Qed.

(** Where the code rejects as the specification asks.  When the
    arguments of a command fail validation and the argument does not
    parse to a NaN (too few or too many arguments, an argument that
    is not a number, a temperature below 0 or above 2),
    [handleCommand] only records
    the error of that failure: the client with its temperature, the
    message history and every other field of the model are
    unchanged, and no command is started.  Different failures give
    different errors. *)
Lemma failed_validation_changes_nothing_but_for_nan
    (m : ChatModel) (input_text : string) (cmd : Command.t)
    (f : failure) :
  commands.ParseCommand input_text = Ok cmd ->
  validation cmd = Some f ->
  (forall a t, Command.Args cmd = [a] -> ParseFloat a = Some t ->
               PrimFloat.is_nan t = false) ->
  handleCommand m input_text =
    (set_err m (Some (failure_text f cmd)), CmdNil) /\
  client (fst (handleCommand m input_text)) = client m /\
  llm.GetTemperature (client (fst (handleCommand m input_text))) =
    llm.GetTemperature (client m) /\
  messages (fst (handleCommand m input_text)) = messages m /\
  config (fst (handleCommand m input_text)) = config m /\
  (forall f', f' <> f -> failure_text f' cmd <> failure_text f cmd).
Proof.
  intros HP HV HN.
  assert (E : handleCommand m input_text =
              (set_err m (Some (failure_text f cmd)), CmdNil)).
  { unfold handleCommand. rewrite HP. unfold validation in HV.
    destruct cmd as [name args]. cbn [Command.Name Command.Args] in *.
    destruct (String.eqb name "temp") eqn:Et.
    - apply String.eqb_eq in Et. subst name.
      cbn [String.eqb Ascii.eqb Bool.eqb orb andb].
      unfold commands.ValidateArgs, commands.GetFloatArg.
      cbn [Command.Name Command.Args].
      destruct args as [|a [|b rest]].
      + inversion HV; subst. reflexivity.
      + cbn [slice_len List.length Z.of_nat Z.ltb Z.leb Z.compare
             Pos.compare Pos.compare_cont Pos.of_succ_nat andb
             commands.at_index Z.to_nat nth_error].
        destruct (ParseFloat a) as [temp|] eqn:PF.
        * destruct (in_range_or_rejected temp (HN a temp eq_refl PF))
            as [R0 R2].
          rewrite R0, R2 in HV.
          destruct (PrimFloat.ltb temp 0); destruct (PrimFloat.ltb 2 temp);
            cbn [negb andb orb] in *;
            inversion HV; subst; reflexivity.
        * inversion HV; subst. reflexivity.
      + destruct (two_or_more a b rest) as [L1 L2].
        rewrite L1, L2. inversion HV; subst. reflexivity.
    - destruct (String.eqb name "system") eqn:Es; [|discriminate].
      apply String.eqb_eq in Es. subst name.
      cbn [String.eqb Ascii.eqb Bool.eqb orb andb].
      unfold commands.ValidateArgs.
      cbn [Command.Name Command.Args].
      destruct args as [|a rest]; [|discriminate].
      inversion HV; subst. reflexivity. }
  rewrite E. cbn [fst].
  repeat split; try reflexivity.
  intros f'. apply failure_text_distinct.
Qed.

Lemma after_switch_model m text :
  messages (fst (after_switch m text)) = messages m /\
  err (fst (after_switch m text)) = err m /\
  client (fst (after_switch m text)) = client m.
Proof. repeat split; reflexivity. Qed.

Lemma drop_last_app {A} (before tail : list A) :
  drop_last (List.length tail) (before ++ tail) = before.
Proof.
  unfold drop_last. rewrite length_app.
  replace (List.length before + List.length tail - List.length tail)%nat
    with (List.length before + 0)%nat by lia.
  rewrite firstn_app_2. cbn. apply app_nil_r.
Qed.

Lemma user_is_not_assistant u :
  role_is "user" u = true -> role_is "assistant" u = false.
Proof.
  unfold role_is. intros E. apply String.eqb_eq in E. rewrite E.
  reflexivity.
Qed.

Lemma system_is_not_assistant u :
  role_is "system" u = true -> role_is "assistant" u = false.
Proof.
  unfold role_is. intros E. apply String.eqb_eq in E. rewrite E.
  reflexivity.
Qed.

(** [/delete] as [handleCommand] runs it. *)
Lemma handleCommand_delete m text cmd :
  commands.ParseCommand text = Ok cmd ->
  Command.Name cmd = "delete" ->
  handleCommand m text = after_switch (delete_case m) text.
Proof.
  intros HP HN. unfold handleCommand. rewrite HP, HN. reflexivity.
Qed.

(** Where the code deletes as the specification asks.  [/delete]
    removes the last assistant message together with the user
    message before it; it
    removes a last user message alone when other messages precede
    it; and it fails with the error of nothing to delete, leaving
    the history as it is, when the history is empty or holds the
    system message only. *)
Lemma delete_on_the_histories_of_a_turn
    (m : ChatModel) (text : string) (cmd : Command.t) :
  commands.ParseCommand text = Ok cmd ->
  Command.Name cmd = "delete" ->
  let m' := fst (handleCommand m text) in
  (forall before u a,
      messages m = (before ++ [u; a])%list ->
      role_is "user" u = true -> role_is "assistant" a = true ->
      messages m' = before /\ err m' = None) /\
  (forall before u,
      messages m = (before ++ [u])%list -> before <> [] ->
      role_is "user" u = true ->
      messages m' = before /\ err m' = None) /\
  (messages m = [] \/
   (exists s, messages m = [s] /\ role_is "system" s = true) ->
   messages m' = messages m /\ err m' = Some NothingToDelete).
Proof.
  intros HP HN m'. subst m'.
  rewrite (handleCommand_delete _ _ _ HP HN).
  destruct (after_switch_model (delete_case m) text) as (Em & Ee & _).
  rewrite Em, Ee. clear Em Ee.
  unfold delete_case.
  split; [|split].
  - intros before u a E Hu Ha. rewrite E.
    assert (L : (2 <=? slice_len (before ++ [u; a])) = true).
    { apply Z.leb_le. unfold slice_len. rewrite length_app. cbn. lia. }
    assert (T : last (before ++ [u; a]) (Message.mk "" "") = a).
    { change [u; a] with ([u] ++ [a])%list.
      rewrite app_assoc. apply last_last. }
    rewrite L, T, Ha.
    cbn [messages set_messages set_err err].
    split; [|reflexivity].
    apply (drop_last_app before [u; a]).
  - intros before u E Hb Hu. rewrite E.
    assert (L : (2 <=? slice_len (before ++ [u])) = true).
    { apply Z.leb_le. unfold slice_len. rewrite length_app.
      destruct before; [congruence|]. cbn. lia. }
    rewrite L, last_last, (user_is_not_assistant _ Hu).
    cbn [messages set_messages set_err err].
    split; [|reflexivity].
    apply (drop_last_app before [u]).
  - intros [E|(s & E & Hs)]; rewrite E;
      cbn [slice_len List.length Z.of_nat Pos.of_succ_nat Z.leb
           Z.compare Pos.compare Pos.compare_cont];
      cbn [messages set_err err]; rewrite E; split; reflexivity.
Qed.








Lemma step_return env w cmd rest :
  runtime.halted w = false ->
  runtime.running w = cmd :: rest ->
  runtime.step env w (runtime.Return 0) =
  match runtime.perform env
          (runtime.mkWorld (runtime.model w) rest (runtime.streams w)
                           (runtime.requests w) (runtime.halted w)) cmd
  with
  | (None, w') => w'
  | (Some msg, w') => runtime.dispatch w' msg
  end.
Proof.
  intros Hh Hr. unfold runtime.step. rewrite Hh, Hr. reflexivity.
Qed.

Lemma nth_error_replace {A} (xs : list A) : forall n x y,
  nth_error xs n = Some x ->
  nth_error (runtime.replace_nth n y xs) n = Some y.
Proof.
  induction xs as [|a xs IH]; intros [|n] x y E; cbn in *;
    try discriminate; eauto.
Qed.

Lemma append_nil_r (a : string) : (a ++ "")%string = a.
Proof. induction a as [|x a IH]; cbn; [|rewrite IH]; reflexivity. Qed.

Lemma run_cons env w e es :
  runtime.run env w (e :: es) = runtime.run env (runtime.step env w e) es.
Proof. reflexivity. Qed.

Lemma run_nil env w : runtime.run env w [] = w.
Proof. reflexivity. Qed.

(** The chunks of a stream are received one by one until [Done]
    commits the buffer. *)
Lemma consume env : forall ts w id fin,
  runtime.halted w = false ->
  runtime.running w = [CmdWaitForChunk id] ->
  nth_error (runtime.streams w) id =
    Some (runtime.mkStream
            (map llm.chunkContent ts ++ [llm.chunkDone]) fin) ->
  streamChan (runtime.model w) = Some id ->
  let w' := runtime.run env w
              (repeat (runtime.Return 0) (S (List.length ts))) in
  let content := (streamContent (runtime.model w) ++ reply ts)%string in
  messages (runtime.model w') =
    (if String.eqb content "" then messages (runtime.model w)
     else append (messages (runtime.model w))
                 (Message.mk "assistant" content)) /\
  streaming (runtime.model w') = false /\
  streamChan (runtime.model w') = None /\
  runtime.running w' = [] /\
  runtime.halted w' = false.
Proof.
  induction ts as [|t ts IH]; intros w id fin Hh Hr Hs Hc w' content;
    subst w' content.
  - change (repeat (runtime.Return 0) (S (List.length (@nil string))))
      with [runtime.Return 0].
    rewrite run_cons, run_nil.
    rewrite (step_return _ _ _ _ Hh Hr).
    cbn [runtime.perform runtime.streams runtime.model].
    rewrite Hs. cbn [runtime.queue map app runtime.final].
    unfold runtime.dispatch.
    cbn [runtime.model Update stream_chunk llm.chunkDone
         StreamChunk.Error StreamChunk.Done].
    cbn [reply]. rewrite append_nil_r.
    cbn -[String.eqb].
    destruct (String.eqb (streamContent (runtime.model w)) "");
      cbn; rewrite Hh; auto.
  - change (repeat (runtime.Return 0) (S (List.length (t :: ts))))
      with (runtime.Return 0 ::
            repeat (runtime.Return 0) (S (List.length ts))).
    rewrite run_cons.
    rewrite (step_return _ _ _ _ Hh Hr).
    cbn [runtime.perform runtime.streams runtime.model].
    rewrite Hs. cbn [runtime.queue map app runtime.final].
    unfold runtime.dispatch.
    cbn [runtime.model Update stream_chunk llm.chunkContent
         StreamChunk.Error StreamChunk.Done StreamChunk.Content].
    unfold waitForChunk. cbn [streamChan set_streamContent].
    rewrite Hc.
    cbn [runtime.start app runtime.running runtime.streams
         runtime.requests runtime.halted].
    match goal with
    | |- context [runtime.run env ?w1 _] => specialize (IH w1 id fin)
    end.
    cbn [runtime.halted runtime.running runtime.streams runtime.model
         streamChan set_streamContent streamContent messages] in IH.
    specialize (IH Hh eq_refl (nth_error_replace _ _ _ _ Hs) Hc).
    cbn [reply]. rewrite <- sse_facts.append_assoc. exact IH.
Qed.

Lemma payload_nonempty l t : sse.payload l = Some t -> t <> "".
Proof.
  unfold sse.payload.
  destruct (String.eqb (TrimSpace l) ""); [discriminate|].
  destruct (negb _); [discriminate|].
  destruct (Unmarshal _) as [d|]; [|discriminate].
  destruct (StreamResp.Choices d) as [|c0 cs]; [discriminate|].
  destruct (String.eqb _ "") eqn:E; [discriminate|].
  intros P. inversion P; subst. intros Z. rewrite Z in E. discriminate.
Qed.

Lemma deltas_nonempty ls t : In t (sse.deltas ls) -> t <> "".
Proof.
  induction ls as [|l ls IH]; cbn; [tauto|].
  destruct (sse.payload l) as [u|] eqn:P; [|exact IH].
  intros [E|I]; [subst; exact (payload_nonempty _ _ P)|auto].
Qed.

Lemma reply_nonempty t ts : t <> "" -> String.eqb (reply (t :: ts)) "" = false.
Proof.
  intros N. destruct t as [|c t]; [congruence|reflexivity].
Qed.

(** Enter on a text that is not a command, in a model that is not
    streaming. *)
Lemma update_enter_text m text :
  streaming m = false ->
  TrimSpace (components.Value (input m)) = text ->
  text <> "" ->
  commands.IsCommand text = false ->
  exists m1,
    Update m (Lib (tea.Key enter)) =
      Continue m1 (CmdStreamResponse (client m)
                     (append (messages m) (Message.mk "user" text))) /\
    messages m1 = append (messages m) (Message.mk "user" text) /\
    streaming m1 = true /\
    streamContent m1 = "".
Proof.
  intros Hs Ht Hn Hc.
  cbn [Update]. unfold key_msg. rewrite Hs.
  cbn [enter tea.Type_]. unfold key_enter. rewrite Ht.
  apply String.eqb_neq in Hn. rewrite Hn, Hc. cbn [andb].
  rewrite Hc. eexists. split; [reflexivity|]. repeat split; reflexivity.
Qed.

(** C9 (as amended). From a state that is not streaming, in which
    the trimmed input is a non-empty text that is not a command:
    pressing Enter and receiving a stream that ends with [Done]
    appends the user message and, when the stream carried at least
    one fragment, one assistant message whose content is the
    fragments in the order received; nothing else in the history
    changes, whatever the number of fragments.  A stream without
    fragments appends the user message only. *)
Theorem C9_user_message_then_committed_reply
    (env : runtime.Env) (w : runtime.World) (text : string)
    (resp : llm.Response) :
  runtime.halted w = false ->
  runtime.running w = [] ->
  streaming (runtime.model w) = false ->
  TrimSpace (components.Value (input (runtime.model w))) = text ->
  text <> "" ->
  commands.IsCommand text = false ->
  runtime.network env (runtime.requests w) = llm.Responds resp ->
  llm.StatusCode resp = 200 ->
  sse.closing (sse.ending_of resp) = [llm.chunkDone] ->
  let fragments := sse.texts_of resp in
  let w' := runtime.run env w
              (runtime.Deliver (tea.Key enter)
                 :: streamed (List.length fragments)) in
  messages (runtime.model w') =
    (messages (runtime.model w) ++
     Message.mk "user" text ::
     match fragments with
     | [] => []
     | _ :: _ => [Message.mk "assistant" (reply fragments)]
     end)%list /\
  streaming (runtime.model w') = false /\
  runtime.running w' = [].
Proof.
  intros Hh Hr Hs Ht Hn Hc Hnet Hst Hend fragments w'.
  subst w'. rewrite run_cons.
  destruct (update_enter_text _ _ Hs Ht Hn Hc) as (m1 & U & M1 & S1 & C1).
  assert (W1 : runtime.step env w (runtime.Deliver (tea.Key enter)) =
               runtime.mkWorld m1
                 [CmdStreamResponse (client (runtime.model w))
                    (append (messages (runtime.model w))
                            (Message.mk "user" text))]
                 (runtime.streams w) (runtime.requests w) false).
  { unfold runtime.step, runtime.dispatch. rewrite Hh, U, Hr.
    reflexivity. }
  rewrite W1. clear W1 U.
  unfold streamed.
  change (repeat (runtime.Return 0) (2 + List.length fragments))
    with (runtime.Return 0 ::
          repeat (runtime.Return 0) (S (List.length fragments))).
  rewrite run_cons.
  erewrite step_return; [|reflexivity|reflexivity].
  cbn [runtime.perform runtime.requests runtime.model runtime.running
       runtime.streams runtime.halted].
  rewrite Hnet, (sse_facts.stream_responds _ _ _ _ Hst).
  unfold runtime.dispatch.
  cbn [runtime.model Update].
  unfold waitForChunk. cbn [streamChan set_streamChan set_streamStats].
  cbn [runtime.start app runtime.running runtime.streams
       runtime.requests runtime.halted].
  rewrite sse_facts.stream_end_chunks, Hend. fold fragments.
  match goal with
  | |- context [runtime.run env ?w2 _] =>
      pose proof (consume env fragments w2 (List.length (runtime.streams w))
                    (llm.stats (sse.stream_end (client (runtime.model w))
                                  resp
                                  (runtime.clocks env (runtime.requests w)))))
        as P
  end.
  cbn [runtime.halted runtime.running runtime.streams runtime.model
       streamChan set_streamChan set_streamStats streamContent messages]
    in P.
  rewrite nth_error_app2, Nat.sub_diag in P by lia.
  specialize (P eq_refl eq_refl eq_refl eq_refl).
  rewrite C1, M1 in P. cbn [String.append] in P.
  destruct P as (PM & PS & _ & PR & _).
  split; [|split; assumption].
  rewrite PM. unfold append.
  pose proof (deltas_nonempty
                (fst (sse.scan (fst (ReadBytes_all "" (llm.Body resp)))
                               (llm.BodyEnd resp)))) as NE.
  fold (sse.texts_of resp) in NE. fold fragments in NE.
  destruct fragments as [|t ts].
  - cbn. reflexivity.
  - rewrite (reply_nonempty t ts (NE t (or_introl eq_refl))).
    rewrite <- app_assoc. reflexivity.
Qed.

(** Ctrl+C while streaming: the step itself leaves the history, the
    buffer and the channel as they are. *)
Lemma cancel_step m :
  streaming m = true ->
  Update m (Lib (tea.Key ctrl_c)) =
    Continue (set_err (set_streaming m false) (Some "streaming cancelled"))
             CmdNil.
Proof.
  intros Hs. cbn [Update]. unfold key_msg. rewrite Hs. reflexivity.
Qed.

(** A [Done] chunk commits a non-empty buffer whether or not the
    model is still streaming. *)
Lemma done_commits_buffer m :
  streamContent m <> "" ->
  exists m',
    Update m (streamChunkMsg llm.chunkDone) = Continue m' CmdNil /\
    messages m' =
      append (messages m) (Message.mk "assistant" (streamContent m)).
Proof.
  intros N. apply String.eqb_neq in N.
  eexists. split; [reflexivity|]. cbn. rewrite N. reflexivity.
Qed.

(** A stream cancelled with Ctrl+C is received to its end all the same:
    the command that waits for the next chunk keeps running, and the
    [Done] chunk commits the buffer. *)
Lemma cancelled_stream_is_received env w id fin ts :
  runtime.halted w = false ->
  runtime.running w = [CmdWaitForChunk id] ->
  nth_error (runtime.streams w) id =
    Some (runtime.mkStream
            (map llm.chunkContent ts ++ [llm.chunkDone]) fin) ->
  streaming (runtime.model w) = true ->
  streamChan (runtime.model w) = Some id ->
  let w' := runtime.run env w
              (runtime.Deliver (tea.Key ctrl_c)
                 :: repeat (runtime.Return 0) (S (List.length ts))) in
  let content := (streamContent (runtime.model w) ++ reply ts)%string in
  messages (runtime.model w') =
    (if String.eqb content "" then messages (runtime.model w)
     else append (messages (runtime.model w))
                 (Message.mk "assistant" content)).
Proof.
  intros Hh Hr Hq Hs Hc w' content. subst w' content.
  rewrite run_cons.
  assert (W : runtime.step env w (runtime.Deliver (tea.Key ctrl_c)) =
              runtime.mkWorld
                (set_err (set_streaming (runtime.model w) false)
                         (Some "streaming cancelled"))
                [CmdWaitForChunk id] (runtime.streams w)
                (runtime.requests w) false).
  { unfold runtime.step, runtime.dispatch.
    rewrite Hh, (cancel_step _ Hs), Hr. reflexivity. }
  rewrite W.
  match goal with
  | |- context [runtime.run env ?w1 _] =>
      pose proof (consume env ts w1 id fin eq_refl eq_refl Hq Hc) as P
  end.
  exact (proj1 P).
Qed.

(** C10. In every state, a [configReloadedMsg] replaces the
    configuration and the client built from it and clears the error;
    the message history, the streaming buffer, the chunk channel,
    the statistics pointer and every other field of the model are
    left as they were, no command is started, and the streams and
    the running commands of the event loop are untouched. *)
Theorem C10_config_reload_keeps_conversation
    (m : ChatModel) (cfg : Config.t) (w : runtime.World) :
  (exists m',
      Update m (configReloadedMsg cfg) = Continue m' CmdNil /\
      config m' = cfg /\
      client m' = llm.NewOpenAIClient (Config.APIKey cfg)
                    (Config.BaseURL cfg) (Config.Model cfg)
                    (Config.Temperature cfg) (Config.MaxTokens cfg) /\
      err m' = None /\
      messages m' = messages m /\
      streamContent m' = streamContent m /\
      streamChan m' = streamChan m /\
      streamStats m' = streamStats m /\
      streaming m' = streaming m /\
      systemPrompt m' = systemPrompt m /\
      input m' = input m /\
      stats m' = stats m) /\
  runtime.streams (runtime.dispatch w (configReloadedMsg cfg)) =
    runtime.streams w /\
  runtime.running (runtime.dispatch w (configReloadedMsg cfg)) =
    runtime.running w /\
  messages (runtime.model (runtime.dispatch w (configReloadedMsg cfg))) =
    messages (runtime.model w).
Proof.
  split.
  - eexists. split; [reflexivity|]. cbn. repeat split; reflexivity.
  - unfold runtime.dispatch. cbn. rewrite app_nil_r. auto.
Qed.

End WithLib.

(** [/delete] at the histories of the claim: [system, user,
    assistant], [system, user] and [system]. *)
Example delete_at_the_histories_of_the_claim :
  let sys := Message.mk "system" "Be brief" in
  let usr := Message.mk "user" "hello" in
  let ast := Message.mk "assistant" "Hi" in
  let run_delete history :=
    fst (@handleCommand AsciiLib.lib
           (set_messages (NewChatModel samples.cfg) history) "/delete") in
  (messages (run_delete [sys; usr; ast]) = [sys] /\
   err (run_delete [sys; usr; ast]) = None) /\
  (messages (run_delete [sys; usr]) = [sys] /\
   err (run_delete [sys; usr]) = None) /\
  (messages (run_delete [sys]) = [sys] /\
   err (run_delete [sys]) = Some NothingToDelete).
Proof.
  intros sys usr ast run_delete.
  pose proof (fun h => @delete_on_the_histories_of_a_turn AsciiLib.lib
                (set_messages (NewChatModel samples.cfg) h) "/delete"
                (Command.mk "delete" []) eq_refl eq_refl) as P.
  split; [|split].
  - exact (proj1 (P [sys; usr; ast]) [sys] usr ast eq_refl eq_refl eq_refl).
  - refine (proj1 (proj2 (P [sys; usr])) [sys] usr eq_refl _ eq_refl).
    discriminate.
  - refine (proj2 (proj2 (P [sys])) _).
    right. exists sys. split; reflexivity.
Qed.

(** C6 (the code departs from the claim).  [/delete] is guarded by a
    history of two messages or more, whatever their roles, and
    removes two messages whenever the last one is an assistant
    message.  Without a system prompt, the user message of a request
    that failed is the only message: [/delete] leaves it and reports
    that there is nothing to delete, while the same command removes
    the user message of the history [system, user].  With a system
    prompt, [/help] leaves the history [system, assistant]:
    [/delete] then removes the system message together with the help
    text, although no user message precedes it; the history is empty
    while the model still holds the prompt, and the next request is
    sent without it. *)
Lemma C6_delete_guard_departs_from_the_last_turn :
  let lone :=
    samples.session samples.offline samples.cfg_no_prompt
      (samples.submit "hello" ++ [samples.next]) in
  let lone_deleted :=
    samples.session samples.offline samples.cfg_no_prompt
      (samples.submit "hello" ++ [samples.next]
         ++ samples.submit "/delete") in
  let prompted :=
    samples.session samples.offline samples.cfg
      (samples.submit "hello" ++ [samples.next]) in
  let prompted_deleted :=
    samples.session samples.offline samples.cfg
      (samples.submit "hello" ++ [samples.next]
         ++ samples.submit "/delete") in
  let helped :=
    samples.session samples.offline samples.cfg (samples.submit "/help") in
  let helped_deleted :=
    samples.session samples.offline samples.cfg
      (samples.submit "/help" ++ samples.submit "/delete") in
  let asked_again :=
    samples.session samples.offline samples.cfg
      (samples.submit "/help" ++ samples.submit "/delete"
         ++ samples.submit "hello") in
  (messages (runtime.model lone) = [Message.mk "user" "hello"] /\
   streaming (runtime.model lone) = false /\
   messages (runtime.model lone_deleted) = [Message.mk "user" "hello"] /\
   err (runtime.model lone_deleted) = Some NothingToDelete) /\
  (messages (runtime.model prompted) =
     [Message.mk "system" "Be brief"; Message.mk "user" "hello"] /\
   messages (runtime.model prompted_deleted) =
     [Message.mk "system" "Be brief"] /\
   err (runtime.model prompted_deleted) = None) /\
  (messages (runtime.model helped) =
     [Message.mk "system" "Be brief";
      Message.mk "assistant" commands.CommandHelp] /\
   messages (runtime.model helped_deleted) = [] /\
   err (runtime.model helped_deleted) = None /\
   systemPrompt (runtime.model helped_deleted) = "Be brief" /\
   messages (runtime.model asked_again) = [Message.mk "user" "hello"] /\
   runtime.running asked_again =
     [CmdStreamResponse (client (runtime.model asked_again))
                        [Message.mk "user" "hello"]]).
Proof. vm_compute. repeat split; reflexivity. Qed.

(** C3 (the code departs from the claim).  A session is cancelled with
    Ctrl+C after two fragments: at that step the history is unchanged
    and the model stops streaming, but the command that waits for the
    next chunk is still running; when the remaining chunks arrive,
    [Update] appends them to the buffer and, at [Done], appends the
    buffer to the history as an assistant message. *)
Lemma C3_cancelled_stream_is_still_committed :
  let two_fragments :=
    (samples.submit "hello"
       ++ [samples.next; samples.next; samples.next])%list in
  let before := samples.session samples.talkative samples.cfg two_fragments in
  let cancelled :=
    samples.session samples.talkative samples.cfg
      (two_fragments ++ [samples.key ctrl_c]) in
  let later :=
    samples.session samples.talkative samples.cfg
      (two_fragments ++ [samples.key ctrl_c; samples.next; samples.next]) in
  (streaming (runtime.model before) = true /\
   streamContent (runtime.model before) = "HiHi") /\
  (messages (runtime.model cancelled) = messages (runtime.model before) /\
   streaming (runtime.model cancelled) = false /\
   err (runtime.model cancelled) = Some "streaming cancelled" /\
   runtime.running cancelled = [CmdWaitForChunk 0%nat]) /\
  messages (runtime.model later) =
    [Message.mk "system" "Be brief"; Message.mk "user" "hello";
     Message.mk "assistant" "HiHiHi"].
Proof. vm_compute. repeat split; reflexivity. Qed.


(** C9 as stated fails: a reply streamed to its end without any
    fragment appends the user message only. *)
Lemma C9_counterexample :
  let w := samples.session samples.silent samples.cfg
             (samples.key (typed "hello")
                :: runtime.Deliver (tea.Key enter) :: streamed 0) in
  messages (runtime.model w) =
    [Message.mk "system" "Be brief"; Message.mk "user" "hello"] /\
  streaming (runtime.model w) = false /\
  runtime.running w = [].
Proof. vm_compute. repeat split; reflexivity. Qed.

(** C9 (as amended), at a reply of three fragments. *)
Lemma C9_witness :
  let w := samples.session samples.talkative samples.cfg
             [samples.key (typed "hello")] in
  let w' := @runtime.run AsciiLib.lib samples.talkative w
              (runtime.Deliver (tea.Key enter) :: streamed 3) in
  messages (runtime.model w') =
    [Message.mk "system" "Be brief"; Message.mk "user" "hello";
     Message.mk "assistant" "HiHiHi"] /\
  streaming (runtime.model w') = false /\
  runtime.running w' = [].
Proof.
  intros w w'.
  assert (N : "hello" <> "") by discriminate.
  exact (@C9_user_message_then_committed_reply AsciiLib.lib
           samples.talkative w "hello"
           (llm.mkResponse 200
              (sse.body_of [samples.hi; samples.hi; samples.hi;
                            samples.done_line]) io_EOF)
           eq_refl eq_refl eq_refl eq_refl N eq_refl eq_refl eq_refl
           eq_refl).
Defined.

(** The scenario of the specification in a session: [/temp 3] is
    typed and entered. *)
Example temp_3_in_a_session :
  let w := samples.session samples.offline samples.cfg
             (samples.submit "/temp 3") in
  llm.GetTemperature (client (runtime.model w)) = 0.5%float /\
  messages (runtime.model w) = [Message.mk "system" "Be brief"] /\
  err (runtime.model w) = Some "temperature must be between 0 and 2".
Proof. vm_compute. repeat split; reflexivity. Qed.

(** [handleCommand] at the input [/temp 3]. *)
Example temp_3_changes_nothing :
  let m := NewChatModel samples.cfg in
  @handleCommand AsciiLib.lib m "/temp 3" =
    (set_err m (Some "temperature must be between 0 and 2"), CmdNil) /\
  llm.GetTemperature (client (fst (@handleCommand AsciiLib.lib m "/temp 3"))) =
    Config.Temperature samples.cfg /\
  messages (fst (@handleCommand AsciiLib.lib m "/temp 3")) =
    [Message.mk "system" "Be brief"].
Proof.
  assert (N : forall a t, [("3")%string] = [a] ->
              @ParseFloat AsciiLib.lib a = Some t ->
              PrimFloat.is_nan t = false).
  { intros a t E P. inversion E; subst a.
    vm_compute in P. inversion P; subst t. reflexivity. }
  pose proof (@failed_validation_changes_nothing_but_for_nan AsciiLib.lib
                (NewChatModel samples.cfg) "/temp 3"
                (Command.mk "temp" ["3"]) OutOfRange
                eq_refl eq_refl N) as P.
  exact (conj (proj1 P)
              (conj (proj1 (proj2 (proj2 P)))
                    (proj1 (proj2 (proj2 (proj2 P)))))).
Qed.

(** C7 (the code departs from the claim).  The range check of
    [/temp] is [temp < 0 || temp > 2].  The argument [NaN] parses to
    a number that is in no range, so it fails validation; both
    comparisons are false for it, so [handleCommand] reports no
    error, makes it the temperature of the client, which was 0.5,
    and appends a notice to the history. *)
Lemma C7_a_nan_temperature_is_accepted :
  let m := NewChatModel samples.cfg in
  let cmd := Command.mk "temp" ["NaN"] in
  let m' := fst (@handleCommand SpecialLib.lib m "/temp NaN") in
  @commands.ParseCommand SpecialLib.lib "/temp NaN" = Ok cmd /\
  @validation SpecialLib.lib cmd = Some OutOfRange /\
  (llm.GetTemperature (client m) = 0.5%float /\
   messages m = [Message.mk "system" "Be brief"]) /\
  err m' = None /\
  PrimFloat.is_nan (llm.GetTemperature (client m')) = true /\
  messages m' =
    [Message.mk "system" "Be brief";
     Message.mk "system" "Temperature set to NaN"].
Proof. vm_compute. repeat split; reflexivity. Qed.
End chat_claims.

(* ================================================================== *)
(** * Further properties of the streaming client                        *)
(* ================================================================== *)

Module stream_extras.

Import llm sse sse_facts wire.

Lemma assigned_assign ws : assigned (map Assign ws) = ws.
Proof. induction ws as [|w ws IH]; cbn; [|rewrite IH]; reflexivity. Qed.

Lemma sent_assign ws : sent (map Assign ws) = [].
Proof. induction ws as [|w ws IH]; cbn; [reflexivity|exact IH]. Qed.

(** A position in a list is fixed by the only element of its kind. *)
Lemma split_at_only {A} (p : A -> bool) (a : list A) :
  forall x b pre y post,
  forallb (fun e => negb (p e)) a = true ->
  forallb (fun e => negb (p e)) b = true ->
  p y = true ->
  (a ++ x :: b)%list = (pre ++ y :: post)%list ->
  pre = a /\ y = x /\ post = b.
Proof.
  induction a as [|a0 a IH]; intros x b pre y post Ha Hb Hy E.
  - destruct pre as [|z pre]; cbn [app] in E.
    + injection E as E1 E2. subst. auto.
    + exfalso. injection E as E1 E2. subst.
      rewrite forallb_app in Hb. apply andb_true_iff in Hb as [_ Hb].
      cbn in Hb. rewrite Hy in Hb. discriminate.
  - cbn [forallb] in Ha. apply andb_true_iff in Ha as [Ha0 Ha].
    destruct pre as [|z pre]; cbn [app] in E.
    + exfalso. injection E as E1 E2. subst. rewrite Hy in Ha0. discriminate.
    + injection E as E1 E2. subst.
      destruct (IH _ _ _ _ _ Ha Hb Hy E2) as (P & Q & R). subst. auto.
Qed.

Lemma no_close_assign ws :
  forallb (fun e => negb (closing_event e)) (map Assign ws) = true.
Proof. induction ws as [|w ws IH]; cbn; [reflexivity|exact IH]. Qed.

Lemma no_close_sends ts :
  forallb (fun e => negb (closing_event e))
          (map (fun t => Send (chunkContent t)) ts) = true.
Proof. induction ts as [|t ts IH]; cbn; [reflexivity|exact IH]. Qed.

Lemma no_close_error e :
  forallb (fun e => negb (closing_event e)) (error_event e) = true.
Proof. destruct e as [|[|x]]; reflexivity. Qed.

Lemma weaken_no_close (p : event -> bool) tr :
  (forall e, p e = true -> closing_event e = true) ->
  forallb (fun e => negb (closing_event e)) tr = true ->
  forallb (fun e => negb (p e)) tr = true.
Proof.
  intros W. induction tr as [|e tr IH]; cbn; [reflexivity|].
  intros F. apply andb_true_iff in F as [Fe F].
  rewrite (IH F), andb_true_r.
  destruct (p e) eqn:P; [|reflexivity].
  rewrite (W _ P) in Fe. discriminate.
Qed.

Lemma count_none (p : event -> bool) tr :
  forallb (fun e => negb (p e)) tr = true -> count p tr = 0%nat.
Proof.
  unfold count. induction tr as [|e tr IH]; cbn; [reflexivity|].
  intros F. apply andb_true_iff in F as [Fe F].
  apply negb_true_iff in Fe. rewrite Fe. exact (IH F).
Qed.

Lemma count_app (p : event -> bool) a b :
  count p (a ++ b) = (count p a + count p b)%nat.
Proof. unfold count. rewrite filter_app, length_app. reflexivity. Qed.

Lemma Sub_anti t u u' : u <= u' -> Sub t u' <= Sub t u.
Proof.
  intros L. unfold Sub, minDuration, maxDuration.
  destruct (Z.ltb_spec (t - u) (- 2 ^ 63));
    destruct (Z.ltb_spec (2 ^ 63 - 1) (t - u));
    destruct (Z.ltb_spec (t - u') (- 2 ^ 63));
    destruct (Z.ltb_spec (2 ^ 63 - 1) (t - u')); lia.
Qed.

Lemma Sub_triangle t0 t1 t2 :
  t0 <= t1 -> t1 <= t2 ->
  Sub t2 t0 <= Sub t1 t0 + Sub t2 t1 /\
  (t2 - t0 <= maxDuration -> Sub t2 t0 = Sub t1 t0 + Sub t2 t1).
Proof.
  intros L1 L2. unfold Sub, minDuration, maxDuration.
  destruct (Z.ltb_spec (t2 - t0) (- 2 ^ 63));
    destruct (Z.ltb_spec (2 ^ 63 - 1) (t2 - t0));
    destruct (Z.ltb_spec (t1 - t0) (- 2 ^ 63));
    destruct (Z.ltb_spec (2 ^ 63 - 1) (t1 - t0));
    destruct (Z.ltb_spec (t2 - t1) (- 2 ^ 63));
    destruct (Z.ltb_spec (2 ^ 63 - 1) (t2 - t1)); lia.
Qed.

(** [ReadBytes] over a body in two parts: the second part continues
    the line the first part left unfinished. *)
Lemma ReadBytes_app b1 : forall cur b2,
  ReadBytes_all cur (b1 ++ b2) =
  (fst (ReadBytes_all cur b1) ++
     fst (ReadBytes_all (snd (ReadBytes_all cur b1)) b2),
   snd (ReadBytes_all (snd (ReadBytes_all cur b1)) b2))%list.
Proof.
  induction b1 as [|x b1 IH]; intros cur b2.
  - cbn. destruct (ReadBytes_all cur b2); reflexivity.
  - cbn [String.append ReadBytes_all].
    destruct (Ascii.eqb x newline).
    + rewrite IH.
      destruct (ReadBytes_all "" b1) as [ls tl]. reflexivity.
    + apply IH.
Qed.

Lemma ReadBytes_partial p : forall cur,
  no_newline p = true -> ReadBytes_all cur p = ([], cur ++ p).
Proof.
  induction p as [|x p IH]; intros cur Hn.
  - cbn. rewrite chat_claims.append_nil_r. reflexivity.
  - cbn [no_newline] in Hn. apply andb_true_iff in Hn as [Hx Hn].
    apply negb_true_iff in Hx.
    cbn [ReadBytes_all]. rewrite Hx, (IH _ Hn), append_assoc. reflexivity.
Qed.

Section WithLib.
Context `{GoLib}.

(** Every exchange is a failed call, a rejected response or a stream. *)
Lemma stream_cases c msgs net clk :
  (exists e, fst (stream c msgs net clk) = StreamErr e /\
             responded net = false /\
             snd (stream c msgs net clk) = new_run c clk) \/
  (exists resp, net = Responds resp /\ StatusCode resp <> 200 /\
     stream c msgs net clk =
       (StreamErr ("API error (status " ++ itoa (StatusCode resp) ++ "): "
                     ++ Body resp),
        record CloseBody (handed_over c (StatusCode resp) clk))) \/
  (exists resp, net = Responds resp /\ StatusCode resp = 200 /\
     stream c msgs net clk = (StreamOk, stream_end c resp clk)).
Proof.
  destruct net as [e|e|e|resp].
  - left. eexists. repeat split.
  - left. eexists. repeat split.
  - left. eexists. repeat split.
  - destruct (Z.eq_dec (StatusCode resp) 200) as [Hs|Hs].
    + right. right. exists resp. repeat split; [exact Hs|].
      apply stream_responds. exact Hs.
    + right. left. exists resp. repeat split; [exact Hs|].
      apply stream_claims.stream_rejected. exact Hs.
Qed.

Lemma stream_end_until_close c resp clk :
  trace (stream_end c resp clk) =
  (until_close c resp clk ++ [CloseChunks; CloseBody])%list.
Proof.
  rewrite stream_end_trace. unfold until_close.
  repeat rewrite <- app_assoc. reflexivity.
Qed.

Lemma until_close_no_close c resp clk :
  forallb (fun e => negb (closing_event e)) (until_close c resp clk) = true.
Proof.
  unfold until_close.
  rewrite !forallb_app, !no_close_assign, no_close_sends, no_close_error.
  reflexivity.
Qed.

Lemma until_close_sent c resp clk :
  sent (until_close c resp clk) = chunks (stream_end c resp clk).
Proof.
  unfold chunks. rewrite stream_end_until_close, sent_app.
  cbn [sent]. rewrite app_nil_r. reflexivity.
Qed.

(** X1. A call of [ChatStream] returns a channel exactly when the
    server answers with status 200.  In every other case no chunk is
    sent and no channel is closed, the response body, if there is
    one, is closed, the only field assigned is the HTTP status of a
    response that arrived, and the error names the step that failed:
    marshalling, building the request, sending it, or the status
    together with the body of the response. *)
Theorem failed_request_opens_no_stream
    (c : OpenAIClient) (msgs : list Message.t) (net : Exchange)
    (clk : Clock) :
  let res := fst (stream c msgs net clk) in
  let r := snd (stream c msgs net clk) in
  (opened res = true <->
   exists resp, net = Responds resp /\ StatusCode resp = 200) /\
  (opened res = false ->
   chunks r = [] /\ chanClosed r = false /\
   bodyClosed r = responded net /\
   writes r = (if responded net
               then [RequestStats.wHTTPStatus (status_of net)] else [])) /\
  (forall e, net = MarshalFails e ->
             res = StreamErr ("failed to marshal request: " ++ e)) /\
  (forall e, net = NewRequestFails e ->
             res = StreamErr ("failed to create request: " ++ e)) /\
  (forall e, net = DoFails e ->
             res = StreamErr ("failed to send request: " ++ e)) /\
  (forall resp, net = Responds resp -> StatusCode resp <> 200 ->
     res = StreamErr ("API error (status " ++ itoa (StatusCode resp)
                        ++ "): " ++ Body resp)).
Proof.
  intros res r. subst res r.
  split; [|split; [|split; [|split; [|split]]]].
  - destruct (stream_cases c msgs net clk)
      as [(e & E & R & _)|[(resp & N & S & E)|(resp & N & S & E)]];
      rewrite E; cbn [fst opened].
    + split; [discriminate|]. intros (resp & N & _). subst net. discriminate.
    + split; [discriminate|]. intros (resp' & N' & S'). subst net.
      inversion N'; subst. contradiction.
    + split; [|reflexivity]. intros _. exists resp. auto.
  - destruct (stream_cases c msgs net clk)
      as [(e & E & R & T)|[(resp & N & S & E)|(resp & N & S & E)]].
    + intros _. rewrite T, R. cbn. auto.
    + intros _. rewrite E, N. cbn. auto.
    + rewrite E. discriminate.
  - intros e N. subst net. reflexivity.
  - intros e N. subst net. reflexivity.
  - intros e N. subst net. reflexivity.
  - intros resp N S. subst net.
    rewrite (stream_claims.stream_rejected _ _ _ _ S). reflexivity.
Qed.

(** With a consumer that keeps receiving, the response body is closed
    exactly once when a response arrived and never otherwise, and
    the channel is closed exactly once when [ChatStream] returned it
    and never otherwise.  Nothing is sent on the channel after it
    was closed, and closing the body is the last thing a stream
    does. *)
Lemma closes_of_a_stream_read_to_its_end
    (c : OpenAIClient) (msgs : list Message.t) (net : Exchange)
    (clk : Clock) :
  let res := fst (stream c msgs net clk) in
  let r := snd (stream c msgs net clk) in
  count is_close_body (trace r) = (if responded net then 1 else 0)%nat /\
  count is_close_chunks (trace r) = (if opened res then 1 else 0)%nat /\
  (forall pre post,
      trace r = (pre ++ CloseChunks :: post)%list ->
      sent pre = chunks r /\ sent post = []) /\
  (forall pre post,
      trace r = (pre ++ CloseBody :: post)%list -> post = []).
Proof.
  intros res r. subst res r.
  destruct (stream_cases c msgs net clk)
    as [(e & E & R & T)|[(resp & N & S & E)|(resp & N & S & E)]].
  - rewrite T, E, R. cbn [fst opened trace new_run].
    assert (Tr : trace (new_run c clk) = []) by reflexivity.
    rewrite Tr. split; [reflexivity|]. split; [reflexivity|].
    split; intros pre post Q; destruct pre; discriminate.
  - rewrite E, N. cbn [fst snd opened responded].
    assert (Tr : trace (record CloseBody
                          (handed_over c (StatusCode resp) clk)) =
                 [Assign (RequestStats.wHTTPStatus (StatusCode resp));
                  CloseBody]) by reflexivity.
    rewrite Tr. split; [reflexivity|]. split; [reflexivity|]. split.
    + intros pre post Q.
      destruct pre as [|a [|b [|d pre]]]; inversion Q.
    + intros pre post Q.
      destruct pre as [|a [|b [|d pre]]]; inversion Q; reflexivity.
  - rewrite E, N. cbn [fst snd opened responded].
    rewrite stream_end_until_close.
    pose proof (until_close_no_close c resp clk) as NC.
    split; [|split; [|split]].
    + rewrite count_app, count_none; [reflexivity|].
      apply (weaken_no_close is_close_body _); [|exact NC].
      intros e Q. unfold closing_event. rewrite Q. apply orb_true_r.
    + rewrite count_app, count_none; [reflexivity|].
      apply (weaken_no_close is_close_chunks _); [|exact NC].
      intros e Q. unfold closing_event. rewrite Q. reflexivity.
    + intros pre post Q.
      apply (split_at_only is_close_chunks) in Q; try reflexivity.
      * destruct Q as (P & _ & B). subst pre post.
        split; [|reflexivity].
        rewrite until_close_sent. unfold chunks.
        rewrite stream_end_until_close. reflexivity.
      * apply (weaken_no_close is_close_chunks _); [|exact NC].
        intros e Q'. unfold closing_event. rewrite Q'. reflexivity.
    + intros pre post Q.
      change (until_close c resp clk ++ [CloseChunks; CloseBody])%list
        with (until_close c resp clk ++ [CloseChunks] ++ [CloseBody])%list
        in Q.
      rewrite app_assoc in Q.
      apply (split_at_only is_close_body) in Q; try reflexivity.
      * destruct Q as (_ & _ & B). exact B.
      * rewrite forallb_app. apply andb_true_iff. split; [|reflexivity].
        apply (weaken_no_close is_close_body _); [|exact NC].
        intros e Q'. unfold closing_event. rewrite Q'. apply orb_true_r.
Qed.

Lemma unblocked_all tr : forall room,
  (List.length (sent tr) <= room)%nat -> unblocked room tr = tr.
Proof.
  induction tr as [|e tr IH]; intros room L; [reflexivity|].
  destruct e as [w|ch| |]; cbn [unblocked sent List.length] in *;
    try (rewrite IH by exact L; reflexivity).
  destruct room as [|room]; [lia|].
  rewrite IH by lia. reflexivity.
Qed.

Lemma unblocked_sent tr : forall room,
  sent (unblocked room tr) = firstn room (sent tr).
Proof.
  induction tr as [|e tr IH]; intros room;
    [destruct room; reflexivity|].
  destruct e as [w|ch| |]; cbn [unblocked sent]; try apply IH.
  destruct room as [|room]; [reflexivity|].
  cbn [sent firstn]. rewrite IH. reflexivity.
Qed.

(** A run that blocks in a send does nothing of what follows. *)
Lemma unblocked_app a b : forall room,
  (room < List.length (sent a))%nat ->
  unblocked room (a ++ b) = unblocked room a.
Proof.
  induction a as [|e a IH]; intros room L; [cbn in L; lia|].
  destruct e as [w|ch| |]; cbn [unblocked sent List.length app] in *;
    try (rewrite IH by exact L; reflexivity).
  destruct room as [|room]; [reflexivity|].
  rewrite IH by lia. reflexivity.
Qed.

Lemma unblocked_keeps (p : event -> bool) tr : forall room,
  forallb p tr = true -> forallb p (unblocked room tr) = true.
Proof.
  induction tr as [|e tr IH]; intros room F; [reflexivity|].
  cbn [forallb] in F. apply andb_true_iff in F. destruct F as [Fe F].
  destruct e as [w|ch| |]; cbn [unblocked forallb];
    try (rewrite Fe, (IH room F); reflexivity).
  destruct room as [|room]; [reflexivity|].
  cbn [forallb]. rewrite Fe, (IH room F). reflexivity.
Qed.

(** X2. What is closed depends on the consumer.  The channel holds
    ten chunks.  When the consumer receives all chunks of a stream
    but ten at most, no send blocks: the response body is closed
    exactly once when a response arrived and never otherwise, and
    the channel is closed exactly once when [ChatStream] returned it
    and never otherwise.  When the consumer stops receiving with
    more than ten chunks to come, the goroutine blocks in a send for
    ever: neither the channel nor the body of the response is ever
    closed, and the chunks sent are the received ones and ten more.
    In every case nothing is sent after the channel was closed, and
    closing the body is the last thing done. *)
Theorem body_and_channel_are_closed_once
    (c : OpenAIClient) (msgs : list Message.t) (net : Exchange)
    (clk : Clock) (received : nat) :
  let res := fst (stream c msgs net clk) in
  let r := snd (stream c msgs net clk) in
  let done := executed received (trace r) in
  ((List.length (chunks r) <= received + capacity)%nat ->
   done = trace r /\
   count is_close_body done = (if responded net then 1 else 0)%nat /\
   count is_close_chunks done = (if opened res then 1 else 0)%nat) /\
  ((received + capacity < List.length (chunks r))%nat ->
   responded net = true /\ opened res = true /\
   count is_close_body done = 0%nat /\
   count is_close_chunks done = 0%nat /\
   sent done = firstn (received + capacity) (chunks r)) /\
  (forall pre post,
      done = (pre ++ CloseChunks :: post)%list ->
      sent pre = chunks r /\ sent post = []) /\
  (forall pre post,
      done = (pre ++ CloseBody :: post)%list -> post = []).
Proof.
  intros res r done.
  destruct (closes_of_a_stream_read_to_its_end c msgs net clk)
    as (B & C & AfterChunks & AfterBody).
  fold res in C. fold r in B, C, AfterChunks, AfterBody.
  assert (Whole : (List.length (chunks r) <= received + capacity)%nat ->
                  done = trace r).
  { intros L. apply unblocked_all. exact L. }
  assert (Leak : (received + capacity < List.length (chunks r))%nat ->
                 responded net = true /\ opened res = true /\
                 forallb (fun e => negb (closing_event e)) done = true /\
                 sent done = firstn (received + capacity) (chunks r)).
  { intros L. subst res r done.
    destruct (stream_cases c msgs net clk)
      as [(e & E & R & T)|[(resp & N & S & E)|(resp & N & S & E)]].
    - rewrite T in L. cbn in L. lia.
    - rewrite E in L. cbn in L. lia.
    - rewrite E in *. cbn [fst snd] in *. rewrite N.
      split; [reflexivity|]. split; [reflexivity|].
      unfold executed.
      rewrite stream_end_until_close.
      rewrite <- until_close_sent in L.
      rewrite unblocked_app by exact L.
      split; [apply unblocked_keeps, until_close_no_close|].
      rewrite unblocked_sent, until_close_sent. reflexivity. }
  split; [|split; [|split]].
  - intros L. rewrite (Whole L). auto.
  - intros L. destruct (Leak L) as (R & O & NC & S).
    split; [exact R|]. split; [exact O|].
    split; [|split; [|exact S]].
    + apply count_none.
      apply (weaken_no_close is_close_body _); [|exact NC].
      intros e Q. unfold closing_event. rewrite Q. apply orb_true_r.
    + apply count_none.
      apply (weaken_no_close is_close_chunks _); [|exact NC].
      intros e Q. unfold closing_event. rewrite Q. reflexivity.
  - intros pre post Q.
    destruct (Nat.le_gt_cases (List.length (chunks r))
                (received + capacity)) as [L|L].
    + rewrite (Whole L) in Q. exact (AfterChunks pre post Q).
    + exfalso. destruct (Leak L) as (_ & _ & NC & _).
      rewrite Q, forallb_app in NC. apply andb_true_iff in NC.
      destruct NC as [_ NC]. discriminate NC.
  - intros pre post Q.
    destruct (Nat.le_gt_cases (List.length (chunks r))
                (received + capacity)) as [L|L].
    + rewrite (Whole L) in Q. exact (AfterBody pre post Q).
    + exfalso. destruct (Leak L) as (_ & _ & NC & _).
      rewrite Q, forallb_app in NC. apply andb_true_iff in NC.
      destruct NC as [_ NC]. cbn in NC. discriminate NC.
Qed.

Ltac compare_all :=
  repeat (match goal with
          | |- context [Z.ltb ?a ?b] => destruct (Z.ltb_spec a b)
          end; cbn -[Sub Z.ltb Z.of_nat Seconds float64_of_int]).

Lemma tokens_per_sec_of_stream (c : OpenAIClient) (resp : Response)
    (clk : Clock) :
  let r := stream_end c resp clk in
  let s := stats r in
  RequestStats.present RequestStats.fTokensPerSec (writes r) =
    (0 <? RequestStats.OutputTokens s) && (0 <? RequestStats.Latency s) /\
  (RequestStats.assignments RequestStats.fTokensPerSec (writes r) <= 1)%nat /\
  (0 < RequestStats.OutputTokens s -> 0 < RequestStats.Latency s ->
   RequestStats.TokensPerSec s =
     PrimFloat.div (float64_of_int (RequestStats.OutputTokens s))
                   (Seconds (RequestStats.Latency s))) /\
  (RequestStats.present RequestStats.fTokensPerSec (writes r) = false ->
   RequestStats.TokensPerSec s = 0%float).
Proof.
  intros r s. subst s r.
  rewrite stream_end_writes, stream_end_record.
  cbn [RequestStats.OutputTokens RequestStats.Latency
       RequestStats.TokensPerSec].
  rewrite stream_claims.any_tokens.
  set (n := Z.of_nat (List.length (texts_of resp))).
  unfold final_writes, first_token_writes.
  set (t0 := start_time clk). set (t1 := first_token_time clk).
  destruct (Z.ltb_spec 0 n) as [Pn|Pn].
  - set (lat := Sub (end_time clk true) t0).
    set (gen := Sub (end_time clk true) t1).
    destruct (Z.ltb_spec 0 lat) as [L|L];
      destruct ((1 <? n) && (0 <? gen)); cbn;
      (split; [|split; [|split]]);
      intros; try reflexivity; try discriminate; lia.
  - set (lat := Sub (end_time clk false) t0).
    destruct (Z.ltb_spec 0 lat) as [L|L]; cbn;
      (split; [|split; [|split]]);
      intros; try reflexivity; try discriminate; lia.
Qed.

(** X3. Whatever the network does, [TokensPerSec] is assigned at most
    once, and exactly when at least one token was observed and the
    latency is positive; it is then the number of output tokens
    divided by the latency in seconds, and keeps its zero value
    otherwise. *)
Theorem tokens_per_second_rule
    (c : OpenAIClient) (msgs : list Message.t) (net : Exchange)
    (clk : Clock) :
  let r := snd (stream c msgs net clk) in
  let s := stats r in
  RequestStats.present RequestStats.fTokensPerSec (writes r) =
    (0 <? RequestStats.OutputTokens s) && (0 <? RequestStats.Latency s) /\
  (RequestStats.assignments RequestStats.fTokensPerSec (writes r) <= 1)%nat /\
  (0 < RequestStats.OutputTokens s -> 0 < RequestStats.Latency s ->
   RequestStats.TokensPerSec s =
     PrimFloat.div (float64_of_int (RequestStats.OutputTokens s))
                   (Seconds (RequestStats.Latency s))) /\
  (RequestStats.present RequestStats.fTokensPerSec (writes r) = false ->
   RequestStats.TokensPerSec s = 0%float).
Proof.
  destruct (stream_cases c msgs net clk)
    as [(e & E & R & T)|[(resp & N & S & E)|(resp & N & S & E)]].
  - rewrite T. cbn. (split; [|split; [|split]]);
      intros; try reflexivity; try discriminate; lia.
  - rewrite E. cbn. (split; [|split; [|split]]);
      intros; try reflexivity; try discriminate; lia.
  - rewrite E. cbn [snd]. apply tokens_per_sec_of_stream.
Qed.

(** X4. Whatever the network does, the latency and the generation
    time are not negative and the generation time is at most the
    latency.  When a token was observed, the start, the first token
    and the end follow one another in time, and the latency is at
    most the time to the first token plus the generation time, with
    equality unless the stream lasted longer than a [Duration] can
    hold.  Without a token the first-token fields keep their zero
    values. *)
Theorem latency_splits_at_the_first_token
    (c : OpenAIClient) (msgs : list Message.t) (net : Exchange)
    (clk : Clock) :
  let s := stats (snd (stream c msgs net clk)) in
  0 <= RequestStats.Latency s /\
  0 <= RequestStats.GenerationTime s <= RequestStats.Latency s /\
  (0 < RequestStats.OutputTokens s ->
   RequestStats.StartTime s <= RequestStats.FirstTokenTime s
     <= RequestStats.EndTime s /\
   RequestStats.Latency s <=
     RequestStats.TimeToFirstToken s + RequestStats.GenerationTime s /\
   (RequestStats.EndTime s - RequestStats.StartTime s <= maxDuration ->
    RequestStats.Latency s =
      RequestStats.TimeToFirstToken s + RequestStats.GenerationTime s)) /\
  (RequestStats.OutputTokens s = 0 ->
   RequestStats.FirstTokenTime s = 0 /\
   RequestStats.TimeToFirstToken s = 0 /\
   RequestStats.GenerationTime s = 0).
Proof.
  destruct (stream_cases c msgs net clk)
    as [(e & E & R & T)|[(resp & N & S & E)|(resp & N & S & E)]].
  - rewrite T. cbn. repeat split; intros; lia.
  - rewrite E. cbn. repeat split; intros; lia.
  - rewrite E. cbn [snd]. rewrite stream_end_record.
    cbn [RequestStats.OutputTokens RequestStats.Latency
         RequestStats.GenerationTime RequestStats.TimeToFirstToken
         RequestStats.StartTime RequestStats.EndTime
         RequestStats.FirstTokenTime].
    rewrite stream_claims.any_tokens.
    set (n := Z.of_nat (List.length (texts_of resp))).
    pose proof (start_le_first clk) as L1.
    pose proof (first_le_end clk) as L2.
    destruct (Z.ltb_spec 0 n) as [Pn|Pn].
    + pose proof (Sub_nonneg _ _ L2) as G0.
      pose proof (Sub_anti (end_time clk true) _ _ L1) as G1.
      destruct (Sub_triangle _ _ _ L1 L2) as [T1 T2].
      split; [lia|]. split; [lia|]. split; [|lia].
      intros _. split; [lia|]. split; [exact T1|exact T2].
    + pose proof (Sub_nonneg _ _ (start_le_end clk false)) as G0.
      split; [exact G0|]. split; [lia|]. split; [lia|].
      intros _. auto.
Qed.

Lemma scan_ending lines err e : snd (scan lines err) = AtEnd e -> e = err.
Proof.
  induction lines as [|l ls IH]; cbn [scan].
  - cbn. intros E. inversion E. reflexivity.
  - destruct (is_sentinel l); [discriminate|].
    destruct (scan ls err) as [before e']. exact IH.
Qed.

(** X5. Every chunk a stream sends has one of three shapes: a
    [Content] chunk with a text that is not empty, the [Done] chunk,
    or an [Error] chunk that carries the cause of the failure of the
    transport under the prefix of a stream read error.  No chunk
    holds a text together with an error or the [Done] mark. *)
Theorem every_chunk_has_one_of_three_shapes
    (c : OpenAIClient) (msgs : list Message.t) (net : Exchange)
    (clk : Clock) :
  Forall (fun k =>
            (exists t, t <> "" /\ k = chunkContent t) \/
            k = chunkDone \/
            (exists resp x,
                net = Responds resp /\ BodyEnd resp = io_failure x /\
                k = chunkError ("stream read error: " ++ x)))
         (chunks (snd (stream c msgs net clk))).
Proof.
  destruct (stream_cases c msgs net clk)
    as [(e & E & R & T)|[(resp & N & S & E)|(resp & N & S & E)]].
  - rewrite T. constructor.
  - rewrite E. constructor.
  - rewrite E. cbn [snd]. rewrite stream_end_chunks.
    apply Forall_app. split.
    + apply Forall_forall. intros k I.
      apply in_map_iff in I as (t & K & I). left. exists t.
      split; [|symmetry; exact K].
      exact (chat_claims.deltas_nonempty _ _ I).
    + destruct (ending_of resp) as [|[|x]] eqn:Q; cbn [closing].
      * constructor; [right; left; reflexivity|constructor].
      * constructor; [right; left; reflexivity|constructor].
      * unfold ending_of in Q. apply scan_ending in Q.
        constructor;
          [|constructor; [right; left; reflexivity|constructor]].
        right. right. exists resp, x. auto.
Qed.

(** X6. Whatever the network does, the record behind [stats] keeps
    the model of the client and the time of the call, holds the
    status code of the response when one arrived, and never learns
    the input tokens, the total tokens or a cost: these fields keep
    their zero values.  [OutputTokens] is the number of [Content]
    chunks sent, also for a stream that ends without the sentinel. *)
Theorem what_the_record_of_a_stream_holds
    (c : OpenAIClient) (msgs : list Message.t) (net : Exchange)
    (clk : Clock) :
  let r := snd (stream c msgs net clk) in
  let s := stats r in
  RequestStats.Model s = GetModel c /\
  RequestStats.StartTime s = start_time clk /\
  RequestStats.HTTPStatus s = status_of net /\
  RequestStats.InputTokens s = 0 /\
  RequestStats.TotalTokens s = 0 /\
  RequestStats.CostEstimate s = 0%float /\
  RequestStats.OutputTokens s =
    Z.of_nat (List.length (filter is_content (chunks r))).
Proof.
  destruct (stream_cases c msgs net clk)
    as [(e & E & R & T)|[(resp & N & S & E)|(resp & N & S & E)]].
  - rewrite T. destruct net; try discriminate; cbn; repeat split.
  - rewrite E, N. cbn. repeat split.
  - rewrite E, N. cbn [snd]. rewrite stream_end_record, stream_end_chunks.
    cbn [RequestStats.Model RequestStats.StartTime RequestStats.HTTPStatus
         RequestStats.InputTokens RequestStats.TotalTokens
         RequestStats.CostEstimate RequestStats.OutputTokens status_of].
    rewrite filter_app, filter_content_texts, filter_content_closing.
    rewrite app_nil_r, length_map. repeat split.
Qed.

Lemma scan_past_sentinel l1 : forall l2 err err',
  existsb is_sentinel l1 = true ->
  scan (l1 ++ l2) err' = scan l1 err.
Proof.
  induction l1 as [|l ls IH]; intros l2 err err' Hs; [discriminate|].
  cbn [app scan]. cbn [existsb] in Hs.
  destruct (is_sentinel l); [reflexivity|].
  cbn [orb] in Hs. rewrite (IH l2 err err' Hs). reflexivity.
Qed.

(** A stream depends on the body through the lines read up to the
    first sentinel and the way the reading ends. *)
Lemma stream_end_same c resp resp' clk :
  StatusCode resp = StatusCode resp' ->
  scan (fst (ReadBytes_all "" (Body resp))) (BodyEnd resp) =
  scan (fst (ReadBytes_all "" (Body resp'))) (BodyEnd resp') ->
  stream_end c resp clk = stream_end c resp' clk.
Proof.
  intros Hs Hl. unfold stream_end. rewrite Hs, Hl. reflexivity.
Qed.

(** X7. Once the sentinel line was read, nothing that follows it in
    the body is looked at: a stream whose body goes on after the
    line of the sentinel, and ends in whatever way, is the same
    stream, chunk for chunk and assignment for assignment, as the
    one whose body stops there. *)
Theorem bytes_after_the_sentinel_are_ignored
    (c : OpenAIClient) (msgs : list Message.t) (clk : Clock)
    (body rest : string) (how how' : ioerr) :
  existsb is_sentinel (fst (ReadBytes_all "" body)) = true ->
  stream c msgs (Responds (mkResponse 200 (body ++ rest) how')) clk =
  stream c msgs (Responds (mkResponse 200 body how)) clk.
Proof.
  intros Hs.
  rewrite !stream_responds by reflexivity. f_equal.
  apply stream_end_same; [reflexivity|].
  cbn [Body BodyEnd]. rewrite ReadBytes_app. cbn [fst].
  apply scan_past_sentinel. exact Hs.
Qed.

(** X8. The bytes after the last newline of the body are dropped:
    [ReadBytes] returns them together with its error, and the loop
    leaves on the error without looking at them.  A stream whose
    body ends in an unterminated line, be it a payload with a text
    delta or the sentinel, is the same stream as the one without
    that line. *)
Theorem an_unterminated_last_line_is_dropped
    (c : OpenAIClient) (msgs : list Message.t) (clk : Clock)
    (body partial : string) (how : ioerr) :
  no_newline partial = true ->
  stream c msgs (Responds (mkResponse 200 (body ++ partial) how)) clk =
  stream c msgs (Responds (mkResponse 200 body how)) clk.
Proof.
  intros Hn.
  rewrite !stream_responds by reflexivity. f_equal.
  apply stream_end_same; [reflexivity|].
  cbn [Body BodyEnd]. rewrite ReadBytes_app. cbn [fst].
  rewrite (ReadBytes_partial _ _ Hn). cbn [fst].
  rewrite app_nil_r. reflexivity.
Qed.

End WithLib.

(** X2, at a reply of eleven text deltas that nobody receives: ten
    chunks fill the channel, the eleventh send blocks, and neither
    the channel nor the body is closed. *)
Lemma unread_stream_witness :
  let r := snd (@stream AsciiLib.lib samples.client []
                  (samples.ok
                     (body_of (repeat samples.hi 11 ++ [samples.done_line]))
                     io_EOF)
                  samples.ticking) in
  List.length (chunks r) = 12%nat /\
  count is_close_body (executed 0 (trace r)) = 0%nat /\
  count is_close_chunks (executed 0 (trace r)) = 0%nat /\
  sent (executed 0 (trace r)) = repeat (chunkContent "Hi") 10.
Proof.
  intros r.
  assert (L : List.length (chunks r) = 12%nat) by (vm_compute; reflexivity).
  split; [exact L|].
  destruct (proj1 (proj2 (@body_and_channel_are_closed_once AsciiLib.lib
                             samples.client []
                             (samples.ok
                                (body_of (repeat samples.hi 11
                                            ++ [samples.done_line]))
                                io_EOF)
                             samples.ticking 0)))
    as (_ & _ & B & C & S).
  - fold r. rewrite L. unfold capacity. lia.
  - fold r in B, C, S. split; [exact B|]. split; [exact C|].
    rewrite S. vm_compute. reflexivity.
Defined.

(** X7, at a body that goes on after the sentinel line with a further
    text delta and then fails. *)
Lemma bytes_after_the_sentinel_witness :
  @stream AsciiLib.lib samples.client []
    (Responds (mkResponse 200
       (body_of [samples.hi; samples.done_line] ++ body_of [samples.hi])
       (io_failure "connection reset"))) samples.ticking =
  @stream AsciiLib.lib samples.client []
    (Responds (mkResponse 200
       (body_of [samples.hi; samples.done_line]) io_EOF)) samples.ticking.
Proof.
  apply (@bytes_after_the_sentinel_are_ignored AsciiLib.lib).
  vm_compute. reflexivity.
Defined.

(** X8, at a body whose second text delta is not followed by a
    newline. *)
Lemma unterminated_last_line_witness :
  @stream AsciiLib.lib samples.client []
    (Responds (mkResponse 200 (body_of [samples.hi] ++ samples.hi) io_EOF))
    samples.ticking =
  @stream AsciiLib.lib samples.client []
    (Responds (mkResponse 200 (body_of [samples.hi]) io_EOF))
    samples.ticking.
Proof.
  apply (@an_unterminated_last_line_is_dropped AsciiLib.lib).
  vm_compute. reflexivity.
Defined.

(** The text delta of an unterminated last line is not sent. *)
Example unterminated_delta_is_lost :
  chunks (snd (@stream AsciiLib.lib samples.client []
                 (Responds (mkResponse 200
                    (body_of [samples.hi] ++ samples.hi) io_EOF))
                 samples.ticking)) =
  [chunkContent "Hi"; chunkDone].
Proof. vm_compute. reflexivity. Qed.

End stream_extras.

(* ================================================================== *)
(** * Properties of the call without streaming                          *)
(* ================================================================== *)

Module chat_call_extras.

Import llm sse sse_facts wire llm_chat.

(** The hypotheses of a case that did not happen contradict the case
    that did. *)
Ltac side :=
  intros;
  repeat match goal with
         | E : Responds _ = Responds _ |- _ => inversion E; subst; clear E
         | E : _ /\ _ |- _ => destruct E
         | E : exists _, _ |- _ => destruct E
         end;
  try congruence; try discriminate; auto.

Section WithLib.
Context `{GoMore}.

Lemma choices_nonempty (result : Completion.t) :
  (slice_len (Completion.Choices result) =? 0) = false <->
  Completion.Choices result <> [].
Proof.
  unfold slice_len. destruct (Completion.Choices result) as [|x xs]; cbn.
  - split; [discriminate|congruence].
  - split; [discriminate|reflexivity].
Qed.

(** X20. [Chat] returns an answer exactly when every step succeeds:
    a response arrives, its body is read to the end, its status is
    200, the body decodes and holds at least one choice.  The answer
    is then the content of the first choice, the record holds the
    three token counts of the response, and [TokensPerSec] is the
    completion tokens divided by the latency in seconds when both
    are positive.  Otherwise the content is empty, the token counts
    keep their zero values and the error names the first step that
    failed; a failure to read the body is reported before the status
    is looked at.  The status of a response is recorded, and the
    body of a response is closed once, on every path. *)
Theorem chat_answers_or_names_the_failing_step
    (c : OpenAIClient) (msgs : list Message.t) (net : Exchange)
    (clk : Clock) :
  let out := fst (call c msgs net clk) in
  let r := snd (call c msgs net clk) in
  let s := stats r in
  (snd out = None <->
   exists resp result,
     net = Responds resp /\ BodyEnd resp = io_EOF /\ StatusCode resp = 200 /\
     UnmarshalResult (Body resp) = Ok result /\
     Completion.Choices result <> []) /\
  (snd out <> None ->
   fst out = "" /\
   RequestStats.InputTokens s = 0 /\ RequestStats.OutputTokens s = 0 /\
   RequestStats.TotalTokens s = 0 /\
   RequestStats.TokensPerSec s = 0%float) /\
  (forall resp result,
      net = Responds resp -> BodyEnd resp = io_EOF -> StatusCode resp = 200 ->
      UnmarshalResult (Body resp) = Ok result ->
      Completion.Choices result <> [] ->
      (exists first rest,
          Completion.Choices result = first :: rest /\
          fst out = Completion.Content (Completion.Message first)) /\
      RequestStats.InputTokens s =
        Completion.PromptTokens (Completion.Usage result) /\
      RequestStats.OutputTokens s =
        Completion.CompletionTokens (Completion.Usage result) /\
      RequestStats.TotalTokens s =
        Completion.TotalTokens (Completion.Usage result) /\
      RequestStats.TokensPerSec s =
        (if (0 <? RequestStats.OutputTokens s) &&
            (0 <? RequestStats.Latency s)
         then PrimFloat.div (float64_of_int (RequestStats.OutputTokens s))
                            (Seconds (RequestStats.Latency s))
         else 0%float)) /\
  (forall resp e,
      net = Responds resp -> BodyEnd resp = io_failure e ->
      snd out = Some ("failed to read response: " ++ e)) /\
  (forall resp,
      net = Responds resp -> BodyEnd resp = io_EOF -> StatusCode resp <> 200 ->
      snd out = Some ("API error (status " ++ itoa (StatusCode resp) ++ "): "
                        ++ Body resp)) /\
  (forall resp e,
      net = Responds resp -> BodyEnd resp = io_EOF -> StatusCode resp = 200 ->
      UnmarshalResult (Body resp) = Err e ->
      snd out = Some ("failed to unmarshal response: " ++ e)) /\
  (forall resp result,
      net = Responds resp -> BodyEnd resp = io_EOF -> StatusCode resp = 200 ->
      UnmarshalResult (Body resp) = Ok result ->
      Completion.Choices result = [] ->
      snd out = Some "no choices in response") /\
  (forall e, net = MarshalFails e ->
             snd out = Some ("failed to marshal request: " ++ e)) /\
  (forall e, net = NewRequestFails e ->
             snd out = Some ("failed to create request: " ++ e)) /\
  (forall e, net = DoFails e ->
             snd out = Some ("failed to send request: " ++ e)) /\
  RequestStats.HTTPStatus s = status_of net /\
  count is_close_body (trace r) = (if responded net then 1 else 0)%nat /\
  0 <= RequestStats.Latency s.
Proof.
  intros out r s. subst out r s. unfold call.
  destruct net as [e|e|e|resp].
  1-3: cbn; repeat split; side; lia.
  unfold Chat, answer, ReadAll, bind, assign, time_Now, load, ret, store,
    when, Body_Close, record, append, new_run, count.
  cbn -[Sub Seconds float64_of_int Z.ltb Z.eqb].
  set (t0 := reading clk + Z.of_N (elapse clk 0%nat)).
  set (t1 := t0 + Z.of_N (elapse clk 1%nat)).
  assert (L : 0 <= Sub t1 t0) by (apply Sub_nonneg; lia).
  destruct (BodyEnd resp) as [|x] eqn:B;
    [|cbn -[Sub Seconds float64_of_int Z.ltb Z.eqb]; repeat split; side].
  destruct (Z.eqb_spec (StatusCode resp) 200) as [S|S];
    cbn -[Sub Seconds float64_of_int Z.ltb Z.eqb];
    [|repeat split; side].
  destruct (UnmarshalResult (Body resp)) as [result|e] eqn:U;
    cbn -[Sub Seconds float64_of_int Z.ltb Z.eqb];
    [|repeat split; side].
  destruct (slice_len (Completion.Choices result) =? 0) eqn:Z0.
  { assert (Ce : Completion.Choices result = []).
    { destruct (Completion.Choices result); [reflexivity|discriminate]. }
    cbn -[Sub Seconds float64_of_int Z.ltb Z.eqb]. repeat split; side. }
  apply choices_nonempty in Z0.
  destruct (Completion.Choices result) as [|first rest] eqn:Ch;
    [congruence|].
  destruct (Completion.Usage result) as [pt ct tt_] eqn:Us.
  cbn -[Sub Seconds float64_of_int Z.ltb Z.eqb].
  assert (R : exists resp0 result0,
             Responds resp = Responds resp0 /\ BodyEnd resp0 = io_EOF /\
             StatusCode resp0 = 200 /\
             UnmarshalResult (Body resp0) = Ok result0 /\
             Completion.Choices result0 <> []).
  { exists resp, result. rewrite Ch. repeat split; auto. }
  destruct ((0 <? ct) && (0 <? Sub t1 t0)) eqn:G;
    cbn -[Sub Seconds float64_of_int Z.ltb Z.eqb]; rewrite ?G.
  - split; [split; [intros _; exact R|reflexivity]|].
    split; [intros X; exfalso; apply X; reflexivity|].
    split.
    { intros resp' result' N _ _ Q _. inversion N; subst resp'.
      rewrite U in Q. inversion Q; subst result'.
      rewrite Ch, Us. cbn. repeat split; eauto. }
    repeat split; side.
  - split; [split; [intros _; exact R|reflexivity]|].
    split; [intros X; exfalso; apply X; reflexivity|].
    split.
    { intros resp' result' N _ _ Q _. inversion N; subst resp'.
      rewrite U in Q. inversion Q; subst result'.
      rewrite Ch, Us. cbn. repeat split; eauto. }
    repeat split; side.
Qed.

End WithLib.

End chat_call_extras.

(* ================================================================== *)
(** * Further properties of the commands and of the controller          *)
(* ================================================================== *)

Module chat_extras.

Import ui chat bounds.

Lemma at_index_in_range {A} (xs : list A) (j : Z) :
  0 <= j < slice_len xs -> exists x, commands.at_index xs j = Some x.
Proof.
  intros [L U]. unfold commands.at_index.
  destruct (Z.ltb_spec j 0); [lia|].
  destruct (nth_error xs (Z.to_nat j)) as [x|] eqn:E; [eauto|].
  apply nth_error_None in E. unfold slice_len in U. lia.
Qed.

Lemma history_in_range_iff i :
  history_in_range i = true <->
  -1 <= components.historyIndex i < slice_len (components.history i).
Proof.
  unfold history_in_range. rewrite andb_true_iff, Z.leb_le, Z.ltb_lt.
  tauto.
Qed.

Lemma selection_in_range_iff m :
  selection_in_range m = true <->
  0 <= selectedSuggestion m /\
  (slice_len (suggestions m) = 0 \/
   selectedSuggestion m < slice_len (suggestions m)).
Proof.
  unfold selection_in_range.
  rewrite andb_true_iff, orb_true_iff, Z.leb_le, Z.ltb_lt, Z.eqb_eq.
  tauto.
Qed.

Lemma HasPrefix_nil s : HasPrefix s "" = true.
Proof. destruct s; reflexivity. Qed.

(** A NaN is neither below nor above any number. *)
Lemma nan_compares_false (t u : float) :
  PrimFloat.is_nan t = true ->
  PrimFloat.ltb t u = false /\ PrimFloat.ltb u t = false.
Proof.
  unfold PrimFloat.is_nan. intros N. apply negb_true_iff in N.
  rewrite FloatAxioms.eqb_spec in N.
  rewrite !FloatAxioms.ltb_spec.
  destruct (FloatOps.Prim2SF t) as [sg|sg| |sg mt ex]; cbn in N.
  - discriminate.
  - destruct sg; discriminate.
  - split; [reflexivity|].
    destruct (FloatOps.Prim2SF u) as [sg'|sg'| |sg' mt' ex']; reflexivity.
  - exfalso. unfold SpecFloat.SFeqb, SpecFloat.SFcompare in N.
    rewrite Z.compare_refl, Pos.compare_refl in N.
    destruct sg; discriminate.
Qed.

Lemma slice_len_nonneg {A} (xs : list A) : 0 <= slice_len xs.
Proof. unfold slice_len. lia. Qed.

Lemma reset_in_range i : history_in_range (components.Reset i) = true.
Proof.
  apply history_in_range_iff. cbn.
  pose proof (slice_len_nonneg (components.history i)). lia.
Qed.

Lemma add_in_range i text :
  history_in_range i = true ->
  history_in_range (components.AddToHistory i text) = true.
Proof.
  intros I. unfold components.AddToHistory.
  destruct (_ && _); [|exact I].
  apply history_in_range_iff. cbn.
  pose proof (slice_len_nonneg (components.history i ++ [text])). lia.
Qed.

Section WithLib.
Context `{GoLib}.

(** The input component reads its history inside its bounds. *)
Lemma input_update_in_range i msg :
  history_in_range i = true ->
  exists i', components.Update i msg = Some i' /\
             history_in_range i' = true.
Proof.
  intros I. pose proof I as J. apply history_in_range_iff in J.
  assert (O : exists i',
             Some (components.with_textarea i
                     (textarea_Update (components.textarea_ i) msg)) =
             Some i' /\ history_in_range i' = true).
  { eexists. split; [reflexivity|exact I]. }
  unfold components.Update.
  destruct msg as [k|w h|tag]; try exact O.
  destruct (String.eqb (KeyMsg_String k) "up").
  - destruct (Z.ltb_spec 0 (slice_len (components.history i))) as [P|P];
      [|eexists; split; [reflexivity|exact I]].
    set (n := slice_len (components.history i)) in *.
    set (hi := if n <=? components.historyIndex i + 1
               then n - 1 else components.historyIndex i + 1).
    assert (R : 0 <= hi < n).
    { subst hi. destruct (Z.leb_spec n (components.historyIndex i + 1)); lia. }
    destruct (at_index_in_range (components.history i) (n - 1 - hi))
      as [x X]; [fold n; lia|].
    rewrite X. eexists. split; [reflexivity|].
    apply history_in_range_iff. cbn. fold n. lia.
  - destruct (String.eqb (KeyMsg_String k) "down"); [|exact O].
    destruct (Z.leb_spec 0 (components.historyIndex i)) as [P|P];
      [|eexists; split; [reflexivity|exact I]].
    destruct (Z.eqb_spec (components.historyIndex i - 1) (-1)) as [Q|Q].
    + eexists. split; [reflexivity|].
      apply history_in_range_iff. cbn. lia.
    + destruct (at_index_in_range (components.history i)
                  (slice_len (components.history i) - 1
                     - (components.historyIndex i - 1)))
        as [x X]; [lia|].
      rewrite X. eexists. split; [reflexivity|].
      apply history_in_range_iff. cbn. lia.
Qed.

Lemma update_input_in_range m msg :
  in_range m = true ->
  exists m' cmd, update_input m msg = Continue m' cmd /\
                 in_range m' = true.
Proof.
  unfold in_range. intros I. apply andb_true_iff in I as [Ih Is].
  apply selection_in_range_iff in Is.
  unfold update_input.
  destruct (input_update_in_range (input m) msg Ih) as (i' & U & Ih').
  rewrite U. eexists _, _. split; [reflexivity|].
  cbn [input set_input set_suggestions suggestions selectedSuggestion].
  set (sg := commands.GetSuggestions (components.Value i')).
  pose proof (slice_len_nonneg sg) as N.
  destruct (Z.eqb_spec (slice_len sg) 0) as [Z0|Z0].
  - apply andb_true_iff. split; [exact Ih'|].
    apply selection_in_range_iff. cbn. lia.
  - destruct (Z.leb_spec (slice_len sg) (selectedSuggestion m)) as [L|L];
      (apply andb_true_iff; split; [exact Ih'|]);
      apply selection_in_range_iff; cbn; fold sg; lia.
Qed.

Lemma after_switch_in_range m text :
  in_range (fst (after_switch m text)) = true.
Proof.
  unfold in_range. apply andb_true_iff. split.
  - cbn. apply reset_in_range.
  - reflexivity.
Qed.

Lemma set_err_in_range m e : in_range (set_err m e) = in_range m.
Proof. reflexivity. Qed.

Lemma handleCommand_in_range m text :
  in_range m = true -> in_range (fst (handleCommand m text)) = true.
Proof.
  intros I. unfold handleCommand.
  destruct (commands.ParseCommand text) as [cmd|e]; [|exact I].
  repeat (match goal with
          | |- context [if ?b then _ else _] => destruct b
          | |- context [match ?x with Some _ => _ | None => _ end] =>
              destruct x
          | |- context [match ?x with Ok _ => _ | Err _ => _ end] =>
              destruct x
          end;
          first [apply after_switch_in_range | exact I | idtac]).
Qed.

(** From a model inside its bounds [Update] returns without a panic,
    and the model it returns is inside its bounds. *)
Lemma update_in_range m msg :
  in_range m = true ->
  exists m' cmd, Update m msg = Continue m' cmd /\ in_range m' = true.
Proof.
  intros I.
  pose proof I as J. unfold in_range in J.
  apply andb_true_iff in J as [Ih Is].
  pose proof Is as Js. apply selection_in_range_iff in Js.
  destruct msg as [[k|w h|tag]|ch st|chunk|st|e|cfg]; cbn [Update].
  - (* a key *)
    unfold key_msg. destruct (streaming m).
    { destruct (tea.Type_ k); eexists _, _; (split; [reflexivity|exact I]). }
    destruct (tea.Type_ k);
      try (eexists _, _; split; [reflexivity|exact I]);
      try (apply update_input_in_range; exact I).
    + (* Tab *)
      destruct (Z.ltb_spec 0 (slice_len (suggestions m))) as [P|P];
        [|eexists _, _; split; [reflexivity|exact I]].
      destruct (at_index_in_range (suggestions m) (selectedSuggestion m))
        as [x X]; [lia|].
      rewrite X. eexists _, _. split; [reflexivity|].
      unfold in_range. apply andb_true_iff. split; [exact Ih|reflexivity].
    + (* Up *)
      destruct (Z.ltb_spec 1 (slice_len (suggestions m))) as [P|P];
        [|apply update_input_in_range; exact I].
      eexists _, _. split; [reflexivity|].
      cbn [selectedSuggestion set_selectedSuggestion suggestions].
      destruct (Z.ltb_spec (selectedSuggestion m - 1) 0);
        (unfold in_range; apply andb_true_iff; split; [exact Ih|]);
        apply selection_in_range_iff; cbn; lia.
    + (* Down *)
      destruct (Z.ltb_spec 1 (slice_len (suggestions m))) as [P|P];
        [|apply update_input_in_range; exact I].
      eexists _, _. split; [reflexivity|].
      cbn [selectedSuggestion set_selectedSuggestion suggestions].
      destruct (Z.leb_spec (slice_len (suggestions m))
                           (selectedSuggestion m + 1));
        (unfold in_range; apply andb_true_iff; split; [exact Ih|]);
        apply selection_in_range_iff; cbn; lia.
    + (* Enter *)
      unfold key_enter.
      destruct (String.eqb _ "");
        [eexists _, _; split; [reflexivity|exact I]|].
      assert (C : forall t,
                 exists m' cmd,
                   (if commands.IsCommand t
                    then let (m0, cmd) :=
                           handleCommand
                             (set_selectedSuggestion (set_suggestions m []) 0)
                             t in
                         Continue m0 cmd
                    else
                      let m0 := set_messages
                                  (set_selectedSuggestion
                                     (set_suggestions m []) 0)
                                  (append (messages m) (Message.mk "user" t)) in
                      let m1 := set_input m0
                                  (components.AddToHistory (input m0) t) in
                      let m2 := set_input m1 (components.Reset (input m1)) in
                      let m3 := set_streaming m2 true in
                      let m4 := set_streamContent m3 "" in
                      Continue m4 (streamResponse m4)) = Continue m' cmd /\
                   in_range m' = true).
      { intros t. destruct (commands.IsCommand t).
        - pose proof (handleCommand_in_range
                        (set_selectedSuggestion (set_suggestions m []) 0) t)
            as P.
          destruct (handleCommand _ t) as [m0 c0].
          eexists _, _. split; [reflexivity|]. apply P.
          unfold in_range. apply andb_true_iff. split; [exact Ih|reflexivity].
        - eexists _, _. split; [reflexivity|].
          unfold in_range. apply andb_true_iff. split; [|reflexivity].
          cbn. apply reset_in_range. }
      destruct (commands.IsCommand _ && (0 <? slice_len (suggestions m)))
        eqn:Q; [|apply C].
      apply andb_true_iff in Q as [_ Q]. apply Z.ltb_lt in Q.
      destruct (at_index_in_range (suggestions m) (selectedSuggestion m))
        as [x X]; [lia|].
      rewrite X. apply C.
  - (* a resize *)
    apply update_input_in_range. exact I.
  - apply update_input_in_range. exact I.
  - eexists _, _. split; [reflexivity|exact I].
  - unfold stream_chunk.
    destruct (StreamChunk.Error chunk);
      [eexists _, _; split; [reflexivity|exact I]|].
    destruct (StreamChunk.Done chunk);
      [|eexists _, _; split; [reflexivity|exact I]].
    eexists _, _. split; [reflexivity|].
    cbn. destruct (String.eqb (streamContent m) ""); exact I.
  - eexists _, _. split; [reflexivity|].
    cbn. destruct (String.eqb (streamContent m) ""); exact I.
  - eexists _, _. split; [reflexivity|exact I].
  - eexists _, _. split; [reflexivity|exact I].
Qed.

(** A property of the model that [Update] keeps holds all through a
    session. *)
Lemma session_invariant (P : ChatModel -> Prop) env :
  (forall m msg m' cmd, P m -> Update m msg = Continue m' cmd -> P m') ->
  forall es w, P (runtime.model w) ->
               P (runtime.model (runtime.run env w es)).
Proof.
  intros U.
  assert (D : forall w msg, P (runtime.model w) ->
                P (runtime.model (runtime.dispatch w msg))).
  { intros w msg I. unfold runtime.dispatch.
    destruct (Update (runtime.model w) msg) as [m' cmd|] eqn:E;
      [exact (U _ _ _ _ I E)|exact I]. }
  assert (Q : forall w cmd, P (runtime.model w) ->
                P (runtime.model (snd (runtime.perform env w cmd)))).
  { intros w cmd I. destruct cmd; cbn [runtime.perform]; try exact I.
    - destruct (llm.stream _ _ _ _) as [[e|] r]; exact I.
    - destruct (nth_error _ _) as [st|]; [|exact I].
      destruct (runtime.queue st); exact I.
    - destruct (runtime.disk env); exact I. }
  induction es as [|e es IH]; intros w I; [exact I|].
  rewrite chat_claims.run_cons. apply IH.
  unfold runtime.step. destruct (runtime.halted w); [exact I|].
  destruct e as [msg|n]; [apply D; exact I|].
  destruct (nth_error (runtime.running w) n) as [cmd|]; [|exact I].
  match goal with
  | |- context [runtime.perform env ?w0 cmd] =>
      pose proof (Q w0 cmd I) as R;
      destruct (runtime.perform env w0 cmd) as [[msg|] w1]
  end; cbn [snd] in R; [apply D; exact R|exact R].
Qed.

(** X9. [Update] never indexes a slice out of range.  The model a
    session starts from has the index of the input history and the
    selected suggestion inside their bounds; from a model with that
    property [Update] returns without a panic, whatever the message,
    and the model it returns has the property again; so every model
    reached in a session has it. *)
Theorem update_stays_inside_the_slices :
  (forall cfg, in_range (NewChatModel cfg) = true) /\
  (forall m msg,
      in_range m = true ->
      exists m' cmd, Update m msg = Continue m' cmd /\ in_range m' = true) /\
  (forall env cfg es,
      in_range (runtime.model (runtime.run env (runtime.boot cfg) es))
      = true).
Proof.
  split; [reflexivity|]. split; [exact update_in_range|].
  intros env cfg es.
  apply (session_invariant (fun m => in_range m = true)); [|reflexivity].
  intros m msg m' cmd I E.
  destruct (update_in_range m msg I) as (m1 & c1 & E1 & I1).
  rewrite E in E1. inversion E1; subst. exact I1.
Qed.

Lemma enter_submits m text :
  streaming m = false ->
  TrimSpace (components.Value (input m)) = text ->
  text <> "" ->
  commands.IsCommand text = false ->
  Update m (Lib (tea.Key enter)) =
    Continue (session.entered m text)
             (CmdStreamResponse (client m)
                (append (messages m) (Message.mk "user" text))).
Proof.
  intros Hs Ht Hn Hc.
  cbn [Update]. unfold key_msg. rewrite Hs.
  cbn [enter tea.Type_]. unfold key_enter. rewrite Ht.
  apply String.eqb_neq in Hn. rewrite Hn, Hc. cbn [andb].
  rewrite Hc. reflexivity.
Qed.

(** Enter on a text that is not a command, and the return of the
    request it starts. *)
Lemma request_returns env w text :
  runtime.halted w = false ->
  runtime.running w = [] ->
  streaming (runtime.model w) = false ->
  TrimSpace (components.Value (input (runtime.model w))) = text ->
  text <> "" ->
  commands.IsCommand text = false ->
  runtime.run env w session.asked =
  let m1 := session.entered (runtime.model w) text in
  let k := runtime.requests w in
  match llm.stream (client (runtime.model w))
          (append (messages (runtime.model w)) (Message.mk "user" text))
          (runtime.network env k) (runtime.clocks env k)
  with
  | (llm.StreamErr e, _) =>
      runtime.mkWorld (set_streaming (set_err m1 (Some e)) false) []
                      (runtime.streams w) (S k) false
  | (llm.StreamOk, r) =>
      let id := List.length (runtime.streams w) in
      runtime.mkWorld
        (set_streamStats (set_streamChan m1 (Some id)) (Some id))
        [CmdWaitForChunk id]
        (runtime.streams w ++ [runtime.mkStream (llm.chunks r) (llm.stats r)])
        (S k) false
  end.
Proof.
  intros Hh Hr Hs Ht Hn Hc.
  unfold session.asked. rewrite !chat_claims.run_cons, chat_claims.run_nil.
  assert (W1 : runtime.step env w (runtime.Deliver (tea.Key enter)) =
               runtime.mkWorld (session.entered (runtime.model w) text)
                 [CmdStreamResponse (client (runtime.model w))
                    (append (messages (runtime.model w))
                            (Message.mk "user" text))]
                 (runtime.streams w) (runtime.requests w) false).
  { unfold runtime.step, runtime.dispatch.
    rewrite Hh, (enter_submits _ _ Hs Ht Hn Hc), Hr. reflexivity. }
  rewrite W1. clear W1.
  erewrite chat_claims.step_return; [|reflexivity|reflexivity].
  cbn [runtime.perform runtime.requests runtime.model runtime.running
       runtime.streams runtime.halted].
  destruct (llm.stream _ _ _ _) as [[e|] r]; reflexivity.
Qed.

(** X10. A request that fails before a stream is opened (the request
    cannot be built or sent, or the server answers with a status
    other than 200) leaves the user message in the history: after
    Enter and the return of the request, the history is the old one
    with the user message at its end, the error of [ChatStream] is
    shown, the model is no longer streaming, the input is empty and
    no command is running. *)
Theorem failed_request_keeps_the_user_message
    (env : runtime.Env) (w : runtime.World) (text : string) (e : error) :
  runtime.halted w = false ->
  runtime.running w = [] ->
  streaming (runtime.model w) = false ->
  TrimSpace (components.Value (input (runtime.model w))) = text ->
  text <> "" ->
  commands.IsCommand text = false ->
  fst (llm.stream (client (runtime.model w))
         (append (messages (runtime.model w)) (Message.mk "user" text))
         (runtime.network env (runtime.requests w))
         (runtime.clocks env (runtime.requests w))) = llm.StreamErr e ->
  let w' := runtime.run env w session.asked in
  messages (runtime.model w') =
    append (messages (runtime.model w)) (Message.mk "user" text) /\
  err (runtime.model w') = Some e /\
  streaming (runtime.model w') = false /\
  streamContent (runtime.model w') = "" /\
  components.Value (input (runtime.model w')) = "" /\
  runtime.running w' = [] /\
  runtime.streams w' = runtime.streams w /\
  runtime.halted w' = false.
Proof.
  intros Hh Hr Hs Ht Hn Hc He w'. subst w'.
  rewrite (request_returns env w text Hh Hr Hs Ht Hn Hc).
  cbv zeta. destruct (llm.stream _ _ _ _) as [res r].
  cbn [fst] in He. subst res. cbn. repeat split.
Qed.

(** The [Content] chunks at the head of a stream are received one by
    one into the buffer. *)
Lemma receive_contents env : forall ts w id rest fin,
  runtime.halted w = false ->
  runtime.running w = [CmdWaitForChunk id] ->
  nth_error (runtime.streams w) id =
    Some (runtime.mkStream (map llm.chunkContent ts ++ rest) fin) ->
  streamChan (runtime.model w) = Some id ->
  let w' := runtime.run env w (repeat (runtime.Return 0) (List.length ts)) in
  runtime.model w' =
    set_streamContent (runtime.model w)
      (streamContent (runtime.model w) ++ reply ts) /\
  runtime.running w' = [CmdWaitForChunk id] /\
  runtime.halted w' = false /\
  nth_error (runtime.streams w') id = Some (runtime.mkStream rest fin).
Proof.
  induction ts as [|t ts IH]; intros w id rest fin Hh Hr Hs Hc w'; subst w'.
  - cbn [List.length repeat]. rewrite chat_claims.run_nil.
    cbn [reply]. rewrite chat_claims.append_nil_r.
    repeat split; try assumption.
    destruct (runtime.model w). reflexivity.
  - cbn [List.length repeat]. rewrite chat_claims.run_cons.
    rewrite (chat_claims.step_return _ _ _ _ Hh Hr).
    cbn [runtime.perform runtime.streams runtime.model].
    rewrite Hs. cbn [runtime.queue map app runtime.final].
    unfold runtime.dispatch.
    cbn [runtime.model Update stream_chunk llm.chunkContent
         StreamChunk.Error StreamChunk.Done StreamChunk.Content].
    unfold waitForChunk. cbn [streamChan set_streamContent].
    rewrite Hc.
    cbn [runtime.start app runtime.running runtime.streams
         runtime.requests runtime.halted].
    match goal with
    | |- context [runtime.run env ?w1 _] => specialize (IH w1 id rest fin)
    end.
    cbn [runtime.halted runtime.running runtime.streams runtime.model
         streamChan set_streamContent streamContent] in IH.
    specialize (IH Hh eq_refl (chat_claims.nth_error_replace _ _ _ _ Hs) Hc).
    destruct IH as (M & R & Hl & Q).
    cbn [reply]. rewrite sse_facts.append_assoc in M.
    repeat split; assumption.
Qed.

(** X11. A reply whose stream breaks off on a read error is not
    committed.  After Enter, the return of the request, the
    fragments and the [Error] chunk, the history is the old one
    with the user message only; the error of the read is shown, the
    model is no longer streaming and waits for no chunk, and the
    fragments received stay in the buffer.  The [Done] chunk that
    follows the [Error] chunk is never received. *)
Theorem read_error_discards_the_partial_reply
    (env : runtime.Env) (w : runtime.World) (text : string)
    (resp : llm.Response) (x : error) :
  runtime.halted w = false ->
  runtime.running w = [] ->
  streaming (runtime.model w) = false ->
  TrimSpace (components.Value (input (runtime.model w))) = text ->
  text <> "" ->
  commands.IsCommand text = false ->
  runtime.network env (runtime.requests w) = llm.Responds resp ->
  llm.StatusCode resp = 200 ->
  sse.ending_of resp = sse.AtEnd (io_failure x) ->
  let fragments := sse.texts_of resp in
  let w' := runtime.run env w
              (session.asked ++
               repeat (runtime.Return 0) (List.length fragments) ++
               [runtime.Return 0]) in
  messages (runtime.model w') =
    append (messages (runtime.model w)) (Message.mk "user" text) /\
  err (runtime.model w') = Some ("stream read error: " ++ x) /\
  streaming (runtime.model w') = false /\
  streamChan (runtime.model w') = None /\
  streamContent (runtime.model w') = reply fragments /\
  runtime.running w' = [] /\
  (exists fin,
      nth_error (runtime.streams w') (List.length (runtime.streams w)) =
      Some (runtime.mkStream [llm.chunkDone] fin)).
Proof.
  intros Hh Hr Hs Ht Hn Hc Hnet Hst Hend fragments w'. subst w'.
  unfold runtime.run. rewrite !fold_left_app.
  fold (runtime.run env w session.asked).
  rewrite (request_returns env w text Hh Hr Hs Ht Hn Hc).
  cbv zeta. rewrite Hnet, (sse_facts.stream_responds _ _ _ _ Hst).
  rewrite sse_facts.stream_end_chunks, Hend. fold fragments.
  cbn [sse.closing].
  match goal with
  | |- context [fold_left (runtime.step env) (repeat _ _) ?w2] =>
      pose proof (receive_contents env fragments w2
                    (List.length (runtime.streams w))
                    [llm.chunkError ("stream read error: " ++ x);
                     llm.chunkDone]
                    (llm.stats (sse.stream_end (client (runtime.model w))
                                  resp
                                  (runtime.clocks env (runtime.requests w)))))
        as P;
      fold (runtime.run env w2 (repeat (runtime.Return 0)
                                       (List.length fragments)))
  end.
  cbn [runtime.halted runtime.running runtime.streams runtime.model
       streamChan set_streamChan set_streamStats streamContent] in P.
  rewrite nth_error_app2, Nat.sub_diag in P by lia.
  specialize (P eq_refl eq_refl eq_refl eq_refl).
  cbv zeta in P. destruct P as (M & R & Hl & Q).
  match goal with
  | |- context [runtime.run env ?w2 ?es] => set (w3 := runtime.run env w2 es) in *
  end.
  cbn [fold_left].
  rewrite (chat_claims.step_return _ _ _ _ Hl R).
  cbn [runtime.perform runtime.streams runtime.model].
  rewrite Q. cbn [runtime.queue runtime.final].
  unfold runtime.dispatch.
  cbn [runtime.model Update stream_chunk llm.chunkError
       StreamChunk.Error StreamChunk.Done StreamChunk.Content].
  cbn [runtime.start app runtime.running runtime.streams runtime.model
       runtime.requests runtime.halted].
  rewrite M. cbn. repeat split.
  eexists. apply (chat_claims.nth_error_replace _ _ _ _ Q).
Qed.

Lemma handleCommand_starts_no_request m text c h :
  snd (handleCommand m text) <> CmdStreamResponse c h.
Proof.
  unfold handleCommand.
  destruct (commands.ParseCommand text) as [cmd|e]; [|discriminate].
  repeat (match goal with
          | |- context [if ?b then _ else _] => destruct b
          | |- context [match ?x with Some _ => _ | None => _ end] =>
              destruct x
          | |- context [match ?x with Ok _ => _ | Err _ => _ end] =>
              destruct x
          end; try discriminate).
Qed.

Lemma update_input_starts_no_request m msg m' c h :
  update_input m msg <> Continue m' (CmdStreamResponse c h).
Proof.
  unfold update_input. destruct (components.Update _ _); discriminate.
Qed.

(** X12. A request is started by nothing but Enter, pressed in a
    model that is not streaming, on a text that is not empty and not
    a command: no command, no other key and no message of a stream
    starts one.  The request carries the client of the model and
    the whole history with the new user message at its end, and the
    model then streams into an empty buffer. *)
Theorem only_enter_starts_a_request
    (m m' : ChatModel) (msg : Msg) (c : llm.OpenAIClient)
    (h : list Message.t) :
  Update m msg = Continue m' (CmdStreamResponse c h) ->
  streaming m = false /\
  (exists k, msg = Lib (tea.Key k) /\ tea.Type_ k = tea.KeyEnter) /\
  c = client m /\
  exists text,
    text <> "" /\ commands.IsCommand text = false /\
    (commands.IsCommand (TrimSpace (components.Value (input m))) = false ->
     text = TrimSpace (components.Value (input m))) /\
    h = append (messages m) (Message.mk "user" text) /\
    m' = session.entered m text.
Proof.
  intros E.
  destruct msg as [[k|wd ht|tag]|ch st|chunk|st|e|cfg]; cbn [Update] in E;
    try discriminate;
    try (exfalso; exact (update_input_starts_no_request _ _ _ _ _ E)).
  - unfold key_msg in E.
    destruct (streaming m) eqn:S.
    { destruct (tea.Type_ k); discriminate. }
    destruct (tea.Type_ k) eqn:T; try discriminate;
      try (exfalso; exact (update_input_starts_no_request _ _ _ _ _ E)).
    + destruct (0 <? slice_len (suggestions m));
        [destruct (commands.at_index _ _)|]; discriminate.
    + destruct (1 <? slice_len (suggestions m)); [discriminate|].
      exfalso; exact (update_input_starts_no_request _ _ _ _ _ E).
    + destruct (1 <? slice_len (suggestions m)); [discriminate|].
      exfalso; exact (update_input_starts_no_request _ _ _ _ _ E).
    + split; [reflexivity|]. split; [exists k; auto|].
      unfold key_enter in E.
      set (typed_text := TrimSpace (components.Value (input m))) in *.
      destruct (String.eqb typed_text "") eqn:N; [discriminate|].
      apply String.eqb_neq in N.
      assert (C : forall t,
                 t <> "" ->
                 (commands.IsCommand typed_text = false -> t = typed_text) ->
                 (if commands.IsCommand t
                  then let (m0, cmd) :=
                         handleCommand
                           (set_selectedSuggestion (set_suggestions m []) 0)
                           t in
                       Continue m0 cmd
                  else Continue (session.entered m t)
                         (CmdStreamResponse (client m)
                            (append (messages m) (Message.mk "user" t))))
                 = Continue m' (CmdStreamResponse c h) ->
                 c = client m /\
                 exists text,
                   text <> "" /\ commands.IsCommand text = false /\
                   (commands.IsCommand typed_text = false ->
                    text = typed_text) /\
                   h = append (messages m) (Message.mk "user" text) /\
                   m' = session.entered m text).
      { intros t Nt Tt Q. destruct (commands.IsCommand t) eqn:It.
        - exfalso.
          pose proof (handleCommand_starts_no_request
                        (set_selectedSuggestion (set_suggestions m []) 0)
                        t c h) as P.
          destruct (handleCommand _ t) as [m0 c0]. cbn [snd] in P.
          inversion Q; subst. congruence.
        - inversion Q; subst. split; [reflexivity|].
          exists t. auto. }
      destruct (commands.IsCommand typed_text) eqn:It.
      * destruct (0 <? slice_len (suggestions m)); cbn [andb] in E.
        -- destruct (commands.at_index _ _) as [d|]; [|discriminate].
           apply (C ("/" ++ CommandDef.Name d)); [discriminate| |exact E].
           discriminate.
        -- apply (C typed_text); auto.
      * cbn [andb] in E. apply (C typed_text); auto.
  - unfold stream_chunk in E.
    destruct (StreamChunk.Error chunk); [discriminate|].
    destruct (StreamChunk.Done chunk); [discriminate|].
    unfold waitForChunk in E. cbn in E.
    destruct (streamChan m); discriminate.
Qed.

(** X13. The names for which [handleCommand] has no case end in the
    error of an unknown command and change neither the history nor
    the client.  Eight of the nineteen commands that
    [AvailableCommands] offers as suggestions are such names, and so
    is [quit], which the help text lists in the place of [exit]. *)
Theorem commands_offered_without_a_case :
  (forall m text cmd,
      commands.ParseCommand text = Ok cmd ->
      menu.is_handled (Command.Name cmd) = false ->
      handleCommand m text =
        after_switch (set_err m (Some (menu.unknown (Command.Name cmd))))
                     text /\
      messages (fst (handleCommand m text)) = messages m /\
      client (fst (handleCommand m text)) = client m /\
      err (fst (handleCommand m text)) =
        Some (menu.unknown (Command.Name cmd)) /\
      snd (handleCommand m text) = CmdNil) /\
  map CommandDef.Name
      (filter (fun d => negb (menu.is_handled (CommandDef.Name d)))
              commands.AvailableCommands) =
    ["save"; "load"; "tokens"; "cost"; "export"; "debug"; "retry"; "edit"] /\
  menu.is_handled "quit" = false /\
  menu.Contains commands.CommandHelp "/quit" = true /\
  menu.Contains commands.CommandHelp "/exit" = false.
Proof.
  split; [|repeat split; vm_compute; reflexivity].
  intros m text cmd HP HN.
  assert (E : handleCommand m text =
              after_switch
                (set_err m (Some (menu.unknown (Command.Name cmd)))) text).
  { unfold handleCommand. rewrite HP.
    unfold menu.is_handled, menu.handled in HN. cbn [existsb] in HN.
    repeat (apply orb_false_iff in HN; destruct HN as [?E HN]).
    rewrite E, E0, E1, E2, E3, E4, E5, E6, E7, E8, E9. reflexivity. }
  rewrite E. repeat split.
Qed.

(** X14. [GetSuggestions] offers commands only for an input that is a
    command: then it offers exactly the entries of
    [AvailableCommands] whose name starts with the text after the
    slash, in lower case, in the order of the table, and all of them
    when nothing follows the slash. *)
Theorem suggestions_are_the_commands_with_the_prefix (input_text : string) :
  let found := commands.GetSuggestions input_text in
  let query := ToLower (TrimPrefix (TrimSpace input_text) "/") in
  (commands.IsCommand input_text = false -> found = []) /\
  (commands.IsCommand input_text = true ->
   found = filter (fun d => HasPrefix (CommandDef.Name d) query)
                  commands.AvailableCommands) /\
  (query = "" -> commands.IsCommand input_text = true ->
   found = commands.AvailableCommands) /\
  (forall d, In d found -> In d commands.AvailableCommands) /\
  slice_len found <= slice_len commands.AvailableCommands.
Proof.
  intros found query. subst found.
  unfold commands.GetSuggestions, commands.IsCommand.
  fold query.
  assert (A : filter (fun d => HasPrefix (CommandDef.Name d) "")
                     commands.AvailableCommands = commands.AvailableCommands).
  { reflexivity. }
  assert (L : forall keep,
             slice_len (filter keep commands.AvailableCommands)
             <= slice_len commands.AvailableCommands).
  { intros keep. unfold slice_len.
    pose proof (filter_length_le keep commands.AvailableCommands). lia. }
  destruct (HasPrefix (TrimSpace input_text) "/"); cbn [negb].
  - destruct (String.eqb query "") eqn:Q.
    + apply String.eqb_eq in Q. rewrite Q, A.
      split; [discriminate|]. split; [reflexivity|].
      split; [reflexivity|]. split; [auto|lia].
    + apply String.eqb_neq in Q.
      split; [discriminate|]. split; [reflexivity|].
      split; [contradiction|]. split; [|apply L].
      intros d I. apply filter_In in I. tauto.
  - split; [reflexivity|]. split; [discriminate|].
    split; [discriminate|]. split; [intros d []|].
    unfold slice_len. cbn. lia.
Qed.

(** X15. [ParseCommand] and [IsCommand] agree on what a command is:
    [ParseCommand] answers that the input is not a command exactly
    when [IsCommand] is false.  For a command it fails only on an
    input with no field after the slash; otherwise the name is the
    first field in lower case and the arguments are the other
    fields, as they were typed. *)
Theorem a_command_is_an_input_with_a_leading_slash (input_text : string) :
  let parts := Fields (TrimPrefix (TrimSpace input_text) "/") in
  (commands.IsCommand input_text = false <->
   commands.ParseCommand input_text = Err "not a command") /\
  (commands.IsCommand input_text = true ->
   match parts with
   | [] => commands.ParseCommand input_text = Err "empty command"
   | p0 :: rest =>
       commands.ParseCommand input_text = Ok (Command.mk (ToLower p0) rest)
   end).
Proof.
  intros parts. subst parts.
  unfold commands.IsCommand, commands.ParseCommand.
  destruct (HasPrefix (TrimSpace input_text) "/"); cbn [negb].
  - split; [|intros _; destruct (Fields _); reflexivity].
    split; [discriminate|]. destruct (Fields _); discriminate.
  - split; [tauto|discriminate].
Qed.

Lemma handleCommand_named m text cmd :
  commands.ParseCommand text = Ok cmd ->
  handleCommand m text =
  match commands.ParseCommand text with
  | Ok c => handleCommand m text
  | Err e => (set_err m (Some e), CmdNil)
  end.
Proof. intros HP. rewrite HP. reflexivity. Qed.

(** X16. [/temp] with one argument that parses to a number neither
    below 0 nor above 2 sets the temperature of the client to that
    number and leaves its model, its key, its address and the
    configuration as they were; it clears the error and appends the
    notice of the new temperature.  A NaN is neither below 0 nor
    above 2: when [ParseFloat] returns one, it becomes the
    temperature of the client. *)
Theorem temp_sets_the_temperature_of_the_client
    (m : ChatModel) (text : string) (cmd : Command.t) (a : string)
    (t : float) :
  commands.ParseCommand text = Ok cmd ->
  Command.Name cmd = "temp" ->
  Command.Args cmd = [a] ->
  ParseFloat a = Some t ->
  (PrimFloat.ltb t 0 = false /\ PrimFloat.ltb 2 t = false) \/
  PrimFloat.is_nan t = true ->
  let m' := fst (handleCommand m text) in
  llm.GetTemperature (client m') = t /\
  client m' = llm.SetTemperature (client m) t /\
  llm.GetModel (client m') = llm.GetModel (client m) /\
  config m' = config m /\
  err m' = None /\
  messages m' =
    append (messages m)
           (Message.mk "system" ("Temperature set to " ++ Sprintf_2f t)) /\
  snd (handleCommand m text) = CmdNil.
Proof.
  intros HP HN HA HF HR m'. subst m'.
  assert (R : PrimFloat.ltb t 0 || PrimFloat.ltb 2 t = false).
  { destruct HR as [[R1 R2]|N].
    - rewrite R1, R2. reflexivity.
    - destruct (nan_compares_false t 0 N) as [R1 _].
      destruct (nan_compares_false t 2 N) as [_ R2].
      rewrite R1, R2. reflexivity. }
  unfold handleCommand. rewrite HP, HN.
  cbn [String.eqb Ascii.eqb Bool.eqb orb andb].
  unfold commands.ValidateArgs, commands.GetFloatArg. rewrite HA.
  cbn [slice_len List.length Z.of_nat Z.ltb Z.leb Z.compare
       Pos.compare Pos.compare_cont Pos.of_succ_nat andb
       commands.at_index Z.to_nat nth_error].
  rewrite HF, R. cbn. repeat split.
Qed.

Lemma copy_loop_skips m after : forall a before,
  forallb (fun x => negb (role_is "assistant" x)) after = true ->
  role_is "assistant" a = true ->
  copy_loop m (rev (before ++ a :: after)) = copy_loop m [a].
Proof.
  induction after as [|x after IH] using rev_ind; intros a before Hf Ha.
  - rewrite rev_app_distr. cbn [rev app copy_loop]. rewrite Ha.
    reflexivity.
  - rewrite forallb_app in Hf. apply andb_true_iff in Hf as [Hf Hx].
    cbn in Hx. rewrite andb_true_r in Hx. apply negb_true_iff in Hx.
    change (a :: after ++ [x])%list with ((a :: after) ++ [x])%list.
    rewrite app_assoc, rev_app_distr. cbn [rev app copy_loop].
    rewrite Hx. apply IH; assumption.
Qed.

Lemma copy_loop_none m ms :
  forallb (fun x => negb (role_is "assistant" x)) ms = true ->
  copy_loop m (rev ms) = m.
Proof.
  induction ms as [|x ms IH] using rev_ind; intros Hf; [reflexivity|].
  rewrite forallb_app in Hf. apply andb_true_iff in Hf as [Hf Hx].
  cbn in Hx. rewrite andb_true_r in Hx. apply negb_true_iff in Hx.
  rewrite rev_app_distr. cbn [rev app copy_loop]. rewrite Hx. exact (IH Hf).
Qed.

(** X17. [/copy] hands the content of the last assistant message of
    the history, and of no other message, to the clipboard.  When
    the clipboard takes it, the error is cleared and a system-role
    notice is appended; when the clipboard fails, the history is
    unchanged and the error says so.  On a history without an
    assistant message [/copy] changes neither the history nor the
    error. *)
Theorem copy_takes_the_last_assistant_message
    (m : ChatModel) (text : string) (cmd : Command.t) :
  commands.ParseCommand text = Ok cmd ->
  Command.Name cmd = "copy" ->
  let m' := fst (handleCommand m text) in
  (forall before a after,
      messages m = (before ++ a :: after)%list ->
      role_is "assistant" a = true ->
      forallb (fun x => negb (role_is "assistant" x)) after = true ->
      match clipboard_WriteAll (Message.Content a) with
      | None => messages m' = append (messages m) menu.copied /\
                err m' = None
      | Some e => messages m' = messages m /\
                  err m' = Some ("failed to copy: " ++ e)
      end) /\
  (forallb (fun x => negb (role_is "assistant" x)) (messages m) = true ->
   messages m' = messages m /\ err m' = err m) /\
  client m' = client m /\
  snd (handleCommand m text) = CmdNil.
Proof.
  intros HP HN m'. subst m'.
  assert (E : handleCommand m text =
              after_switch (copy_loop m (rev (messages m))) text).
  { unfold handleCommand. rewrite HP, HN. reflexivity. }
  rewrite E.
  destruct (chat_claims.after_switch_model
              (copy_loop m (rev (messages m))) text) as (Em & Ee & Ec).
  rewrite Em, Ee, Ec. clear Em Ee Ec.
  split; [|split; [|split]].
  - intros before a after Q Ha Hf.
    rewrite Q, (copy_loop_skips m after a before Hf Ha).
    cbn [copy_loop]. rewrite Ha.
    destruct (clipboard_WriteAll (Message.Content a));
      cbn; rewrite <- Q; split; reflexivity.
  - intros Hf. rewrite (copy_loop_none m _ Hf). split; reflexivity.
  - generalize (rev (messages m)). intros l.
    induction l as [|x l IH]; [reflexivity|].
    cbn [copy_loop]. destruct (role_is "assistant" x); [|exact IH].
    destruct (clipboard_WriteAll _); reflexivity.
  - reflexivity.
Qed.

(** X18. [/system] with at least one argument makes the arguments,
    joined by single spaces, the system prompt of the model and the
    content of a system message at the head of the history: the
    system message that was at the head is replaced, and the other
    messages are kept in their order.  A [/new] after it leaves a
    history of that system message alone, or an empty history when
    the prompt is empty. *)
Theorem system_sets_the_head_of_the_history
    (m : ChatModel) (text : string) (cmd : Command.t) :
  commands.ParseCommand text = Ok cmd ->
  Command.Name cmd = "system" ->
  Command.Args cmd <> [] ->
  let prompt := Join (Command.Args cmd) " " in
  let m' := fst (handleCommand m text) in
  systemPrompt m' = prompt /\
  messages m' =
    Message.mk "system" prompt :: menu.without_system_head (messages m) /\
  err m' = None /\
  config m' = config m /\
  (forall text' cmd',
      commands.ParseCommand text' = Ok cmd' ->
      Command.Name cmd' = "new" \/ Command.Name cmd' = "clear" ->
      messages (fst (handleCommand m' text')) =
        (if String.eqb prompt "" then []
         else [Message.mk "system" prompt])).
Proof.
  intros HP HN HA prompt m'.
  assert (E : handleCommand m text =
              after_switch
                (set_err
                   (set_messages (set_systemPrompt m prompt)
                      (Message.mk "system" prompt
                         :: menu.without_system_head (messages m)))
                   None) text).
  { unfold handleCommand. rewrite HP, HN.
    cbn [String.eqb Ascii.eqb Bool.eqb orb andb].
    unfold commands.ValidateArgs, commands.GetRestAsString.
    destruct (Command.Args cmd) as [|a0 rest] eqn:A; [congruence|].
    assert (L1 : (slice_len (a0 :: rest) <? 1) = false).
    { apply Z.ltb_ge. unfold slice_len. cbn [List.length]. lia. }
    assert (L2 : (slice_len (a0 :: rest) <=? 0) = false).
    { apply Z.leb_gt. unfold slice_len. cbn [List.length]. lia. }
    rewrite L1, L2. cbn [Z.ltb Z.compare andb].
    unfold commands.from_index. cbn [Z.to_nat skipn].
    subst prompt.
    cbn [messages set_systemPrompt].
    destruct (messages m) as [|m0 ms]; [reflexivity|].
    cbn [menu.without_system_head].
    destruct (role_is "system" m0) eqn:R; [|reflexivity].
    unfold role_is in R. apply String.eqb_eq in R. rewrite R. reflexivity. }
  subst m'. rewrite E. cbn [fst]. repeat split.
  intros text' cmd' HP' HN'.
  unfold handleCommand. rewrite HP'.
  destruct HN' as [HN'|HN']; rewrite HN';
    cbn [String.eqb Ascii.eqb Bool.eqb orb andb];
    cbn -[String.eqb]; destruct (String.eqb prompt ""); reflexivity.
Qed.

(** [CmdReload] is returned by the case of [/reload] alone, which
    leaves the model as it is. *)
Lemma handleCommand_reload m text m1 :
  handleCommand m text = (m1, CmdReload) -> m1 = m.
Proof.
  unfold handleCommand.
  destruct (commands.ParseCommand text) as [cmd|e]; [|discriminate].
  repeat (match goal with
          | |- context [if ?b then _ else _] => destruct b
          | |- context [match ?x with Some _ => _ | None => _ end] =>
              destruct x
          | |- context [match ?x with Ok _ => _ | Err _ => _ end] =>
              destruct x
          end; try discriminate).
  intros E. inversion E. reflexivity.
Qed.

Lemma update_input_reload m msg m1 :
  update_input m msg <> Continue m1 CmdReload.
Proof.
  unfold update_input. destruct (components.Update _ _); discriminate.
Qed.

Lemma enter_reload m m1 :
  Update m (Lib (tea.Key enter)) = Continue m1 CmdReload ->
  m1 = set_selectedSuggestion (set_suggestions m []) 0.
Proof.
  cbn [Update]. unfold key_msg. destruct (streaming m); [discriminate|].
  cbn [enter tea.Type_]. unfold key_enter.
  destruct (String.eqb _ ""); [discriminate|].
  match goal with
  | |- match ?c with Some _ => _ | None => _ end = _ -> _ =>
      destruct c as [t|]; [|discriminate]
  end.
  destruct (commands.IsCommand t); [|discriminate].
  destruct (handleCommand _ t) as [m0 c0] eqn:Q.
  intros E. inversion E; subst.
  exact (handleCommand_reload _ _ _ Q).
Qed.

(** X19. When Enter runs [/reload], the configuration is read again
    while the model stays as it is: the command text stays in the
    input and is not added to the input history, and the history of
    messages is unchanged.  When the configuration was read, the
    model holds it, with a client built from it, and the error is
    cleared; when reading failed, the configuration and the client
    are the old ones and the error says that the reload failed. *)
Theorem reload_reads_the_configuration_again
    (env : runtime.Env) (w : runtime.World) (m1 : ChatModel) :
  runtime.halted w = false ->
  runtime.running w = [] ->
  Update (runtime.model w) (Lib (tea.Key enter)) = Continue m1 CmdReload ->
  let w' := runtime.run env w session.asked in
  input (runtime.model w') = input (runtime.model w) /\
  messages (runtime.model w') = messages (runtime.model w) /\
  systemPrompt (runtime.model w') = systemPrompt (runtime.model w) /\
  runtime.running w' = [] /\
  match runtime.disk env with
  | Ok cfg =>
      config (runtime.model w') = cfg /\
      client (runtime.model w') =
        llm.NewOpenAIClient (Config.APIKey cfg) (Config.BaseURL cfg)
          (Config.Model cfg) (Config.Temperature cfg) (Config.MaxTokens cfg) /\
      err (runtime.model w') = None
  | Err e =>
      config (runtime.model w') = config (runtime.model w) /\
      client (runtime.model w') = client (runtime.model w) /\
      err (runtime.model w') = Some ("failed to reload config: " ++ e)
  end.
Proof.
  intros Hh Hr U w'. subst w'.
  pose proof (enter_reload _ _ U) as M. subst m1.
  unfold session.asked. rewrite !chat_claims.run_cons, chat_claims.run_nil.
  assert (W1 : runtime.step env w (runtime.Deliver (tea.Key enter)) =
               runtime.mkWorld
                 (set_selectedSuggestion
                    (set_suggestions (runtime.model w) []) 0)
                 [CmdReload] (runtime.streams w) (runtime.requests w) false).
  { unfold runtime.step, runtime.dispatch. rewrite Hh, U, Hr. reflexivity. }
  rewrite W1. clear W1.
  erewrite chat_claims.step_return; [|reflexivity|reflexivity].
  cbn [runtime.perform].
  destruct (runtime.disk env) as [cfg|e]; cbn; repeat split.
Qed.

End WithLib.

(** X10, at a network that cannot be reached. *)
Lemma failed_request_witness :
  let w := more_samples.typed_hello samples.offline in
  let w' := @runtime.run AsciiLib.lib samples.offline w session.asked in
  messages (runtime.model w') =
    [Message.mk "system" "Be brief"; Message.mk "user" "hello"] /\
  err (runtime.model w') =
    Some "failed to send request: connection refused" /\
  streaming (runtime.model w') = false.
Proof.
  intros w w'.
  assert (N : "hello" <> "") by discriminate.
  pose proof (@failed_request_keeps_the_user_message AsciiLib.lib
                samples.offline w "hello"
                "failed to send request: connection refused"
                eq_refl eq_refl eq_refl eq_refl N eq_refl eq_refl) as P.
  exact (conj (proj1 P) (conj (proj1 (proj2 P)) (proj1 (proj2 (proj2 P))))).
Defined.

(** X11, at a server whose answer breaks off after two fragments. *)
Lemma read_error_witness :
  let w := more_samples.typed_hello more_samples.flaky in
  let w' := @runtime.run AsciiLib.lib more_samples.flaky w
              (session.asked ++
               repeat (runtime.Return 0) 2 ++ [runtime.Return 0]) in
  messages (runtime.model w') =
    [Message.mk "system" "Be brief"; Message.mk "user" "hello"] /\
  err (runtime.model w') = Some "stream read error: connection reset" /\
  streaming (runtime.model w') = false /\
  streamChan (runtime.model w') = None /\
  streamContent (runtime.model w') = "HiHi".
Proof.
  intros w w'.
  assert (N : "hello" <> "") by discriminate.
  pose proof (@read_error_discards_the_partial_reply AsciiLib.lib
                more_samples.flaky w "hello"
                (llm.mkResponse 200 (sse.body_of [samples.hi; samples.hi])
                                (io_failure "connection reset"))
                "connection reset"
                eq_refl eq_refl eq_refl eq_refl N eq_refl eq_refl eq_refl
                eq_refl) as P.
  destruct P as (A & B & C & D & E & _).
  repeat split; assumption.
Defined.

(** X12, at Enter on the text [hello]. *)
Lemma only_enter_witness :
  let m := runtime.model (more_samples.typed_hello samples.offline) in
  @Update AsciiLib.lib m (Lib (tea.Key enter)) =
    Continue (session.entered m "hello")
      (CmdStreamResponse (client m)
         (append (messages m) (Message.mk "user" "hello"))) /\
  streaming m = false.
Proof.
  intros m. split; [reflexivity|].
  exact (proj1 (@only_enter_starts_a_request AsciiLib.lib m
                  (session.entered m "hello") (Lib (tea.Key enter))
                  (client m)
                  (append (messages m) (Message.mk "user" "hello"))
                  eq_refl)).
Defined.

(** X16, at the input [/temp NaN] with a [ParseFloat] that reads it. *)
Lemma temp_witness :
  let m' := fst (@handleCommand SpecialLib.lib (NewChatModel samples.cfg)
                   "/temp NaN") in
  llm.GetTemperature (client m') = PrimFloat.nan /\
  err m' = None /\
  messages m' =
    [Message.mk "system" "Be brief";
     Message.mk "system" "Temperature set to NaN"].
Proof.
  intros m'.
  pose proof (@temp_sets_the_temperature_of_the_client SpecialLib.lib
                (NewChatModel samples.cfg) "/temp NaN"
                (Command.mk "temp" ["NaN"]) "NaN" PrimFloat.nan
                eq_refl eq_refl eq_refl eq_refl (or_intror eq_refl)) as P.
  destruct P as (A & _ & _ & _ & B & C & _).
  repeat split; assumption.
Defined.

(** X17, at a history of one exchange. *)
Lemma copy_witness :
  let m := set_messages (NewChatModel samples.cfg)
                        more_samples.one_exchange in
  let m' := fst (@handleCommand AsciiLib.lib m "/copy") in
  messages m' = (more_samples.one_exchange ++ [menu.copied])%list /\
  err m' = None.
Proof.
  intros m m'.
  pose proof (@copy_takes_the_last_assistant_message AsciiLib.lib m "/copy"
                (Command.mk "copy" []) eq_refl eq_refl) as P.
  exact (proj1 P [Message.mk "system" "Be brief"; Message.mk "user" "hello"]
               (Message.mk "assistant" "Hi") [] eq_refl eq_refl eq_refl).
Defined.

(** X18, at the input [/system Be kind]. *)
Lemma system_witness :
  let m := set_messages (NewChatModel samples.cfg)
                        more_samples.one_exchange in
  let m' := fst (@handleCommand AsciiLib.lib m "/system Be   kind") in
  systemPrompt m' = "Be kind" /\
  messages m' =
    [Message.mk "system" "Be kind"; Message.mk "user" "hello";
     Message.mk "assistant" "Hi"].
Proof.
  intros m m'.
  assert (N : ["Be"; "kind"] <> []) by discriminate.
  pose proof (@system_sets_the_head_of_the_history AsciiLib.lib m
                "/system Be   kind" (Command.mk "system" ["Be"; "kind"])
                eq_refl eq_refl N) as P.
  exact (conj (proj1 P) (proj1 (proj2 P))).
Defined.

(** X19, at a session in which the configuration file was edited. *)
Lemma reload_witness :
  let w := samples.session more_samples.edited samples.cfg
             [samples.key (typed "/reload")] in
  let w' := @runtime.run AsciiLib.lib more_samples.edited w session.asked in
  components.Value (input (runtime.model w')) = "/reload" /\
  messages (runtime.model w') = [Message.mk "system" "Be brief"] /\
  config (runtime.model w') = more_samples.cfg_edited /\
  llm.GetModel (client (runtime.model w')) = "mistral".
Proof.
  intros w w'.
  pose proof (@reload_reads_the_configuration_again AsciiLib.lib
                more_samples.edited w
                (set_selectedSuggestion
                   (set_suggestions (runtime.model w) []) 0)
                eq_refl eq_refl eq_refl) as P.
  destruct P as (A & B & _ & _ & C & D & _).
  subst w'. cbv zeta in A, D.
  split; [rewrite A; reflexivity|]. split; [exact B|].
  split; [exact C|]. rewrite D. reflexivity.
Defined.

End chat_extras.

(* ================================================================== *)
(** * Properties of the input component                                 *)
(* ================================================================== *)

Module input_extras.

Import components browse.

Lemma at_index_some {A} (xs : list A) (j : Z) :
  0 <= j < slice_len xs -> exists x, commands.at_index xs j = Some x.
Proof.
  intros [L U]. unfold commands.at_index.
  destruct (Z.ltb_spec j 0); [lia|].
  destruct (nth_error xs (Z.to_nat j)) as [x|] eqn:E; [eauto|].
  apply nth_error_None in E. unfold slice_len in U. lia.
Qed.

Lemma tidy_snoc h t :
  tidy h = true -> t <> "" -> last h "" <> t \/ h = [] ->
  tidy (h ++ [t]) = true.
Proof.
  intros T N L. apply String.eqb_neq in N.
  induction h as [|a h IH]; [cbn; rewrite N; reflexivity|].
  cbn [tidy] in T. apply andb_true_iff in T as [T T2].
  apply andb_true_iff in T as [Ta Tb].
  destruct h as [|b h].
  - cbn. rewrite Ta, N. cbn.
    destruct L as [L|L]; [|discriminate].
    cbn in L. apply String.eqb_neq in L. rewrite L. reflexivity.
  - cbn [app tidy]. cbn [app tidy] in IH. rewrite Ta, Tb.
    rewrite andb_true_l. apply IH; [exact T2|].
    left. destruct L as [L|L]; [exact L|discriminate].
Qed.

Lemma last_snoc {A} (h : list A) (t d : A) : last (h ++ [t]) d = t.
Proof. apply last_last. Qed.

(** [AddToHistory] on its two paths. *)
Lemma AddToHistory_cases i text :
  (AddToHistory i text = i /\
   (text = "" \/ (history i <> [] /\ last (history i) "" = text))) \/
  (AddToHistory i text =
     mkInput (textarea_ i) (multilineMode i) (history i ++ [text]) (-1) "" /\
   text <> "" /\ (history i = [] \/ last (history i) "" <> text)).
Proof.
  unfold AddToHistory.
  destruct (String.eqb text "") eqn:E; cbn [negb andb].
  - left. apply String.eqb_eq in E. auto.
  - apply String.eqb_neq in E.
    destruct (history i) as [|a h] eqn:Hh.
    + right. cbn. auto.
    + assert (Z0 : (slice_len (a :: h) =? 0) = false).
      { apply Z.eqb_neq. unfold slice_len. cbn [List.length]. lia. }
      rewrite Z0. cbn [orb].
      destruct (String.eqb (last (a :: h) "") text) eqn:L; cbn [negb].
      * left. apply String.eqb_eq in L. split; [reflexivity|].
        right. split; [discriminate|exact L].
      * right. apply String.eqb_neq in L. auto.
Qed.

Section WithLib.
Context `{GoLib}.

Lemma up_first i up :
  KeyMsg_String up = "up" ->
  historyIndex i = -1 ->
  0 < slice_len (history i) ->
  exists i', Update i (tea.Key up) = Some i' /\ shows i 1 i'.
Proof.
  intros Ku Hi Hl. unfold Update. rewrite Ku. cbn [String.eqb Ascii.eqb Bool.eqb andb].
  apply Z.ltb_lt in Hl. rewrite Hl. apply Z.ltb_lt in Hl.
  rewrite Hi. cbn [Z.eqb Pos.eqb Z.add Z.opp Z.pos_sub].
  destruct (Z.leb_spec (slice_len (history i)) 0) as [L|L]; [lia|].
  destruct (at_index_some (history i) (slice_len (history i) - 1 - 0))
    as [x X]; [lia|].
  rewrite X. eexists. split; [reflexivity|].
  unfold shows. cbn. split; [reflexivity|]. split; [reflexivity|].
  split; [reflexivity|].
  rewrite <- X. f_equal. lia.
Qed.

Lemma up_step i0 j i up :
  KeyMsg_String up = "up" ->
  1 <= j <= slice_len (history i0) ->
  shows i0 j i ->
  exists i', Update i (tea.Key up) = Some i' /\
             shows i0 (Z.min (j + 1) (slice_len (history i0))) i'.
Proof.
  intros Ku [J1 J2] (Sh & Sc & Si & Sv).
  unfold Update. rewrite Ku. cbn [String.eqb Ascii.eqb Bool.eqb andb].
  rewrite Sh, Si.
  set (n := slice_len (history i0)) in *.
  destruct (Z.ltb_spec 0 n) as [P|P]; [|lia].
  destruct (Z.eqb_spec (j - 1) (-1)) as [Q|Q]; [lia|].
  set (hi := if n <=? j - 1 + 1 then n - 1 else j - 1 + 1).
  assert (Hhi : hi = Z.min (j + 1) n - 1).
  { subst hi. destruct (Z.leb_spec n (j - 1 + 1)); lia. }
  destruct (at_index_some (history i0) (n - 1 - hi)) as [x X];
    [fold n; lia|].
  rewrite X. eexists. split; [reflexivity|].
  unfold shows. cbn. split; [reflexivity|]. split; [exact Sc|].
  split; [exact Hhi|].
  fold n. rewrite <- X. f_equal. lia.
Qed.

Lemma ups_from n : forall i0 j i up,
  KeyMsg_String up = "up" ->
  1 <= j <= slice_len (history i0) ->
  shows i0 j i ->
  exists i', press i (repeat up n) = Some i' /\
             shows i0 (Z.min (j + Z.of_nat n) (slice_len (history i0))) i'.
Proof.
  induction n as [|n IH]; intros i0 j i up Ku J Sh.
  - exists i. split; [reflexivity|].
    replace (Z.min (j + Z.of_nat 0) (slice_len (history i0))) with j by lia.
    exact Sh.
  - cbn [repeat press].
    destruct (up_step i0 j i up Ku J Sh) as (i1 & U & Sh1).
    rewrite U.
    destruct (IH i0 (Z.min (j + 1) (slice_len (history i0))) i1 up Ku)
      as (i2 & P & Sh2); [lia|exact Sh1|].
    exists i2. split; [exact P|].
    replace (Z.min (j + Z.of_nat (S n)) (slice_len (history i0)))
      with (Z.min (Z.min (j + 1) (slice_len (history i0)) + Z.of_nat n)
                  (slice_len (history i0))) by lia.
    exact Sh2.
Qed.

Lemma down_step i0 j i down :
  KeyMsg_String down = "down" ->
  2 <= j <= slice_len (history i0) ->
  shows i0 j i ->
  exists i', Update i (tea.Key down) = Some i' /\ shows i0 (j - 1) i'.
Proof.
  intros Kd [J1 J2] (Sh & Sc & Si & Sv).
  unfold Update. rewrite Kd. cbn [String.eqb Ascii.eqb Bool.eqb andb].
  rewrite Sh, Si.
  destruct (Z.leb_spec 0 (j - 1)) as [P|P]; [|lia].
  destruct (Z.eqb_spec (j - 1 - 1) (-1)) as [Q|Q]; [lia|].
  destruct (at_index_some (history i0)
              (slice_len (history i0) - 1 - (j - 1 - 1))) as [x X]; [lia|].
  rewrite X. eexists. split; [reflexivity|].
  unfold shows. cbn. split; [reflexivity|]. split; [exact Sc|].
  split; [reflexivity|].
  rewrite <- X. f_equal. lia.
Qed.

Lemma down_last i0 i down :
  KeyMsg_String down = "down" ->
  shows i0 1 i ->
  exists i', Update i (tea.Key down) = Some i' /\
             Value i' = Value i0 /\ historyIndex i' = -1 /\
             history i' = history i0.
Proof.
  intros Kd (Sh & Sc & Si & Sv).
  unfold Update. rewrite Kd. cbn [String.eqb Ascii.eqb Bool.eqb andb].
  rewrite Si. cbn [Z.sub Z.add Z.opp Z.pos_sub Z.leb Z.compare Z.eqb
                   Pos.eqb].
  eexists. split; [reflexivity|]. cbn. auto.
Qed.

Lemma downs_from m : forall i0 i down,
  KeyMsg_String down = "down" ->
  Z.of_nat (S m) <= slice_len (history i0) ->
  shows i0 (Z.of_nat (S m)) i ->
  exists i', press i (repeat down (S m)) = Some i' /\
             Value i' = Value i0 /\ historyIndex i' = -1 /\
             history i' = history i0.
Proof.
  induction m as [|m IH]; intros i0 i down Kd J Sh.
  - cbn [repeat press].
    destruct (down_last i0 i down Kd Sh) as (i1 & U & R).
    rewrite U. exists i1. auto.
  - change (repeat down (S (S m))) with (down :: repeat down (S m)).
    cbn [press].
    destruct (down_step i0 (Z.of_nat (S (S m))) i down Kd) as (i1 & U & Sh1);
      [lia|exact Sh|].
    rewrite U. apply (IH i0 i1 down Kd); [lia|].
    replace (Z.of_nat (S m)) with (Z.of_nat (S (S m)) - 1) by lia.
    exact Sh1.
Qed.

(** X21. Browsing the input history and coming back.  From a
    component that shows no entry, [n] presses of Up show the [n]-th
    most recent entry of the history, or the oldest one once [n]
    exceeds the length of the history; as many presses of Down as
    entries were passed bring back the text that was being typed
    and leave the history as it was.  No index leaves the history
    on the way. *)
Theorem browsing_the_history_and_back
    (i : InputComponent) (up down : tea.KeyMsg) (n : nat) :
  KeyMsg_String up = "up" ->
  KeyMsg_String down = "down" ->
  historyIndex i = -1 ->
  history i <> [] ->
  (1 <= n)%nat ->
  let len := slice_len (history i) in
  let k := Z.min (Z.of_nat n) len in
  exists i1 i2,
    press i (repeat up n) = Some i1 /\
    commands.at_index (history i) (len - k) = Some (Value i1) /\
    historyIndex i1 = k - 1 /\
    press i1 (repeat down (Z.to_nat k)) = Some i2 /\
    Value i2 = Value i /\ historyIndex i2 = -1 /\ history i2 = history i.
Proof.
  intros Ku Kd Hi Hh Hn len k.
  assert (Hl : 0 < len).
  { subst len. unfold slice_len. destruct (history i); [congruence|].
    cbn [List.length]. lia. }
  destruct n as [|n]; [lia|].
  cbn [repeat press].
  destruct (up_first i up Ku Hi Hl) as (i0 & U & Sh0).
  rewrite U.
  destruct (ups_from n i 1 i0 up Ku) as (i1 & P & Sh1); [lia|exact Sh0|].
  fold len in Sh1.
  assert (K : Z.min (1 + Z.of_nat n) len = k) by (subst k; lia).
  rewrite K in Sh1.
  assert (Kk : exists m, k = Z.of_nat (S m)).
  { exists (Z.to_nat (k - 1)). lia. }
  destruct Kk as [m Km].
  destruct (downs_from m i i1 down Kd) as (i2 & D & R);
    [fold len; lia|rewrite <- Km; exact Sh1|].
  exists i1, i2.
  destruct Sh1 as (Sh & Sc & Si & Sv).
  split; [exact P|]. split; [exact Sv|]. split; [exact Si|].
  split; [|exact R].
  rewrite Km, Nat2Z.id. exact D.
Qed.

Lemma add_tidy i text :
  tidy (history i) = true -> tidy (history (AddToHistory i text)) = true.
Proof.
  intros T.
  destruct (AddToHistory_cases i text) as [[E _]|(E & N & L)]; rewrite E;
    [exact T|].
  cbn [history]. apply tidy_snoc; [exact T|exact N|].
  destruct L as [L|L]; [right; exact L|left; exact L].
Qed.

Lemma input_update_history i msg i' :
  Update i msg = Some i' -> history i' = history i.
Proof.
  unfold Update.
  destruct msg as [k|w h|tag];
    try (intros E; inversion E; reflexivity).
  destruct (String.eqb (KeyMsg_String k) "up").
  - destruct (0 <? slice_len (history i));
      [|intros E; inversion E; reflexivity].
    destruct (commands.at_index _ _); [|discriminate].
    intros E; inversion E; reflexivity.
  - destruct (String.eqb (KeyMsg_String k) "down");
      [|intros E; inversion E; reflexivity].
    destruct (0 <=? historyIndex i); [|intros E; inversion E; reflexivity].
    destruct (_ =? -1); [intros E; inversion E; reflexivity|].
    destruct (commands.at_index _ _); [|discriminate].
    intros E; inversion E; reflexivity.
Qed.

Lemma update_input_tidy m msg m' cmd :
  tidy (history (ui.input m)) = true ->
  ui.update_input m msg = ui.Continue m' cmd ->
  tidy (history (ui.input m')) = true.
Proof.
  intros T. unfold ui.update_input.
  destruct (Update (ui.input m) msg) as [i'|] eqn:U; [|discriminate].
  apply input_update_history in U.
  intros E. inversion E; subst m'. clear E.
  repeat match goal with
         | |- context [if ?b then _ else _] => destruct b
         end; cbn; rewrite U; exact T.
Qed.

Lemma after_switch_tidy m text :
  tidy (history (ui.input m)) = true ->
  tidy (history (ui.input (fst (ui.after_switch m text)))) = true.
Proof. intros T. cbn. apply add_tidy. exact T. Qed.

Lemma handleCommand_tidy m text :
  tidy (history (ui.input m)) = true ->
  tidy (history (ui.input (fst (ui.handleCommand m text)))) = true.
Proof.
  intros T. unfold ui.handleCommand.
  destruct (commands.ParseCommand text) as [cmd|e]; [|exact T].
  assert (C : forall m0 b,
             tidy (history (ui.input m0)) = true ->
             tidy (history (ui.input
                              (ui.copy_loop m0 b))) = true).
  { intros m0 b T0. induction b as [|x b IH]; [exact T0|].
    cbn [ui.copy_loop]. destruct (ui.role_is "assistant" x); [|exact IH].
    destruct (clipboard_WriteAll _); exact T0. }
  repeat (match goal with
          | |- context [if ?b then _ else _] => destruct b
          | |- context [match ?x with Some _ => _ | None => _ end] =>
              destruct x
          | |- context [match ?x with Ok _ => _ | Err _ => _ end] =>
              destruct x
          | |- context [match ui.messages ?x with [] => _ | _ :: _ => _ end]
            => destruct (ui.messages x)
          end;
          first [exact T
                | apply after_switch_tidy;
                  first [exact T | apply C; exact T | unfold ui.delete_case]
                | idtac]).
Qed.

Lemma update_tidy m msg m' cmd :
  tidy (history (ui.input m)) = true ->
  ui.Update m msg = ui.Continue m' cmd ->
  tidy (history (ui.input m')) = true.
Proof.
  intros T E.
  destruct msg as [[k|w h|tag]|ch st|chunk|st|e|cfg]; cbn [ui.Update] in E;
    try (inversion E; subst; exact T);
    try (refine (update_input_tidy _ _ _ _ _ E); exact T).
  - unfold ui.key_msg in E. destruct (ui.streaming m).
    { destruct (tea.Type_ k); inversion E; subst; exact T. }
    destruct (tea.Type_ k);
      try (inversion E; subst; exact T);
      try (refine (update_input_tidy _ _ _ _ _ E); exact T).
    + destruct (0 <? slice_len (ui.suggestions m));
        [destruct (commands.at_index _ _)|];
        inversion E; subst; exact T.
    + destruct (1 <? slice_len (ui.suggestions m));
        [|refine (update_input_tidy _ _ _ _ _ E); exact T].
      inversion E; subst. clear E. cbn. destruct (_ <? 0); exact T.
    + destruct (1 <? slice_len (ui.suggestions m));
        [|refine (update_input_tidy _ _ _ _ _ E); exact T].
      inversion E; subst. clear E. cbn. destruct (_ <=? _); exact T.
    + unfold ui.key_enter in E.
      destruct (String.eqb _ ""); [inversion E; subst; exact T|].
      match type of E with
      | match ?c with Some _ => _ | None => _ end = _ =>
          destruct c as [t|]; [|discriminate]
      end.
      destruct (commands.IsCommand t).
      * pose proof (handleCommand_tidy
                      (ui.set_selectedSuggestion (ui.set_suggestions m []) 0)
                      t T) as P.
        destruct (ui.handleCommand _ t) as [m0 c0].
        inversion E; subst. exact P.
      * inversion E; subst. clear E. cbn. apply add_tidy. exact T.
  - unfold ui.stream_chunk in E.
    destruct (StreamChunk.Error chunk); [inversion E; subst; exact T|].
    destruct (StreamChunk.Done chunk); inversion E; subst; clear E.
    + cbn. destruct (String.eqb (ui.streamContent m) ""); exact T.
    + exact T.
  - inversion E; subst. clear E.
    cbn. destruct (String.eqb (ui.streamContent m) ""); exact T.
Qed.

(** X22. The input history holds no empty entry and no two equal
    entries in a row: [AddToHistory] keeps a history of that kind
    so, the entry it adds is the last one, and adding the same text
    twice is adding it once.  Every history reached in a session is
    of that kind. *)
Theorem the_input_history_has_no_blank_and_no_repeat :
  (forall i text,
      tidy (history i) = true ->
      tidy (history (AddToHistory i text)) = true) /\
  (forall i text,
      text <> "" -> last (history (AddToHistory i text)) "" = text) /\
  (forall i, AddToHistory i "" = i) /\
  (forall i text,
      AddToHistory (AddToHistory i text) text = AddToHistory i text) /\
  (forall env cfg es,
      tidy (history (ui.input
                       (runtime.model
                          (runtime.run env (runtime.boot cfg) es)))) = true).
Proof.
  split; [exact add_tidy|]. split; [|split; [|split]].
  - intros i text N.
    destruct (AddToHistory_cases i text) as [[E [C|[_ C]]]|(E & _ & _)];
      rewrite E; [congruence|exact C|].
    cbn [history]. apply last_last.
  - intros i. destruct (AddToHistory_cases i "") as [[E _]|(_ & N & _)];
      [exact E|congruence].
  - intros i text.
    destruct (AddToHistory_cases i text) as [[E _]|(E & N & _)];
      rewrite E; [exact E|].
    destruct (AddToHistory_cases
                (mkInput (textarea_ i) (multilineMode i)
                         (history i ++ [text]) (-1) "") text)
      as [[E2 _]|(_ & _ & [C|C])]; [exact E2| |].
    + cbn [history] in C. destruct (history i); discriminate.
    + cbn [history] in C. rewrite last_last in C. congruence.
  - intros env cfg es.
    apply (chat_extras.session_invariant
             (fun m => tidy (history (ui.input m)) = true));
      [|reflexivity].
    intros m msg m' cmd T E. exact (update_tidy _ _ _ _ T E).
Qed.

End WithLib.

(** X21, at two presses of Up in a history of three entries. *)
Lemma browsing_witness :
  exists i1 i2,
    @press AsciiLib.lib drafting [key_up; key_up] = Some i1 /\
    Value i1 = "two" /\
    @press AsciiLib.lib i1 [key_down; key_down] = Some i2 /\
    Value i2 = "draft" /\ historyIndex i2 = -1.
Proof.
  assert (N : history drafting <> []) by discriminate.
  assert (L : (1 <= 2)%nat) by lia.
  destruct (@browsing_the_history_and_back AsciiLib.lib drafting
              key_up key_down 2 eq_refl eq_refl eq_refl N L)
    as (i1 & i2 & P & V & _ & D & R & Q & _).
  exists i1, i2. split; [exact P|].
  split; [inversion V; reflexivity|]. split; [exact D|]. auto.
Defined.

End input_extras.

(* ================================================================== *)
(** * Properties of the configuration and of the start of the program   *)
(* ================================================================== *)

Module config_extras.

Import config.

Lemma read_line_lines s : forall cur,
  match read_line cur s with
  | Some (l, rest) =>
      fst (ReadBytes_all cur s) = l :: fst (ReadBytes_all "" rest)
  | None => fst (ReadBytes_all cur s) = []
  end.
Proof.
  induction s as [|x s IH]; intros cur; [reflexivity|].
  cbn [read_line ReadBytes_all].
  destruct (Ascii.eqb x newline).
  - destruct (ReadBytes_all "" s) as [ls tl]. reflexivity.
  - apply IH.
Qed.

Lemma bind_ok {A B} (m : IO A) (k : A -> IO B) s a s' :
  m s = (Ok a, s') -> bind m k s = k a s'.
Proof. intros E. unfold bind. rewrite E. reflexivity. Qed.

Lemma bind_err {A B} (m : IO A) (k : A -> IO B) s e s' :
  m s = (Err e, s') -> bind m k s = (Err e, s').
Proof. intros E. unfold bind. rewrite E. reflexivity. Qed.

Lemma Print_ok text s :
  exists s', Print text s = (Ok tt, s') /\ same_input s s'.
Proof. eexists. split; [reflexivity|]. repeat split. Qed.

Lemma read_line_more a : forall cur b l rest,
  read_line cur a = Some (l, rest) ->
  read_line cur (a ++ b) = Some (l, (rest ++ b)%string).
Proof.
  induction a as [|x a IH]; intros cur b l rest R; [discriminate|].
  cbn [read_line String.append] in *.
  destruct (Ascii.eqb x newline).
  - inversion R; subst. reflexivity.
  - apply IH. exact R.
Qed.

Lemma read_line_split a : forall cur l rest,
  read_line cur a = Some (l, rest) -> (cur ++ a)%string = (l ++ rest)%string.
Proof.
  induction a as [|x a IH]; intros cur l rest R; [discriminate|].
  cbn [read_line] in R.
  destruct (Ascii.eqb x newline).
  - inversion R; subst. rewrite sse_facts.append_assoc. reflexivity.
  - rewrite <- (IH _ _ _ R), sse_facts.append_assoc. reflexivity.
Qed.

(** [ReadString] hands out the first line of the bytes to come, and
    what it read past the line stays in its buffer. *)
Lemma read_through_spec reads : forall buffered,
  match read_line "" (buffered ++ all_bytes reads) with
  | Some (line, rest) =>
      exists buf' reads' k,
        read_through buffered reads = (Some line, buf', reads') /\
        (buf' ++ all_bytes reads')%string = rest /\
        reads' = skipn k reads
  | None => read_through buffered reads = (None, "", [])
  end.
Proof.
  induction reads as [|c rs IH]; intros buffered.
  - cbn [all_bytes read_through]. rewrite chat_claims.append_nil_r.
    destruct (read_line "" buffered) as [[l rest]|]; [|reflexivity].
    exists rest, [], 0%nat. rewrite chat_claims.append_nil_r.
    repeat split.
  - cbn [all_bytes read_through].
    destruct (read_line "" buffered) as [[l rest]|] eqn:R.
    + rewrite (read_line_more _ _ (c ++ all_bytes rs) _ _ R).
      exists rest, (c :: rs), 0%nat. repeat split.
    + specialize (IH (buffered ++ c)%string).
      rewrite sse_facts.append_assoc in IH.
      destruct (read_line "" (buffered ++ c ++ all_bytes rs))
        as [[l rest]|]; [|exact IH].
      destruct IH as (buf' & reads' & k & E & B & K).
      exists buf', reads', (S k). repeat split; assumption.
Qed.

Section WithLib.
Context `{GoLib} `{GoMore}.

Lemma prompt_line p d reader s l ls :
  fst (ReadBytes_all "" (pending reader s)) = l :: ls ->
  exists reader' s' k,
    promptWithDefault reader p d s = (Ok (reply_or d l, reader'), s') /\
    pending reader s = (l ++ pending reader' s')%string /\
    fst (ReadBytes_all "" (pending reader' s')) = ls /\
    stdin s' = skipn k (stdin s) /\
    stdin_end s' = stdin_end s /\
    written s' = written s.
Proof.
  intros L. unfold promptWithDefault, bind, Print, ReadString.
  cbn [stdin stdin_end stdout written].
  unfold pending in *.
  pose proof (read_line_lines (buffered reader ++ all_bytes (stdin s)) "")
    as R.
  pose proof (read_through_spec (stdin s) (buffered reader)) as T.
  destruct (read_line "" (buffered reader ++ all_bytes (stdin s)))
    as [[l' rest]|] eqn:Q.
  - rewrite L in R. inversion R; subst.
    destruct T as (buf' & reads' & k & E & B & K).
    rewrite E. cbn [fst snd].
    exists (mkReader buf'), (mkSys (skipn k (stdin s)) (stdin_end s)
               (stdout s ++ (p ++ " [" ++ d ++ "]: ")) (written s)), k.
    cbn [buffered stdin stdin_end written].
    split.
    + unfold reply_or, ret. rewrite K.
      destruct (String.eqb (TrimSpace l') ""); reflexivity.
    + apply read_line_split in Q. cbn [String.append] in Q.
      rewrite K in B. rewrite B.
      split; [exact Q|]. repeat split.
  - rewrite L in R. discriminate.
Qed.

Lemma prompt_end p d reader s :
  fst (ReadBytes_all "" (pending reader s)) = [] ->
  exists s', promptWithDefault reader p d s
             = (Err (error_text (stdin_end s)), s') /\
             written s' = written s /\ stdin s' = [].
Proof.
  intros L. unfold promptWithDefault, bind, Print, ReadString.
  cbn [stdin stdin_end stdout written].
  unfold pending in *.
  pose proof (read_line_lines (buffered reader ++ all_bytes (stdin s)) "")
    as R.
  pose proof (read_through_spec (stdin s) (buffered reader)) as T.
  destruct (read_line "" (buffered reader ++ all_bytes (stdin s)))
    as [[l' rest]|] eqn:Q.
  - rewrite L in R. discriminate.
  - rewrite T. eexists. repeat split.
Qed.

(** A value that is parsed, with a notice printed when it does not
    parse. *)
Lemma parsed_or_default {A} (parsed : option A) (d : A) (notice : string) s :
  exists s',
    match parsed with
    | Some v => ret v
    | None => bind (Print notice) (fun _ => ret d)
    end s =
    (Ok match parsed with Some v => v | None => d end, s') /\
    same_input s s'.
Proof.
  destruct parsed as [v|]; eexists; (split; [reflexivity|]); repeat split.
Qed.

(** The setup on the complete lines standard input has to deliver. *)
Lemma setup_on_the_lines_to_come (s : Sys) :
  let out := InteractiveSetup s in
  match lines s with
  | l1 :: l2 :: l3 :: l4 :: l5 :: l6 :: _ =>
      fst out = Ok (answered l1 l2 l3 l4 l5 l6) /\
      written (snd out) = written s /\
      exists lost k,
        all_bytes (stdin s) =
          (l1 ++ l2 ++ l3 ++ l4 ++ l5 ++ l6 ++ lost
              ++ all_bytes (stdin (snd out)))%string /\
        stdin (snd out) = skipn k (stdin s)
  | _ =>
      fst out = Err (error_text (stdin_end s)) /\
      written (snd out) = written s /\
      stdin (snd out) = []
  end.
Proof.
  intros out. subst out. unfold InteractiveSetup.
  destruct (Print_ok ("Welcome to Chat TUI!" ++ nl) s)
    as (s1 & E1 & A1 & B1 & C1).
  rewrite (bind_ok _ _ _ _ _ E1).
  destruct (Print_ok ("No configuration file found. Let's set one up."
                        ++ nl ++ nl) s1) as (s2 & E2 & A2 & B2 & C2).
  rewrite (bind_ok _ _ _ _ _ E2).
  cbv zeta.
  assert (L0 : fst (ReadBytes_all "" (pending NewReader s2)) = lines s).
  { unfold pending, lines. rewrite A2, A1. reflexivity. }
  assert (S0 : all_bytes (stdin s) = pending NewReader s2).
  { unfold pending. rewrite A2, A1. reflexivity. }
  assert (K0 : stdin s2 = stdin s) by congruence.
  assert (W0 : written s2 = written s) by congruence.
  assert (D0 : stdin_end s2 = stdin_end s) by congruence.
  clear E1 E2 A1 A2 B1 B2 C1 C2 s1.
  destruct (lines s) as [|l1 ls1].
  { destruct (prompt_end "API Key" (Config.APIKey defaultConfig)
                NewReader s2 L0) as (s' & E & Z & K).
    rewrite (bind_err _ _ _ _ _ E). cbn [fst snd].
    split; [congruence|split; [congruence|exact K]]. }
  destruct (prompt_line "API Key" (Config.APIKey defaultConfig)
              NewReader s2 _ _ L0)
    as (r1 & t1 & n1 & E1 & P1 & L1 & K1 & Y1 & Z1).
  rewrite (bind_ok _ _ _ _ _ E1). cbn [fst snd]. clear E1 L0.
  destruct ls1 as [|l2 ls2].
  { destruct (prompt_end "Base URL" (Config.BaseURL defaultConfig)
                r1 t1 L1) as (s' & E & Z & K).
    rewrite (bind_err _ _ _ _ _ E). cbn [fst snd].
    split; [congruence|split; [congruence|exact K]]. }
  destruct (prompt_line "Base URL" (Config.BaseURL defaultConfig)
              r1 t1 _ _ L1)
    as (r2 & t2 & n2 & E2 & P2 & L2 & K2 & Y2 & Z2).
  rewrite (bind_ok _ _ _ _ _ E2). cbn [fst snd]. clear E2 L1.
  destruct ls2 as [|l3 ls3].
  { destruct (prompt_end "Model" (Config.Model defaultConfig)
                r2 t2 L2) as (s' & E & Z & K).
    rewrite (bind_err _ _ _ _ _ E). cbn [fst snd].
    split; [congruence|split; [congruence|exact K]]. }
  destruct (prompt_line "Model" (Config.Model defaultConfig)
              r2 t2 _ _ L2)
    as (r3 & t3 & n3 & E3 & P3 & L3 & K3 & Y3 & Z3).
  rewrite (bind_ok _ _ _ _ _ E3). cbn [fst snd]. clear E3 L2.
  destruct ls3 as [|l4 ls4].
  { destruct (prompt_end "Temperature (0.0-1.0)"
                (Sprintf_1f (Config.Temperature defaultConfig))
                r3 t3 L3) as (s' & E & Z & K).
    rewrite (bind_err _ _ _ _ _ E). cbn [fst snd].
    split; [congruence|split; [congruence|exact K]]. }
  destruct (prompt_line "Temperature (0.0-1.0)"
              (Sprintf_1f (Config.Temperature defaultConfig))
              r3 t3 _ _ L3)
    as (r4 & t4 & n4 & E4 & P4 & L4 & K4 & Y4 & Z4).
  rewrite (bind_ok _ _ _ _ _ E4). cbn [fst snd]. clear E4 L3.
  match goal with
  | |- context [bind (match ?parsed with Some _ => _ | None => _ end) ?k ?s0]
    => destruct (parsed_or_default parsed
                   (Config.Temperature defaultConfig)
                   ("Invalid temperature, using default: "
                      ++ Sprintf_1f (Config.Temperature defaultConfig) ++ nl)
                   s0) as (u4 & F4 & A4 & B4 & C4)
  end.
  rewrite (bind_ok _ _ _ _ _ F4). clear F4.
  assert (L4' : fst (ReadBytes_all "" (pending r4 u4)) = ls4).
  { unfold pending in *. rewrite A4. exact L4. }
  assert (P4' : pending r4 u4 = pending r4 t4).
  { unfold pending. rewrite A4. reflexivity. }
  destruct ls4 as [|l5 ls5].
  { destruct (prompt_end "Max Tokens"
                (itoa (Config.MaxTokens defaultConfig))
                r4 u4 L4') as (s' & E & Z & K).
    rewrite (bind_err _ _ _ _ _ E). cbn [fst snd].
    split; [congruence|split; [congruence|exact K]]. }
  destruct (prompt_line "Max Tokens"
              (itoa (Config.MaxTokens defaultConfig))
              r4 u4 _ _ L4')
    as (r5 & t5 & n5 & E5 & P5 & L5 & K5 & Y5 & Z5).
  rewrite (bind_ok _ _ _ _ _ E5). cbn [fst snd]. clear E5 L4'.
  match goal with
  | |- context [bind (match ?parsed with Some _ => _ | None => _ end) ?k ?s0]
    => destruct (parsed_or_default parsed
                   (Config.MaxTokens defaultConfig)
                   ("Invalid max tokens, using default: "
                      ++ itoa (Config.MaxTokens defaultConfig) ++ nl)
                   s0) as (u5 & F5 & A5 & B5 & C5)
  end.
  rewrite (bind_ok _ _ _ _ _ F5). clear F5.
  assert (L5' : fst (ReadBytes_all "" (pending r5 u5)) = ls5).
  { unfold pending in *. rewrite A5. exact L5. }
  assert (P5' : pending r5 u5 = pending r5 t5).
  { unfold pending. rewrite A5. reflexivity. }
  destruct ls5 as [|l6 ls6].
  { destruct (prompt_end "System Prompt"
                (Config.SystemPrompt defaultConfig)
                r5 u5 L5') as (s' & E & Z & K).
    rewrite (bind_err _ _ _ _ _ E). cbn [fst snd].
    split; [congruence|split; [congruence|exact K]]. }
  destruct (prompt_line "System Prompt"
              (Config.SystemPrompt defaultConfig)
              r5 u5 _ _ L5')
    as (r6 & t6 & n6 & E6 & P6 & L6 & K6 & Y6 & Z6).
  rewrite (bind_ok _ _ _ _ _ E6). cbn [fst snd ret]. clear E6 L5'.
  split; [reflexivity|]. split; [congruence|].
  exists (buffered r6), (n1 + (n2 + (n3 + (n4 + (n5 + n6)))))%nat.
  split.
  - rewrite S0, P1, P2, P3, P4, <- P4', P5, <- P5', P6. reflexivity.
  - rewrite K6, A5, K5, A4, K4, K3, K2, K1, K0.
    rewrite !skipn_skipn. f_equal. lia.
Qed.

Lemma keeps_bind {A B} (m : IO A) (k : A -> IO B) :
  keeps_files m -> (forall a, keeps_files (k a)) -> keeps_files (bind m k).
Proof.
  intros Km Kk s. unfold bind. specialize (Km s).
  destruct (m s) as [[a|e] s']; cbn [snd] in *; [|exact Km].
  rewrite (Kk a s'). exact Km.
Qed.

Lemma keeps_ret {A} (a : A) : keeps_files (ret a).
Proof. intros s. reflexivity. Qed.

Lemma keeps_Print text : keeps_files (Print text).
Proof. intros s. reflexivity. Qed.

Lemma keeps_ReadString reader : keeps_files (ReadString reader).
Proof.
  intros s. unfold ReadString.
  destruct (read_through (buffered reader) (stdin s)) as [[[l|] rest] reads];
    reflexivity.
Qed.

Lemma keeps_prompt reader p d : keeps_files (promptWithDefault reader p d).
Proof.
  unfold promptWithDefault.
  apply keeps_bind; [apply keeps_Print|]. intros _.
  apply keeps_bind; [apply keeps_ReadString|]. intros input.
  cbv zeta. destruct (String.eqb _ ""); apply keeps_ret.
Qed.

Lemma keeps_setup : keeps_files InteractiveSetup.
Proof.
  unfold InteractiveSetup.
  repeat first
    [ apply keeps_ret
    | apply keeps_Print
    | apply keeps_prompt
    | apply keeps_bind; [|intros ?]
    | match goal with
      | |- keeps_files (match ?x with Some _ => _ | None => _ end) =>
          destruct x
      end ].
Qed.

Lemma drained_bind {A B} (m : IO A) (k : A -> IO B) :
  keeps_drained m -> (forall a, keeps_drained (k a)) ->
  keeps_drained (bind m k).
Proof.
  intros Km Kk s D. unfold bind. specialize (Km s D).
  destruct (m s) as [[a|e] s']; cbn [snd] in *; [|exact Km].
  apply (Kk a s'). exact Km.
Qed.

Lemma drained_ret {A} (a : A) : keeps_drained (ret a).
Proof. intros s D. exact D. Qed.

Lemma drained_Print text : keeps_drained (Print text).
Proof. intros s D. exact D. Qed.

Lemma read_through_drained buffered :
  snd (read_through buffered []) = [].
Proof.
  cbn [read_through]. destruct (read_line "" buffered) as [[l rest]|];
    reflexivity.
Qed.

Lemma drained_ReadString reader : keeps_drained (ReadString reader).
Proof.
  intros s D. unfold ReadString. rewrite D.
  pose proof (read_through_drained (buffered reader)) as R.
  destruct (read_through (buffered reader) []) as [[[l|] rest] reads];
    cbn [snd] in *; exact R.
Qed.

Lemma drained_prompt reader p d :
  keeps_drained (promptWithDefault reader p d).
Proof.
  unfold promptWithDefault.
  apply drained_bind; [apply drained_Print|]. intros _.
  apply drained_bind; [apply drained_ReadString|]. intros input.
  cbv zeta. destruct (String.eqb _ ""); apply drained_ret.
Qed.

Ltac drained :=
  repeat first
    [ apply drained_ret
    | apply drained_Print
    | apply drained_prompt
    | apply drained_bind; [|intros ?]
    | match goal with
      | |- keeps_drained (match ?x with Some _ => _ | None => _ end) =>
          destruct x
      end ].

(** The first read of a reader takes all that the read delivers. *)
Lemma first_prompt_of_one_read p d s text :
  stdin s = [text] ->
  stdin (snd (promptWithDefault NewReader p d s)) = [].
Proof.
  intros S. unfold promptWithDefault, bind, Print, ReadString.
  cbn [stdin stdin_end stdout written buffered NewReader]. rewrite S.
  change (read_through "" [text]) with (read_through text []).
  pose proof (read_through_drained text) as R.
  destruct (read_through text []) as [[[l|] rest] reads];
    cbn [snd fst] in *; [|exact R].
  unfold ret. destruct (String.eqb _ ""); exact R.
Qed.

(** A file delivered in one read: the reader takes it whole, and
    nothing is left when the setup returns. *)
Lemma setup_on_one_read s text :
  stdin s = [text] -> stdin (snd (InteractiveSetup s)) = [].
Proof.
  intros S. unfold InteractiveSetup.
  unfold bind at 1. cbn [Print]. unfold bind at 1. cbn [Print]. cbv zeta.
  match goal with
  | |- context [bind (promptWithDefault NewReader ?p ?d) ?k ?s0] =>
      pose proof (first_prompt_of_one_read p d s0 text S) as F;
      assert (K : forall a, keeps_drained (k a)) by (intros a; cbv beta; drained);
      unfold bind at 1;
      destruct (promptWithDefault NewReader p d s0) as [[a|e] s1];
      cbn [snd] in F; [apply (K a s1 F)|exact F]
  end.
Qed.

(** A read that delivers one complete line is handed out as it is,
    and the buffer is empty after it. *)
Lemma read_through_one_line chunk reads :
  one_line_read chunk = true ->
  read_through "" (chunk :: reads) = (Some chunk, "", reads).
Proof.
  unfold one_line_read. intros O. cbn [read_through read_line].
  cbn [String.append].
  destruct (read_line "" chunk) as [[l rest]|] eqn:R; [|discriminate].
  apply String.eqb_eq in O. subst rest.
  pose proof (read_line_split _ _ _ _ R) as S. cbn [String.append] in S.
  rewrite chat_claims.append_nil_r in S. subst l.
  destruct reads; cbn [read_through]; rewrite R; reflexivity.
Qed.

Lemma prompt_of_a_terminal p d s chunk reads :
  stdin s = chunk :: reads -> one_line_read chunk = true ->
  exists s',
    promptWithDefault NewReader p d s
      = (Ok (reply_or d chunk, NewReader), s') /\
    stdin s' = reads.
Proof.
  intros S O. unfold promptWithDefault, bind, Print, ReadString.
  cbn [stdin stdin_end stdout written buffered NewReader]. rewrite S.
  rewrite (read_through_one_line _ _ O). cbn [fst snd].
  unfold reply_or, ret.
  destruct (String.eqb (TrimSpace chunk) ""); eexists; split; reflexivity.
Qed.

(** One prompt of the setup, on a read that is one line. *)
Ltac term_ask :=
  match goal with
  | |- context [bind (promptWithDefault NewReader ?p ?d) ?k ?s0] =>
      let s' := fresh "s" in
      let E := fresh "E" in
      let T := fresh "T" in
      edestruct (prompt_of_a_terminal p d s0) as (s' & E & T);
      [eassumption|eassumption|];
      rewrite (bind_ok _ _ _ _ _ E); cbn [fst snd]; clear E
  end.

(** A terminal delivers a line for each read: the reader never holds
    more than the line it hands out, and what was typed after the
    sixth line is left to be read. *)
Lemma setup_on_a_terminal s c1 c2 c3 c4 c5 c6 reads :
  stdin s = c1 :: c2 :: c3 :: c4 :: c5 :: c6 :: reads ->
  forallb one_line_read [c1; c2; c3; c4; c5; c6] = true ->
  exists s',
    InteractiveSetup s = (Ok (answered c1 c2 c3 c4 c5 c6), s') /\
    stdin s' = reads.
Proof.
  intros S O. cbn [forallb] in O.
  repeat (apply andb_true_iff in O; destruct O as [? O]).
  unfold InteractiveSetup.
  destruct (Print_ok ("Welcome to Chat TUI!" ++ nl) s)
    as (s1 & E1 & A1 & _ & _).
  rewrite (bind_ok _ _ _ _ _ E1). clear E1.
  destruct (Print_ok ("No configuration file found. Let's set one up."
                        ++ nl ++ nl) s1) as (s2 & E2 & A2 & _ & _).
  rewrite (bind_ok _ _ _ _ _ E2). clear E2. cbv zeta.
  rewrite <- A1, <- A2 in S.
  term_ask. term_ask. term_ask. term_ask.
  match goal with
  | |- context [bind (match ?parsed with Some _ => _ | None => _ end) ?k ?s0]
    => destruct (parsed_or_default parsed
                   (Config.Temperature defaultConfig)
                   ("Invalid temperature, using default: "
                      ++ Sprintf_1f (Config.Temperature defaultConfig) ++ nl)
                   s0) as (u4 & F4 & A4 & _ & _);
       rewrite (bind_ok _ _ _ _ _ F4); clear F4;
       match goal with
       | T : stdin s0 = _ |- _ => rewrite <- A4 in T
       end
  end.
  term_ask.
  match goal with
  | |- context [bind (match ?parsed with Some _ => _ | None => _ end) ?k ?s0]
    => destruct (parsed_or_default parsed
                   (Config.MaxTokens defaultConfig)
                   ("Invalid max tokens, using default: "
                      ++ itoa (Config.MaxTokens defaultConfig) ++ nl)
                   s0) as (u5 & F5 & A5 & _ & _);
       rewrite (bind_ok _ _ _ _ _ F5); clear F5;
       match goal with
       | T : stdin s0 = _ |- _ => rewrite <- A5 in T
       end
  end.
  term_ask.
  unfold ret. eexists. split; [reflexivity|assumption].
Qed.

(** X23. [InteractiveSetup] asks six questions and succeeds exactly
    when standard input has six complete lines to deliver.  Each
    text field is the trimmed line, or the default when the line is
    blank; the temperature and the token limit are the numbers the
    lines parse to, whatever their size, or the defaults when they
    do not parse; the settings of the interface and of debugging are
    the defaults.  With fewer than six complete lines the setup
    fails with the error the input ends with, and an unfinished last
    line is not used.  Nothing is written.  The setup reads through
    a buffered reader that is dropped when it returns: what standard
    input has left to deliver afterwards are the reads the reader
    did not make, and the bytes it read past the sixth line are
    lost.  From a terminal, which delivers a line for each read,
    nothing is lost; from a file delivered in one read, everything
    after the sixth line is. *)
Theorem interactive_setup_reads_six_lines (s : Sys) :
  let out := InteractiveSetup s in
  match lines s with
  | l1 :: l2 :: l3 :: l4 :: l5 :: l6 :: _ =>
      fst out = Ok (answered l1 l2 l3 l4 l5 l6) /\
      written (snd out) = written s /\
      exists lost k,
        all_bytes (stdin s) =
          (l1 ++ l2 ++ l3 ++ l4 ++ l5 ++ l6 ++ lost
              ++ all_bytes (stdin (snd out)))%string /\
        stdin (snd out) = skipn k (stdin s)
  | _ =>
      fst out = Err (error_text (stdin_end s)) /\
      written (snd out) = written s /\
      stdin (snd out) = []
  end /\
  (forall c1 c2 c3 c4 c5 c6 reads,
      stdin s = c1 :: c2 :: c3 :: c4 :: c5 :: c6 :: reads ->
      forallb one_line_read [c1; c2; c3; c4; c5; c6] = true ->
      fst out = Ok (answered c1 c2 c3 c4 c5 c6) /\
      stdin (snd out) = reads) /\
  (forall text, stdin s = [text] -> stdin (snd out) = []).
Proof.
  intros out. subst out.
  split; [exact (setup_on_the_lines_to_come s)|].
  split; [|apply setup_on_one_read].
  intros c1 c2 c3 c4 c5 c6 reads S O.
  destruct (setup_on_a_terminal s c1 c2 c3 c4 c5 c6 reads S O)
    as (s' & E & R).
  rewrite E. split; [reflexivity|exact R].
Qed.

(** X24. The key of the environment is returned and never saved.
    When [OPENAI_API_KEY] is not empty, the configuration [Load]
    returns holds it as its key, with or without a configuration
    file.  Without a configuration file the only file written is
    [.chat-tui.yaml], with the text of the configuration of the
    interactive setup, whose key is the one typed or the default;
    with a configuration file nothing is written and nothing is
    read from standard input; a failed [Load] writes nothing. *)
Theorem the_key_of_the_environment_is_not_saved (host : Host) (s : Sys) :
  let out := Load host s in
  (forall cfg,
      fst out = Ok cfg -> OPENAI_API_KEY host <> "" ->
      Config.APIKey cfg = OPENAI_API_KEY host) /\
  (ReadInConfig host <> ConfigFileNotFound ->
   written (snd out) = written s /\ stdin (snd out) = stdin s) /\
  (forall cfg,
      ReadInConfig host = ConfigFileNotFound -> fst out = Ok cfg ->
      exists typed,
        fst (InteractiveSetup s) = Ok typed /\
        written (snd out) =
          (written s ++ [(".chat-tui.yaml", config_text typed)])%list /\
        cfg = key_of_environment host typed) /\
  (forall e, fst out = Err e -> written (snd out) = written s).
Proof.
  intros out. subst out. unfold Load.
  assert (K : forall cfg, OPENAI_API_KEY host <> "" ->
              Config.APIKey (key_of_environment host cfg)
              = OPENAI_API_KEY host).
  { intros cfg N. unfold key_of_environment.
    apply String.eqb_neq in N. rewrite N. reflexivity. }
  destruct (UserHomeDir host) as [home|e0].
  2: { cbn. repeat split; try discriminate; auto. }
  destruct (ReadInConfig host) as [| |e1] eqn:R.
  - destruct (viper_Unmarshal host) as [cfg0|e2]; cbn.
    + split; [intros cfg E N; inversion E; subst; apply K; exact N|].
      split; [auto|]. split; [discriminate|discriminate].
    + split; [discriminate|]. split; [auto|].
      split; [discriminate|auto].
  - pose proof (keeps_setup s) as W.
    unfold bind, wrapped, saveConfig.
    destruct (InteractiveSetup s) as [[typed|e3] s1]; cbn [fst snd] in *.
    + destruct (WriteFile host ".chat-tui.yaml" (config_text typed))
        as [e4|]; cbn.
      * split; [discriminate|]. split; [congruence|].
        split; [discriminate|]. intros e _. exact W.
      * split; [intros cfg E N; inversion E; subst; apply K; exact N|].
        split; [congruence|].
        split; [|discriminate].
        intros cfg _ E. inversion E; subst. exists typed.
        rewrite W. auto.
    + split; [discriminate|]. split; [congruence|].
      split; [discriminate|]. intros e _. exact W.
  - cbn. split; [discriminate|]. split; [auto|].
    split; [discriminate|auto].
Qed.

(** X25. What [runChat] starts from.  A failure of [Load] is returned
    under the prefix of a failed load, and nothing is started.
    Otherwise the flags override the configuration: the model and
    the address when the flag is not empty, the temperature when
    the flag is above zero (a flag of zero leaves the configured
    temperature), and the stats are hidden when they are switched
    off by the flag or by the configuration.  The client of the
    model the program starts with has these values, its address
    with one slash at its end removed when it ends in a slash (an
    address that ends in two slashes keeps one), and the key and the
    token limit of the configuration; the history holds the system
    prompt when there is one; nothing is running. *)
Theorem flags_override_the_configuration
    (host : Host) (renderer : option error) (flags : cmd.Flags) (s : Sys) :
  let out := cmd.runChat host renderer flags s in
  (forall e, fst (Load host s) = Err e ->
             fst out = Err ("failed to load config: " ++ e)) /\
  (forall w,
      fst out = Ok w ->
      exists cfg,
        fst (Load host s) = Ok cfg /\ renderer = None /\
        let m := runtime.model w in
        llm.GetModel (ui.client m) =
          (if String.eqb (cmd.flag_model flags) "" then Config.Model cfg
           else cmd.flag_model flags) /\
        llm.GetTemperature (ui.client m) =
          (if PrimFloat.ltb 0 (cmd.flag_temperature flags)
           then cmd.flag_temperature flags else Config.Temperature cfg) /\
        llm.baseURL (ui.client m) =
          TrimSuffix (if String.eqb (cmd.flag_base_url flags) ""
                      then Config.BaseURL cfg else cmd.flag_base_url flags)
                     "/" /\
        components.visible (ui.stats m) =
          UIConfig.ShowStats (Config.UI cfg)
          && negb (cmd.flag_no_stats flags) /\
        llm.apiKey (ui.client m) = Config.APIKey cfg /\
        llm.maxTokens (ui.client m) = Config.MaxTokens cfg /\
        ui.messages m =
          (if String.eqb (Config.SystemPrompt cfg) "" then []
           else [Message.mk "system" (Config.SystemPrompt cfg)]) /\
        ui.streaming m = false /\
        runtime.running w = [] /\ runtime.halted w = false).
Proof.
  intros out. subst out. unfold cmd.runChat, wrapped.
  destruct (Load host s) as [[cfg|e0] s1]; cbn [fst snd].
  - split; [discriminate|].
    intros w E. destruct renderer as [e1|]; [discriminate|].
    inversion E; subst w. clear E.
    exists cfg. split; [reflexivity|]. split; [reflexivity|].
    unfold cmd.override, runtime.boot.
    destruct cfg as [k u mo te mt sp [th ss sh] dbg].
    destruct flags as [fc fm ft fu fn].
    cbn [cmd.flag_model cmd.flag_temperature cmd.flag_base_url
         cmd.flag_no_stats].
    destruct (String.eqb fm ""); destruct (PrimFloat.ltb 0 ft);
      destruct (String.eqb fu ""); destruct fn; destruct ss;
      cbn -[TrimSuffix String.eqb];
      destruct (String.eqb sp ""); repeat split.
  - split; [intros e E; inversion E; reflexivity|discriminate].
Qed.

End WithLib.

(** X25, at a machine with a configuration file, the flag of a model
    and the flag that hides the stats. *)
Lemma flags_witness :
  exists w,
    fst (@cmd.runChat AsciiLib.lib AsciiMore.lib start_samples.configured
           None start_samples.flags start_samples.silent_terminal) = Ok w /\
    llm.GetModel (ui.client (runtime.model w)) = "mistral" /\
    llm.GetTemperature (ui.client (runtime.model w)) = 0.5%float /\
    llm.apiKey (ui.client (runtime.model w)) = "sk-env" /\
    components.visible (ui.stats (runtime.model w)) = false.
Proof.
  eexists. split; [reflexivity|].
  destruct (proj2 (@flags_override_the_configuration AsciiLib.lib
                     AsciiMore.lib start_samples.configured None
                     start_samples.flags start_samples.silent_terminal)
                  _ eq_refl)
    as (cfg & L & _ & M & T & _ & V & K & _).
  inversion L; subst cfg. clear L.
  split; [exact M|]. split; [exact T|]. split; [exact K|exact V].
Defined.

(** [NewOpenAIClient] removes one slash from the end of the address. *)
Example two_slashes_keep_one :
  llm.baseURL (llm.NewOpenAIClient "key" "http://h/v1//" "llama2" 0.5%float
                                   4096) = "http://h/v1/" /\
  llm.baseURL (llm.NewOpenAIClient "key" "http://h/v1/" "llama2" 0.5%float
                                   4096) = "http://h/v1" /\
  llm.baseURL (llm.NewOpenAIClient "key" "http://h/v1" "llama2" 0.5%float
                                   4096) = "http://h/v1".
Proof. vm_compute. repeat split. Qed.

(** The setup on six answers and a seventh line, and the file saved
    after it.  Typed at a terminal, the seventh line is left to be
    read; delivered from a file in one read, it is lost. *)
Example setup_on_six_answers :
  fst (@InteractiveSetup AsciiLib.lib AsciiMore.lib start_samples.six_answers)
  = Ok (Config.mk "sk-typed" "https://api.openai.com/v1" "gpt-4" 1.5%float
                  4096 "Be brief" (UIConfig.mk "dark" true true)
                  (DebugConfig.mk false ".chat-tui.log")) /\
  stdin (snd (@InteractiveSetup AsciiLib.lib AsciiMore.lib
                start_samples.six_answers)) = [sse.raw "hello"] /\
  fst (@InteractiveSetup AsciiLib.lib AsciiMore.lib
         start_samples.six_answers_of_a_file)
  = fst (@InteractiveSetup AsciiLib.lib AsciiMore.lib
           start_samples.six_answers) /\
  stdin (snd (@InteractiveSetup AsciiLib.lib AsciiMore.lib
                start_samples.six_answers_of_a_file)) = [] /\
  Config.APIKey
    match fst (@Load AsciiLib.lib AsciiMore.lib start_samples.fresh
                 start_samples.six_answers) with
    | Ok cfg => cfg
    | Err _ => defaultConfig
    end = "sk-env" /\
  map fst (written (snd (@Load AsciiLib.lib AsciiMore.lib start_samples.fresh
                           start_samples.six_answers)))
  = [".chat-tui.yaml"].
Proof. vm_compute. repeat split. Qed.

End config_extras.

(* ================================================================== *)
(** * Properties of the arguments of a command                          *)
(* ================================================================== *)

Module args_extras.

Import getters.

Section WithLib.
Context `{GoLib} `{GoMore}.

Lemma arg_in_range (c : Command.t) (i : Z) :
  0 <= i < slice_len (Command.Args c) -> exists a, arg c i = Some a.
Proof. apply input_extras.at_index_some. Qed.

(** X26. What validation promises the getters.  [ValidateArgs]
    accepts exactly the argument lists with at least [min] entries
    and, when [max] is above zero, at most [max] entries; a [max] of
    zero or less sets no upper limit.  Every index from 0 below the
    number of arguments is read by the three getters without error
    of range: [GetStringArg] returns the argument, [GetIntArg] and
    [GetFloatArg] return the number it parses to or the error of an
    invalid value with the argument in it.  At an index from the
    number of arguments on, the three getters return the same error
    of an argument not found; a negative index makes them panic. *)
Theorem validated_arguments_are_there (c : Command.t) (min max : Z) :
  let n := slice_len (Command.Args c) in
  (commands.ValidateArgs c min max = None <->
   min <= n /\ (max <= 0 \/ n <= max)) /\
  (forall i, 0 <= i < n ->
     exists a,
       arg c i = Some a /\
       GetStringArg c i = Returns (Ok a) /\
       GetIntArg c i =
         Returns (match Atoi a with
                  | Some v => Ok v
                  | None => Err ("invalid integer value: " ++ a)
                  end) /\
       commands.GetFloatArg c i =
         match ParseFloat a with
         | Some v => Ok v
         | None => Err ("invalid float value: " ++ a)
         end) /\
  (forall i, n <= i ->
     GetStringArg c i = Returns (Err ("argument " ++ itoa i ++ " not found")) /\
     GetIntArg c i = Returns (Err ("argument " ++ itoa i ++ " not found")) /\
     commands.GetFloatArg c i = Err ("argument " ++ itoa i ++ " not found")) /\
  (forall i, i < 0 -> GetStringArg c i = Panics /\ GetIntArg c i = Panics).
Proof.
  intros n. subst n.
  pose proof (chat_extras.slice_len_nonneg (Command.Args c)) as N.
  split; [|split; [|split]].
  - unfold commands.ValidateArgs.
    destruct (Z.ltb_spec (slice_len (Command.Args c)) min) as [A|A].
    + split; [discriminate|lia].
    + destruct (Z.ltb_spec 0 max) as [B|B]; cbn [andb].
      * destruct (Z.ltb_spec max (slice_len (Command.Args c))) as [D|D].
        -- split; [discriminate|lia].
        -- split; [intros _; lia|reflexivity].
      * split; [intros _; lia|reflexivity].
  - intros i R. destruct (arg_in_range c i R) as [a A].
    exists a. split; [exact A|].
    unfold GetStringArg, GetIntArg, commands.GetFloatArg.
    destruct (Z.leb_spec (slice_len (Command.Args c)) i) as [L|L]; [lia|].
    unfold arg in A. unfold arg. rewrite A.
    split; [reflexivity|]. split.
    + destruct (Atoi a); reflexivity.
    + destruct (ParseFloat a); reflexivity.
  - intros i R. unfold GetStringArg, GetIntArg, commands.GetFloatArg.
    destruct (Z.leb_spec (slice_len (Command.Args c)) i) as [L|L]; [|lia].
    auto.
  - intros i R. unfold GetStringArg, GetIntArg, arg, commands.at_index.
    destruct (Z.leb_spec (slice_len (Command.Args c)) i) as [L|L]; [lia|].
    destruct (Z.ltb_spec i 0) as [Q|Q]; [|lia]. auto.
Qed.

End WithLib.

Example getters_on_two_arguments :
  @commands.ValidateArgs start_samples.two_args 1 1
    = Some "command /temp accepts at most 1 argument(s)" /\
  commands.ValidateArgs start_samples.two_args 1 0 = None /\
  @commands.GetFloatArg AsciiLib.lib start_samples.two_args 0
    = Ok 0.5%float /\
  @GetIntArg AsciiMore.lib start_samples.two_args 1
    = Returns (Err "invalid integer value: x") /\
  GetStringArg start_samples.two_args 2
    = Returns (Err "argument 2 not found").
Proof. vm_compute. repeat split. Qed.

End args_extras.

(* ================================================================== *)
(** * What the screen shows                                             *)
(* ================================================================== *)

Module render_extras.

Import llm sse sse_facts ui render screen.

Lemma split_lines_nonempty s : forall cur, split_lines cur s <> [].
Proof.
  induction s as [|c s IH]; intros cur; cbn [split_lines].
  - discriminate.
  - destruct (Ascii.eqb c newline); [discriminate|apply IH].
Qed.

Lemma Join_cons x rest sep :
  rest <> [] -> Join (x :: rest) sep = (x ++ sep ++ Join rest sep)%string.
Proof. destruct rest; [congruence|reflexivity]. Qed.

(** Joining the lines of a text gives the text back. *)
Lemma Join_split_lines s : forall cur,
  Join (split_lines cur s) nl = (cur ++ s)%string.
Proof.
  induction s as [|c s IH]; intros cur; cbn [split_lines].
  - rewrite chat_claims.append_nil_r. reflexivity.
  - destruct (Ascii.eqb_spec c newline) as [Q|Q].
    + rewrite Join_cons by apply split_lines_nonempty.
      rewrite IH, Q. reflexivity.
    + rewrite IH, append_assoc. reflexivity.
Qed.

Lemma split_lines_one_line x : forall cur s,
  one_line x = true ->
  split_lines cur (x ++ s) = split_lines (cur ++ x) s.
Proof.
  induction x as [|c x IH]; intros cur s O; cbn [String.append].
  - rewrite chat_claims.append_nil_r. reflexivity.
  - cbn [one_line] in O. apply andb_true_iff in O. destruct O as [N O].
    cbn [split_lines]. apply negb_true_iff in N. rewrite N.
    rewrite (IH _ _ O), append_assoc. reflexivity.
Qed.

(** Splitting the join of lines gives the lines back. *)
Lemma split_Join lines :
  lines <> [] -> forallb one_line lines = true ->
  Split_nl (Join lines nl) = lines.
Proof.
  unfold Split_nl.
  induction lines as [|x rest IH]; intros N O; [congruence|].
  cbn [forallb] in O. apply andb_true_iff in O. destruct O as [Ox O].
  destruct rest as [|y rest].
  - cbn [Join]. rewrite <- (chat_claims.append_nil_r x) at 1.
    rewrite (split_lines_one_line x "" "" Ox). reflexivity.
  - rewrite Join_cons by discriminate.
    rewrite (split_lines_one_line x "" _ Ox).
    cbn [String.append nl split_lines]. rewrite Ascii.eqb_refl.
    f_equal. apply IH; [discriminate|exact O].
Qed.

Lemma one_line_app a b :
  one_line (a ++ b) = one_line a && one_line b.
Proof.
  induction a as [|c a IH]; [reflexivity|].
  cbn [String.append one_line]. rewrite IH, andb_assoc. reflexivity.
Qed.

Lemma split_lines_all_one_line s : forall cur,
  one_line cur = true -> forallb one_line (split_lines cur s) = true.
Proof.
  induction s as [|c s IH]; intros cur O; cbn [split_lines].
  - cbn. rewrite O. reflexivity.
  - destruct (Ascii.eqb c newline) eqn:Q.
    + cbn [forallb]. rewrite O. apply IH. reflexivity.
    + apply IH. rewrite one_line_app, O. cbn [one_line andb].
      rewrite Q. reflexivity.
Qed.

Lemma Join_app a b :
  a <> [] -> b <> [] ->
  Join (a ++ b) nl = (Join a nl ++ nl ++ Join b nl)%string.
Proof.
  induction a as [|x a IH]; intros Na Nb; [congruence|].
  destruct a as [|y a].
  - cbn [app]. apply Join_cons. exact Nb.
  - change ((x :: y :: a) ++ b)%list with (x :: ((y :: a) ++ b))%list.
    rewrite Join_cons by discriminate.
    rewrite IH by (discriminate || exact Nb).
    rewrite (Join_cons x (y :: a)) by discriminate.
    rewrite !append_assoc. reflexivity.
Qed.

Lemma forallb_skipn {A} (p : A -> bool) (xs : list A) n :
  forallb p xs = true -> forallb p (skipn n xs) = true.
Proof.
  revert n. induction xs as [|x xs IH]; intros [|n] P; try exact P.
  cbn [forallb] in P. apply andb_true_iff in P. apply IH, P.
Qed.

Section WithLib.
Context `{GoLib} `{GoMore}.

(** The parts of the status line of a record whose total is zero. *)
Lemma compact_parts_of_stream (c : OpenAIClient) (resp : Response)
    (clk : Clock) :
  let s := llm.stats (stream_end c resp clk) in
  RequestStats.TotalTokens s = 0 /\
  (RequestStats.Latency s = 0 ->
   RequestStats.TimeToFirstToken s = 0 /\
   RequestStats.PostFirstTokenSpeed s = 0%float /\
   RequestStats.TokensPerSec s = 0%float) /\
  (RequestStats.OutputTokens s = 0 ->
   RequestStats.TimeToFirstToken s = 0 /\
   RequestStats.PostFirstTokenSpeed s = 0%float /\
   RequestStats.TokensPerSec s = 0%float).
Proof.
  intros s. subst s. rewrite stream_end_record.
  cbn [RequestStats.TotalTokens RequestStats.Latency
       RequestStats.TimeToFirstToken RequestStats.PostFirstTokenSpeed
       RequestStats.TokensPerSec RequestStats.OutputTokens].
  rewrite stream_claims.any_tokens.
  set (n := Z.of_nat (List.length (texts_of resp))).
  pose proof (start_le_first clk) as L1.
  pose proof (first_le_end clk) as L2.
  split; [reflexivity|]. split.
  - destruct (Z.ltb_spec 0 n) as [Pn|Pn].
    + intros Z0.
      pose proof (Sub_nonneg _ _ L1) as A0.
      pose proof (Sub_mono _ _ (start_time clk) L2) as A1.
      pose proof (Sub_nonneg _ _ L2) as B0.
      pose proof (stream_extras.Sub_anti (end_time clk true) _ _ L1) as B1.
      rewrite Z0. rewrite Z0 in A1, B1.
      replace (0 <? Sub (end_time clk true) (first_token_time clk))
        with false by (symmetry; apply Z.ltb_ge; lia).
      rewrite !andb_false_r. cbn.
      split; [apply Z.le_antisymm; assumption|]. split; reflexivity.
    + intros Z0. rewrite Z0. cbn. repeat split.
  - intros N0. rewrite N0. cbn. repeat split.
Qed.


Lemma record_of_stream (c : OpenAIClient) (msgs : list Message.t)
    (net : Exchange) (clk : Clock) :
  let s := llm.stats (snd (stream c msgs net clk)) in
  RequestStats.TotalTokens s = 0 /\
  (RequestStats.Latency s = 0 ->
   RequestStats.TimeToFirstToken s = 0 /\
   RequestStats.PostFirstTokenSpeed s = 0%float /\
   RequestStats.TokensPerSec s = 0%float) /\
  (RequestStats.OutputTokens s = 0 ->
   RequestStats.TimeToFirstToken s = 0 /\
   RequestStats.PostFirstTokenSpeed s = 0%float /\
   RequestStats.TokensPerSec s = 0%float).
Proof.
  destruct (stream_extras.stream_cases c msgs net clk)
    as [(e & E & R & T)|[(resp & N & S & E)|(resp & N & S & E)]].
  - rewrite T. cbn. repeat split.
  - rewrite E. cbn. repeat split.
  - rewrite E. cbn [snd]. apply compact_parts_of_stream.
Qed.

Lemma parts_of_zero_total (s : RequestStats.t) :
  RequestStats.TotalTokens s = 0 ->
  compact_parts s = parts_without_total s.
Proof.
  intros T. unfold compact_parts, parts_without_total, append.
  rewrite T. cbn [Z.ltb Z.compare].
  destruct (0 <? RequestStats.TimeToFirstToken s);
    destruct (PrimFloat.ltb 0 (RequestStats.PostFirstTokenSpeed s));
    destruct (PrimFloat.ltb 0 (RequestStats.TokensPerSec s));
    destruct (0 <? RequestStats.Latency s); reflexivity.
Qed.

(** X27. The status line under the input never shows a token count
    after a streamed reply: [ChatStream] leaves [TotalTokens] at zero,
    so the parts are the time to the first token, one speed and the
    latency, each when positive.  Without a token only the latency is
    shown; with a latency of zero the line is empty; with a positive
    latency the latency is the last part between the brackets. *)
Theorem a_streamed_reply_shows_no_token_count
    (c : OpenAIClient) (msgs : list Message.t) (net : Exchange)
    (clk : Clock) :
  let s := llm.stats (snd (stream c msgs net clk)) in
  let latency := Sprintf_2f (Seconds (RequestStats.Latency s)) ++ "s" in
  compact_parts s = parts_without_total s /\
  (RequestStats.OutputTokens s = 0 ->
   compact_parts s = if 0 <? RequestStats.Latency s then [latency] else [])
  /\
  (RequestStats.Latency s = 0 ->
   forall visible, RenderCompactStats visible (Some s) = "") /\
  (0 < RequestStats.Latency s ->
   RenderCompactStats true (Some s) =
     Render lipgloss.statsHelpStyle
       ("[" ++ Join (compact_parts s) parts_separator ++ "]") /\
   last (compact_parts s) "" = latency).
Proof.
  intros s latency.
  destruct (record_of_stream c msgs net clk) as (T & Z0 & N0).
  fold s in T, Z0, N0.
  pose proof (parts_of_zero_total s T) as P.
  split; [exact P|]. split; [|split].
  - intros N. destruct (N0 N) as (A & B & C).
    rewrite P. unfold parts_without_total. rewrite A, B, C.
    reflexivity.
  - intros L visible. destruct (Z0 L) as (A & B & C).
    unfold RenderCompactStats. rewrite P. unfold parts_without_total.
    rewrite A, B, C, L. destruct visible; reflexivity.
  - intros L. unfold RenderCompactStats. rewrite P.
    unfold parts_without_total.
    apply Z.ltb_lt in L. rewrite L.
    fold latency.
    destruct (0 <? RequestStats.TimeToFirstToken s);
      destruct (PrimFloat.ltb 0 (RequestStats.PostFirstTokenSpeed s));
      destruct (PrimFloat.ltb 0 (RequestStats.TokensPerSec s));
      split; reflexivity.
Qed.


(** A selection outside the lines shown highlights none of them. *)
Lemma suggestion_lines_unmarked (selected : Z) (shown : list CommandDef.t) :
  forall i,
    selected < i \/ i + slice_len shown <= selected ->
    suggestion_lines i selected shown = unmarked shown.
Proof.
  induction shown as [|cmd rest IH]; intros i O; [reflexivity|].
  cbn [suggestion_lines unmarked fold_right].
  unfold slice_len in O. cbn [List.length] in O.
  destruct (Z.eqb_spec i selected) as [Q|Q]; [lia|].
  rewrite IH by (unfold slice_len; lia).
  unfold plain_line, unmarked.
  rewrite append_assoc. reflexivity.
Qed.

(** X28. Only the first five suggestions are listed, while Down moves
    the selection through all of them.  When the selection is past
    the fifth, no line is highlighted and the list looks the same
    whichever of the hidden suggestions is selected; Tab nevertheless
    completes the input to the hidden command, and Enter on a command
    text runs it. *)
Theorem a_selection_past_the_fifth_is_not_shown (m : ChatModel)
    (K : 5 <= selectedSuggestion m < slice_len (suggestions m))
    (S : streaming m = false) :
  renderSuggestions m =
    Render lipgloss.HelpStyle
      "Suggestions (Enter/Tab to complete, ↑↓ to navigate):" ++ nl ++
    unmarked (firstn 5 (suggestions m)) ++
    Render lipgloss.HelpStyle
      ("  ... and " ++ itoa (slice_len (suggestions m) - 5) ++ " more")
      ++ nl /\
  (forall k, 5 <= k ->
     renderSuggestions (set_selectedSuggestion m k) = renderSuggestions m) /\
  exists cmd,
    nth_error (suggestions m) (Z.to_nat (selectedSuggestion m)) = Some cmd /\
    Update m (Lib (tea.Key tab)) =
      Continue
        (set_selectedSuggestion
           (set_suggestions
              (set_input m
                 (components.SetValue (input m)
                    ("/" ++ CommandDef.Name cmd ++ " ")))
              []) 0)
        CmdNil /\
    (let text := TrimSpace (components.Value (input m)) in
     text <> "" -> commands.IsCommand text = true ->
     commands.IsCommand ("/" ++ CommandDef.Name cmd) = true ->
     Update m (Lib (tea.Key chat.enter)) =
       let (m', c) :=
         handleCommand (set_selectedSuggestion (set_suggestions m []) 0)
                       ("/" ++ CommandDef.Name cmd) in
       Continue m' c).
Proof.
  assert (R : forall k, 5 <= k ->
            renderSuggestions (set_selectedSuggestion m k) =
            Render lipgloss.HelpStyle
              "Suggestions (Enter/Tab to complete, ↑↓ to navigate):" ++ nl ++
            unmarked (firstn 5 (suggestions m)) ++
            Render lipgloss.HelpStyle
              ("  ... and " ++ itoa (slice_len (suggestions m) - 5)
                 ++ " more") ++ nl).
  { intros k Hk. unfold renderSuggestions.
    cbn [suggestions selectedSuggestion set_selectedSuggestion].
    destruct (Z.eqb_spec (slice_len (suggestions m)) 0) as [Q|Q]; [lia|].
    destruct (Z.ltb_spec 5 (slice_len (suggestions m))) as [Q5|Q5]; [|lia].
    change (Z.to_nat 5) with 5%nat.
    rewrite suggestion_lines_unmarked; [reflexivity|].
    right. unfold slice_len. rewrite length_firstn.
    unfold slice_len in Q5. lia. }
  split; [|split].
  - rewrite <- (R (selectedSuggestion m)) by lia.
    destruct m; reflexivity.
  - intros k Hk. rewrite (R k Hk).
    rewrite <- (R (selectedSuggestion m)) by lia.
    destruct m; reflexivity.
  - destruct (chat_extras.at_index_in_range (suggestions m)
                (selectedSuggestion m)) as [cmd A]; [lia|].
    exists cmd. split; [|split].
    + unfold commands.at_index in A.
      destruct (Z.ltb_spec (selectedSuggestion m) 0); [lia|exact A].
    + cbn [Update]. unfold key_msg. rewrite S. cbn [tab tea.Type_].
      destruct (Z.ltb_spec 0 (slice_len (suggestions m))); [|lia].
      rewrite A. reflexivity.
    + intros text N C C'. cbn [Update]. unfold key_msg. rewrite S.
      cbn [chat.enter tea.Type_]. unfold key_enter. fold text.
      destruct (String.eqb_spec text "") as [Q|Q]; [contradiction|].
      rewrite C.
      destruct (Z.ltb_spec 0 (slice_len (suggestions m))); [|lia].
      cbn [andb]. rewrite A, C'. reflexivity.
Qed.


Lemma renderMessages_conversation (m : ChatModel) (maxHeight : Z) :
  renderMessages m maxHeight =
  Join (if (0 <? maxHeight)
           && (maxHeight <? slice_len (Split_nl (conversation m)))
        then last_n (Z.to_nat maxHeight) (Split_nl (conversation m))
        else Split_nl (conversation m)) nl.
Proof.
  unfold renderMessages, conversation, cursor.
  destruct (streaming m && negb (String.eqb (streamContent m) ""));
    [reflexivity|].
  destruct (streaming m); [reflexivity|].
  rewrite chat_claims.append_nil_r. reflexivity.
Qed.

(** X29. [renderMessages] returns the conversation unchanged when the
    height is not positive or the conversation has no more lines than
    the height.  Otherwise it returns exactly as many lines as the
    height, and they are the last lines of the conversation: the
    conversation is some text, a newline and what is returned. *)
Theorem render_messages_keeps_the_last_lines (m : ChatModel)
    (maxHeight : Z) :
  let content := conversation m in
  let lines := Split_nl content in
  (maxHeight <= 0 \/ slice_len lines <= maxHeight ->
   renderMessages m maxHeight = content) /\
  (0 < maxHeight < slice_len lines ->
   Split_nl (renderMessages m maxHeight)
     = last_n (Z.to_nat maxHeight) lines /\
   slice_len (Split_nl (renderMessages m maxHeight)) = maxHeight /\
   exists cut, content = cut ++ nl ++ renderMessages m maxHeight).
Proof.
  intros content lines.
  rewrite renderMessages_conversation. fold content. fold lines.
  assert (J : Join lines nl = content).
  { unfold lines, Split_nl. rewrite Join_split_lines. reflexivity. }
  assert (O : forallb one_line lines = true).
  { apply split_lines_all_one_line. reflexivity. }
  split.
  - intros L.
    replace ((0 <? maxHeight) && (maxHeight <? slice_len lines))
      with false; [exact J|].
    symmetry. apply andb_false_iff.
    destruct L as [L|L]; [left; apply Z.ltb_ge|right; apply Z.ltb_ge]; lia.
  - intros [L U].
    replace ((0 <? maxHeight) && (maxHeight <? slice_len lines))
      with true
      by (symmetry; apply andb_true_iff; split; apply Z.ltb_lt; lia).
    unfold last_n. unfold slice_len in U.
    set (k := (List.length lines - Z.to_nat maxHeight)%nat).
    assert (Lk : (0 < k < List.length lines)%nat) by (unfold k; lia).
    assert (Nb : skipn k lines <> []).
    { intros Q. apply (f_equal (@List.length string)) in Q.
      rewrite length_skipn in Q. cbn in Q. lia. }
    assert (Na : firstn k lines <> []).
    { intros Q. apply (f_equal (@List.length string)) in Q.
      rewrite length_firstn in Q. cbn in Q. lia. }
    rewrite split_Join by (exact Nb || apply forallb_skipn, O).
    split; [reflexivity|]. split.
    + unfold slice_len. rewrite length_skipn. unfold k. lia.
    + exists (Join (firstn k lines) nl).
      rewrite <- Join_app by assumption.
      rewrite firstn_skipn. symmetry. exact J.
Qed.


Lemma history_text_app a b :
  history_text (a ++ b) = (history_text a ++ history_text b)%string.
Proof.
  induction a as [|x a IH]; [reflexivity|].
  cbn [app history_text].
  destruct (String.eqb (Message.Role x) "system"); [exact IH|].
  rewrite IH, !append_assoc. reflexivity.
Qed.

Lemma history_text_shown msgs :
  history_text (shown_messages msgs) = history_text msgs.
Proof.
  unfold shown_messages.
  induction msgs as [|x msgs IH]; [reflexivity|].
  cbn [filter history_text].
  unfold not_system at 1. unfold role_is.
  destruct (String.eqb (Message.Role x) "system") eqn:Q; cbn [negb].
  - exact IH.
  - cbn [history_text]. rewrite Q, IH. reflexivity.
Qed.

Lemma history_text_system msgs text :
  history_text (append msgs (Message.mk "system" text)) = history_text msgs.
Proof.
  unfold append. rewrite history_text_app. cbn. apply chat_claims.append_nil_r.
Qed.

Lemma after_switch_messages m text :
  messages (fst (after_switch m text)) = messages m.
Proof. destruct m; reflexivity. Qed.

Lemma copy_loop_shown m : forall backwards,
  history_text (messages (copy_loop m backwards)) = history_text (messages m).
Proof.
  induction backwards as [|msg earlier IH]; [reflexivity|].
  cbn [copy_loop].
  destruct (role_is "assistant" msg); [|exact IH].
  destruct (clipboard_WriteAll (Message.Content msg)).
  - destruct m; reflexivity.
  - destruct m. cbn [set_err set_messages messages].
    apply history_text_system.
Qed.

Lemma delete_case_shown m :
  exists gone,
    history_text (messages m)
      = (history_text (messages (delete_case m)) ++ gone)%string.
Proof.
  unfold delete_case.
  destruct (2 <=? slice_len (messages m)).
  - destruct (role_is "assistant" (last (messages m) (Message.mk "" ""))).
    + exists (history_text
                (skipn (List.length (messages m) - 2) (messages m))).
      destruct m. cbn [set_err set_messages messages]. unfold drop_last.
      rewrite <- history_text_app, firstn_skipn. reflexivity.
    + exists (history_text
                (skipn (List.length (messages m) - 1) (messages m))).
      destruct m. cbn [set_err set_messages messages]. unfold drop_last.
      rewrite <- history_text_app, firstn_skipn. reflexivity.
  - exists "". destruct m. cbn [set_err messages].
    rewrite chat_claims.append_nil_r. reflexivity.
Qed.

(** What a command does to the conversation shown. *)
Lemma handleCommand_shown (m : ChatModel) (text : string) :
  let m' := fst (handleCommand m text) in
  match commands.ParseCommand text with
  | Err _ => messages m' = messages m
  | Ok cmd =>
      let name := Command.Name cmd in
      if String.eqb name "help" then
        messages m' =
          append (messages m) (Message.mk "assistant" commands.CommandHelp)
      else if String.eqb name "new" || String.eqb name "clear" then
        history_text (messages m') = ""
      else if String.eqb name "delete" then
        exists gone,
          history_text (messages m)
            = (history_text (messages m') ++ gone)%string
      else history_text (messages m') = history_text (messages m)
  end.
Proof.
  intros m'. subst m'. unfold handleCommand.
  destruct (commands.ParseCommand text) as [cmd|e];
    [|destruct m; reflexivity].
  cbv zeta.
  destruct (String.eqb (Command.Name cmd) "help");
    [rewrite after_switch_messages; destruct m; reflexivity|].
  destruct (String.eqb (Command.Name cmd) "new"
            || String.eqb (Command.Name cmd) "clear").
  { rewrite after_switch_messages.
    destruct m as [cfg cl msgs inp sts stg sc ch ss er w h sp rd sg sel sb].
    cbn [set_messages systemPrompt messages].
    destruct (negb (String.eqb sp "")); reflexivity. }
  destruct (String.eqb_spec (Command.Name cmd) "reload") as [Q|Q];
    [rewrite Q; reflexivity|].
  destruct (String.eqb (Command.Name cmd) "delete").
  { rewrite after_switch_messages. apply delete_case_shown. }
  destruct (String.eqb (Command.Name cmd) "stats");
    [rewrite after_switch_messages; destruct m; reflexivity|].
  destruct (String.eqb (Command.Name cmd) "temp").
  { destruct (commands.ValidateArgs cmd 1 1); [destruct m; reflexivity|].
    destruct (commands.GetFloatArg cmd 0) as [temp|e];
      [|destruct m; reflexivity].
    destruct (PrimFloat.ltb temp 0 || PrimFloat.ltb 2 temp);
      [destruct m; reflexivity|].
    rewrite after_switch_messages. destruct m.
    cbn [set_client set_err set_messages messages].
    apply history_text_system. }
  destruct (String.eqb (Command.Name cmd) "system").
  { destruct (commands.ValidateArgs cmd 1 0); [destruct m; reflexivity|].
    rewrite after_switch_messages.
    destruct m as [cfg cl msgs inp sts stg sc ch ss er w h sp rd sg sel sb].
    cbn [set_systemPrompt set_err set_messages messages].
    destruct msgs as [|m0 rest]; [reflexivity|].
    unfold role_is.
    destruct (String.eqb (Message.Role m0) "system") eqn:R.
    - cbn [set_messages ui.messages history_text Message.Role].
      rewrite R. reflexivity.
    - reflexivity. }
  destruct (String.eqb (Command.Name cmd) "copy");
    [rewrite after_switch_messages; apply copy_loop_shown|].
  destruct (String.eqb (Command.Name cmd) "multiline");
    [rewrite after_switch_messages; destruct m; reflexivity|].
  destruct (String.eqb (Command.Name cmd) "exit"); [reflexivity|].
  rewrite after_switch_messages. destruct m; reflexivity.
Qed.

(** X30. [View] never renders a message of the role [system], so the
    notices that [/temp] and [/copy] append and the prompt that
    [/system] sets do not appear on the screen.  [/help] is the only
    command that adds to the conversation shown: it adds the help
    text as an assistant message.  After any other command the
    conversation shown is unchanged, or, after [/new], [/clear] and
    [/delete], a part of it from its start. *)
Theorem only_help_adds_to_the_conversation_shown
    (m : ChatModel) (text : string) :
  let m' := fst (handleCommand m text) in
  (forall st,
     View m st = View (set_messages m (shown_messages (messages m))) st) /\
  (forall cmd, commands.ParseCommand text = Ok cmd ->
     Command.Name cmd = "help" ->
     history_text (messages m') =
       history_text (messages m)
         ++ RenderMessage "assistant" commands.CommandHelp ++ nl) /\
  (forall cmd, commands.ParseCommand text = Ok cmd ->
     Command.Name cmd <> "help" ->
     exists gone,
       history_text (messages m) = history_text (messages m') ++ gone) /\
  (forall cmd, commands.ParseCommand text = Ok cmd ->
     In (Command.Name cmd) ["temp"; "copy"; "system"] ->
     history_text (messages m') = history_text (messages m)) /\
  (commands.ParseCommand text = Err "not a command" \/
   commands.ParseCommand text = Err "empty command" ->
   messages m' = messages m).
Proof.
  intros m'. pose proof (handleCommand_shown m text) as P.
  cbv zeta in P. fold m' in P.
  split; [|split; [|split; [|split]]].
  - intros st. unfold View. destruct m.
    cbn [set_messages ready messages streaming streamContent err
         suggestions input ui.stats config].
    rewrite history_text_shown. reflexivity.
  - intros cmd E N. rewrite E, N in P. cbn in P. rewrite P.
    unfold append. rewrite history_text_app.
    cbn [history_text Message.Role Message.Content].
    change (String.eqb "assistant" "system") with false. reflexivity.
  - intros cmd E N. rewrite E in P.
    apply String.eqb_neq in N. rewrite N in P.
    destruct (String.eqb (Command.Name cmd) "new"
              || String.eqb (Command.Name cmd) "clear").
    { exists (history_text (messages m)). rewrite P. reflexivity. }
    destruct (String.eqb (Command.Name cmd) "delete"); [exact P|].
    exists "". rewrite P, chat_claims.append_nil_r. reflexivity.
  - intros cmd E I. rewrite E in P.
    destruct I as [I|[I|[I|[]]]]; rewrite <- I in P; exact P.
  - intros [E|E]; rewrite E in P; exact P.
Qed.

End WithLib.

(** The session in which [/] is typed and Down is pressed five times
    ends with the sixth of nineteen suggestions selected. *)
Lemma selection_past_the_fifth_witness :
  @renderSuggestions AsciiMore.lib (runtime.model fifth_down) =
    @Render AsciiMore.lib lipgloss.HelpStyle
      "Suggestions (Enter/Tab to complete, ↑↓ to navigate):" ++ nl ++
    @unmarked AsciiMore.lib
      (firstn 5 (suggestions (runtime.model fifth_down))) ++
    @Render AsciiMore.lib lipgloss.HelpStyle
      ("  ... and "
         ++ itoa (slice_len (suggestions (runtime.model fifth_down)) - 5)
         ++ " more")
      ++ nl.
Proof.
  refine (proj1 (@a_selection_past_the_fifth_is_not_shown
                   AsciiLib.lib AsciiMore.lib (runtime.model fifth_down)
                   _ _)).
  - vm_compute. split; [intros Q; discriminate Q|reflexivity].
  - reflexivity.
Defined.

End render_extras.
